(** * sportsreference: boxscore parsing for MLB and NCAAF

    A shallow embedding of [sportsreference/mlb/boxscore.py] and
    [sportsreference/ncaaf/boxscore.py].

    Python objects are modelled as follows.
    - [str] is [string]; a character is a code point below 256.
    - An exception is a constructor of [exn]; a computation that may raise
      has type [result A].
    - The attribute dictionary of an instance ([self.__dict__]) is an
      association list in insertion order, since [_parse_game_data] iterates
      over it.
    - The collaborators that are not part of these two files are the
      fields of two classes: [Env] for pyquery, the [utils] module and
      [float], and [Constants] for the [constants] module of a sport. *)

From Stdlib Require Import String Ascii List ZArith Bool Lia.
From Stdlib Require Import Decimal DecimalString DecimalNat.
Import ListNotations.
Open Scope string_scope.

(** ** Python primitives *)

Module Py.

(** Exceptions raised by the modelled code.  [HTTPError] and [ParserError]
    stand for what [pq(url)] raises on a failed download or a failed parse. *)
Inductive exn : Type :=
| AttributeError
| TypeError
| ValueError
| IndexError
| KeyError
| HTTPError
| ParserError.

Inductive result (A : Type) : Type :=
| Ok (a : A)
| Raise (e : exn).
Arguments Ok {A} a.
Arguments Raise {A} e.

Definition bind {A B : Type} (m : result A) (k : A -> result B) : result B :=
  match m with
  | Ok a => k a
  | Raise e => Raise e
  end.

Definition fmap {A B : Type} (f : A -> B) (m : result A) : result B :=
  bind m (fun a => Ok (f a)).

(** [try: m  except E: h] for a handler that catches the exceptions
    selected by [catches]. *)
Definition try_except {A : Type} (m : result A) (catches : exn -> bool)
    (h : result A) : result A :=
  match m with
  | Ok a => Ok a
  | Raise e => if catches e then h else Raise e
  end.

Definition is_ValueError (e : exn) : bool :=
  match e with ValueError => true | _ => false end.

(** *** Characters *)

Definition code (c : ascii) : N := N_of_ascii c.

Definition in_range (lo hi : N) (c : ascii) : bool :=
  (lo <=? code c)%N && (code c <=? hi)%N.

Definition is_digit (c : ascii) : bool := in_range 48 57 c.

(** [str.isspace] on code points below 256. *)
Definition is_space (c : ascii) : bool :=
  in_range 9 13 c || in_range 28 32 c
  || (code c =? 133)%N || (code c =? 160)%N.

(** Upper-case letters below 256: A-Z, and the Latin-1 capitals except the
    multiplication sign. *)
Definition is_upper (c : ascii) : bool :=
  in_range 65 90 c
  || (in_range 192 222 c && negb (code c =? 215)%N).

Definition lower_char (c : ascii) : ascii :=
  if is_upper c then ascii_of_N (code c + 32) else c.

(** *** Strings *)

(** [s.lower()] *)
Fixpoint lower (s : string) : string :=
  match s with
  | EmptyString => EmptyString
  | String c s' => String (lower_char c) (lower s')
  end.

(** [s.startswith(p)] *)
Fixpoint startswith (p s : string) : bool :=
  match p, s with
  | EmptyString, _ => true
  | String _ _, EmptyString => false
  | String a p', String b s' => Ascii.eqb a b && startswith p' s'
  end.

(** [sub in s] *)
Fixpoint contains (sub s : string) : bool :=
  match s with
  | EmptyString => startswith sub EmptyString
  | String _ s' => startswith sub s || contains sub s'
  end.

(** The scan of [s.replace(old, new)] for a non-empty [old]: [skip] counts
    the characters of a match of [old] that are still to be passed over. *)
Fixpoint replace_scan (old new : string) (skip : nat) (s : string) : string :=
  match s with
  | EmptyString => EmptyString
  | String c s' =>
      match skip with
      | S k => replace_scan old new k s'
      | O =>
          if startswith old s
          then new ++ replace_scan old new (String.length old - 1) s'
          else String c (replace_scan old new 0 s')
      end
  end.

(** With an empty [old], Python inserts [new] before every character and at
    the end. *)
Fixpoint replace_empty (new s : string) : string :=
  match s with
  | EmptyString => new
  | String c s' => new ++ String c (replace_empty new s')
  end.

(** [s.replace(old, new)] *)
Definition replace (old new s : string) : string :=
  match old with
  | EmptyString => replace_empty new s
  | String _ _ => replace_scan old new 0 s
  end.

(** The scan of [s.split(sep)] for a non-empty [sep]; the result is never
    empty, its head is the part being read. *)
Fixpoint split_scan (sep : string) (skip : nat) (s : string) : list string :=
  match s with
  | EmptyString => [EmptyString]
  | String c s' =>
      match skip with
      | S k => split_scan sep k s'
      | O =>
          if startswith sep s
          then EmptyString :: split_scan sep (String.length sep - 1) s'
          else
            match split_scan sep 0 s' with
            | part :: parts => String c part :: parts
            | [] => [String c EmptyString]
            end
      end
  end.

(** [s.split(sep)]; an empty separator is a [ValueError].  Every call in the
    modelled code passes a one-character literal. *)
Definition split (sep s : string) : result (list string) :=
  match sep with
  | EmptyString => Raise ValueError
  | String _ _ => Ok (split_scan sep 0 s)
  end.

(** [sep.join(parts)] *)
Fixpoint join (sep : string) (parts : list string) : string :=
  match parts with
  | [] => EmptyString
  | [p] => p
  | p :: rest => p ++ sep ++ join sep rest
  end.

(** [s.strip()]: the characters of [str.isspace] removed at both ends. *)
Fixpoint lstrip (s : string) : string :=
  match s with
  | EmptyString => EmptyString
  | String c s' => if is_space c then lstrip s' else s
  end.

Fixpoint rstrip (s : string) : string :=
  match s with
  | EmptyString => EmptyString
  | String c s' =>
      match rstrip s' with
      | EmptyString => if is_space c then EmptyString else String c EmptyString
      | r => String c r
      end
  end.

Definition strip (s : string) : string := rstrip (lstrip s).

(** *** [int(str)] in base 10 *)

(** The white space [int] skips at the two ends of a text: the white space
    of C (tab to carriage return, and the blank), and the white space above
    ASCII, which [int] turns into blanks before it reads the number.  The
    separators U+001C to U+001F, white space for [str.strip], are none for
    [int]: a text that holds one does not convert. *)
Definition is_int_space (c : ascii) : bool :=
  in_range 9 13 c || (code c =? 32)%N
  || (code c =? 133)%N || (code c =? 160)%N.

Fixpoint int_lstrip (s : string) : string :=
  match s with
  | EmptyString => EmptyString
  | String c s' => if is_int_space c then int_lstrip s' else s
  end.

Fixpoint int_rstrip (s : string) : string :=
  match s with
  | EmptyString => EmptyString
  | String c s' =>
      match int_rstrip s' with
      | EmptyString =>
          if is_int_space c then EmptyString else String c EmptyString
      | r => String c r
      end
  end.

Definition int_strip (s : string) : string := int_rstrip (int_lstrip s).

(** Digits with single underscores between them; [prev_digit] tells whether
    the previous character was a digit. *)
Fixpoint int_digits (acc : Z) (prev_digit : bool) (s : string) : option Z :=
  match s with
  | EmptyString => if prev_digit then Some acc else None
  | String c s' =>
      if is_digit c
      then int_digits (10 * acc + (Z.of_N (code c) - 48)) true s'
      else if Ascii.eqb c "_" && prev_digit
      then match s' with
           | String d _ => if is_digit d then int_digits acc false s' else None
           | EmptyString => None
           end
      else None
  end.

Definition int_unsigned (s : string) : option Z :=
  match s with
  | EmptyString => None
  | String c _ => if is_digit c then int_digits 0 false s else None
  end.

Definition int_of_str (s : string) : result Z :=
  let body := int_strip s in
  let parsed :=
    match body with
    | String "-" r => option_map Z.opp (int_unsigned r)
    | String "+" r => int_unsigned r
    | _ => int_unsigned body
    end in
  match parsed with
  | Some z => Ok z
  | None => Raise ValueError
  end.

(** *** Sequences and dictionaries *)

(** [l[i]] for a non-negative index. *)
Definition getitem {A : Type} (l : list A) (i : nat) : result A :=
  match nth_error l i with
  | Some a => Ok a
  | None => Raise IndexError
  end.

(** A [dict] with string keys, in insertion order. *)
Definition dict (V : Type) : Type := list (string * V).

Fixpoint dict_get {V : Type} (d : dict V) (k : string) : option V :=
  match d with
  | [] => None
  | (k', v) :: d' => if String.eqb k k' then Some v else dict_get d' k
  end.

(** [d[k]] *)
Definition dict_item {V : Type} (d : dict V) (k : string) : result V :=
  match dict_get d k with
  | Some v => Ok v
  | None => Raise KeyError
  end.

(** [d[k] = v]: an existing key keeps its place, a new key goes last. *)
Fixpoint dict_set {V : Type} (d : dict V) (k : string) (v : V) : dict V :=
  match d with
  | [] => [(k, v)]
  | (k', v') :: d' =>
      if String.eqb k k' then (k', v) :: d' else (k', v') :: dict_set d' k v
  end.

Definition dict_keys {V : Type} (d : dict V) : list string := map fst d.

(** *** The two shapes of [re.sub] in the modelled code

    Both patterns are a literal next to [.*], the replacement is empty, and
    [.] matches every character but the line feed.  So a match never crosses
    a line feed, and the substitution acts on each line on its own. *)

Definition newline : string := String "010"%char EmptyString.

Fixpoint drop (n : nat) (s : string) : string :=
  match n, s with
  | O, _ => s
  | S _, EmptyString => EmptyString
  | S k, String _ s' => drop k s'
  end.

(** What follows the last occurrence of [lit] in [line], if there is one:
    the greedy [.*] of [.*lit] takes the longest prefix that [lit] ends. *)
Fixpoint after_last (lit line : string) : option string :=
  match line with
  | EmptyString => None
  | String _ rest =>
      match after_last lit rest with
      | Some r => Some r
      | None =>
          if startswith lit line then Some (drop (String.length lit) line)
          else None
      end
  end.

(** What precedes the first occurrence of [lit] in [line], or the whole
    line: [lit.*] matches from the first [lit] to the end of the line. *)
Fixpoint before_first (lit line : string) : string :=
  match line with
  | EmptyString => EmptyString
  | String c rest =>
      if startswith lit line then EmptyString
      else String c (before_first lit rest)
  end.

(** [re.sub('.*' + lit, '', s)] for a non-empty literal without line feed *)
Definition re_sub_through (lit s : string) : string :=
  join newline
    (map (fun line => match after_last lit line with
                      | Some r => r
                      | None => line
                      end)
         (split_scan newline 0 s)).

(** [re.sub(lit + '.*', '', s)] for a non-empty literal without line feed *)
Definition re_sub_from (lit s : string) : string :=
  join newline (map (before_first lit) (split_scan newline 0 s)).

(** *** Loops *)

(** A [for] loop whose body either returns from the enclosing function
    ([Some]) or goes on to the next element ([None]). *)
Fixpoint for_return {A B : Type} (l : list A) (body : A -> option B)
    : option B :=
  match l with
  | [] => None
  | a :: rest =>
      match body a with
      | Some b => Some b
      | None => for_return rest body
      end
  end.

End Py.


Import Py.

Declare Scope py_scope.
Notation "x <- m ;; k" := (bind m (fun x => k))
  (at level 61, m at next level, right associativity) : py_scope.
Open Scope py_scope.

(** ** Values held by a Boxscore and its collaborators *)

(** What an attribute of a Boxscore holds: [None] until the page is parsed,
    then a [str], or for the two name fields the PyQuery selection of the
    name tag, seen through [str(tag)] and [tag.text()]. *)
Inductive raw : Type :=
| RNone
| RStr (s : string)
| RTag (html text : string).

(** [self.__dict__] *)
Definition instance : Type := dict raw.

(** [self.<name>] *)
Definition getattr (self : instance) (name : string) : result raw :=
  match dict_get self name with
  | Some v => Ok v
  | None => Raise AttributeError
  end.

(** [setattr(self, name, v)] *)
Definition setattr (self : instance) (name : string) (v : raw) : instance :=
  dict_set self name v.

(** [v is None] *)
Definition is_None (v : raw) : bool :=
  match v with RNone => true | _ => false end.

(** [v.replace(old, new)]: only a [str] has the method. *)
Definition str_replace (v : raw) (old new : string) : result string :=
  match v with
  | RStr s => Ok (replace old new s)
  | _ => Raise AttributeError
  end.

(** [v.lower()] *)
Definition str_lower (v : raw) : result string :=
  match v with
  | RStr s => Ok (lower s)
  | _ => Raise AttributeError
  end.

(** [v.text()]: only a PyQuery selection has the method. *)
Definition text (v : raw) : result string :=
  match v with
  | RTag _ t => Ok t
  | _ => Raise AttributeError
  end.

(** [str(v)] *)
Definition str (v : raw) : string :=
  match v with
  | RNone => "None"
  | RStr s => s
  | RTag html _ => html
  end.

(** [int(v)] *)
Definition int_ (v : raw) : result Z :=
  match v with
  | RStr s => int_of_str s
  | _ => Raise TypeError
  end.

(** Modelled from the spec: the constants [HOME] and [AWAY] of
    [sportsreference/constants.py], which is not under src/; two distinct
    tags naming the side that won. *)
Inductive side : Type := HOME | AWAY.

Definition side_eqb (a b : side) : bool :=
  match a, b with
  | HOME, HOME | AWAY, AWAY => true
  | _, _ => false
  end.

(** Modelled from the spec: the constants [DAY] and [NIGHT] of
    [sportsreference/mlb/constants.py], which is not under src/. *)
Inductive time_of_day_tag : Type := DAY | NIGHT.

(** A calendar date, as far as [_create_url] reads it. *)
Record date_t : Type := { year : Z; month : Z; day : Z }.

(** pyquery, the [utils] module of the package and Python's [float]: the
    collaborators of the two modelled files.  Their code is not under src/,
    so every function below takes them as they come. *)
Class Env : Type := {
  (** a PyQuery document or selection *)
  pq : Type;
  (** [pq(url)]: download and parse a page; raises on failure *)
  pq_url : string -> result pq;
  (** [pq(html)]: parse a text *)
  pq_html : string -> result pq;
  (** [doc(selector)] *)
  pq_call : pq -> string -> pq;
  (** [sel.items()] *)
  pq_items : pq -> list pq;
  (** [sel.text()] *)
  pq_text : pq -> string;
  (** [str(sel)] *)
  pq_str : pq -> string;
  (** the truth value of a selection *)
  pq_bool : pq -> bool;
  (** [utils._remove_html_comment_tags] *)
  utils_remove_html_comment_tags : pq -> string;
  (** [utils._parse_field(scheme, doc, field, index)]: a [str] or [None] *)
  utils_parse_field : dict string -> pq -> string -> nat -> result raw;
  (** [utils._parse_abbreviation] *)
  utils_parse_abbreviation : raw -> result string;
  (** Python's floating-point numbers and [float(str)] *)
  float : Type;
  float_of_str : string -> option float
}.

(** The module [constants] of a sport.  The two URL templates are seen
    through the [%] that fills them; [DOUBLE_HEADER_INDICES] is read by the
    MLB module only. *)
Class Constants : Type := {
  BOXSCORE_ELEMENT_INDEX : dict nat;
  BOXSCORE_SCHEME : dict string;
  BOXSCORE_URL : raw -> string;
  BOXSCORES_URL : Z -> Z -> Z -> string;
  DOUBLE_HEADER_INDICES : dict string
}.

(** [float(v)] *)
Definition float_ `{Env} (v : raw) : result float :=
  match v with
  | RStr s =>
      match float_of_str s with
      | Some f => Ok f
      | None => Raise ValueError
      end
  | _ => Raise TypeError
  end.

(** The PyQuery selection [sel] as an attribute value. *)
Definition tag_of `{Env} (sel : pq) : raw := RTag (pq_str sel) (pq_text sel).

(** A value of a column of the exported table. *)
Inductive cell `{Env} : Type :=
| CRaw (v : raw)
| CInt (z : Z)
| CFloat (f : float)
| CSide (s : side)
| CTimeOfDay (t : time_of_day_tag).

(** [pd.DataFrame(rows, index=index)] *)
Record DataFrame `{Env} : Type := {
  df_rows : list (dict cell);
  df_index : list raw
}.

(** A dict display [{k1: e1, k2: e2, ...}]: the values are computed from
    left to right, the first exception ends the evaluation. *)
Fixpoint dict_display `{Env} (self : instance)
    (entries : list (string * (instance -> result cell)))
    : result (dict cell) :=
  match entries with
  | [] => Ok []
  | (k, e) :: rest =>
      v <- e self ;;
      d <- dict_display self rest ;;
      Ok ((k, v) :: d)
  end.

(** The attributes an [__init__] sets to [None], one assignment each. *)
Definition init_None (self : instance) (names : list string) : instance :=
  fold_left (fun d name => setattr d name RNone) names self.

(** [str(field)[1:]] *)
Definition tail (s : string) : string := drop 1 s.

Definition one_of (s : string) (names : list string) : bool :=
  existsb (String.eqb s) names.

(** ** NCAAF: [sportsreference/ncaaf/boxscore.py] *)

Module NCAAF.

(** *** class Boxscore *)

Module Boxscore.
Section WithEnv.
Context `{E : Env} `{C : Constants}.

(** The attributes [__init__] sets to [None], in the order of the source. *)
Definition fields : list string :=
  [
    "_date"; "_time"; "_stadium"; "_away_name"; "_home_name"; "_winner";
    "_winning_name"; "_winning_abbr"; "_losing_name"; "_losing_abbr";
    "_away_points"; "_away_first_downs"; "_away_rush_attempts";
    "_away_rush_yards"; "_away_rush_touchdowns"; "_away_pass_completions";
    "_away_pass_attempts"; "_away_pass_yards"; "_away_pass_touchdowns";
    "_away_interceptions"; "_away_total_yards"; "_away_fumbles";
    "_away_fumbles_lost"; "_away_turnovers"; "_away_penalties";
    "_away_yards_from_penalties"; "_home_points"; "_home_first_downs";
    "_home_rush_attempts"; "_home_rush_yards"; "_home_rush_touchdowns";
    "_home_pass_completions"; "_home_pass_attempts"; "_home_pass_yards";
    "_home_pass_touchdowns"; "_home_interceptions"; "_home_total_yards";
    "_home_fumbles"; "_home_fumbles_lost"; "_home_turnovers";
    "_home_penalties"; "_home_yards_from_penalties"
  ].

(** [try: url_data = pq(url)  except: return None], then the page is parsed
    again without its comment tags, outside of the [try]. *)
Definition _retrieve_html_page (uri : raw) : result (option pq) :=
  let url := BOXSCORE_URL uri in
  match pq_url url with
  | Raise _ => Ok None
  | Ok url_data =>
      page <- pq_html (utils_remove_html_comment_tags url_data) ;;
      Ok (Some page)
  end.

Definition weekdays : list string :=
  ["monday"; "tuesday"; "wednesday"; "thursday"; "friday"; "saturday";
   "sunday"].

(** The three statements that end both branches of
    [_parse_game_date_and_location]:
    [if index >= len(game_info): return ''], then
    [if 'sports logos.net' in game_info[index].lower() or
        game_info[index] == '': return ''], then
    [return game_info[index]]. *)
Definition line_at (game_info : list string) (index : nat) : result string :=
  if (List.length game_info <=? index)%nat then Ok EmptyString
  else
    line <- getitem game_info index ;;
    if contains "sports logos.net" (lower line) || String.eqb line EmptyString
    then Ok EmptyString
    else Ok line.

(** [_parse_game_date_and_location] from [game_info] and [index] on: the
    loop over the weekday names, which returns at the first name found in
    the first line, and the statements after it, with [index += 1]. *)
Definition date_and_location (game_info : list string) (index : nat)
    : result string :=
  match
    for_return weekdays (fun day =>
      match getitem game_info 0 with
      | Raise e => Some (Raise e)
      | Ok first_line =>
          if contains day (lower first_line)
          then Some (line_at game_info index)
          else None
      end)
  with
  | Some r => r
  | None => line_at game_info (index + 1)
  end.

Definition _parse_game_date_and_location (field : string) (boxscore : pq)
    : result string :=
  scheme <- dict_item BOXSCORE_SCHEME field ;;
  let items := map pq_text (pq_items (pq_call boxscore scheme)) in
  first_item <- getitem items 0 ;;
  game_info <- split newline first_item ;;
  index <- dict_item BOXSCORE_ELEMENT_INDEX field ;;
  date_and_location game_info index.

Definition _parse_name (field : string) (boxscore : pq) : result raw :=
  scheme <- dict_item BOXSCORE_SCHEME field ;;
  Ok (tag_of (pq_call boxscore scheme)).

(** The body of the loop of [_parse_game_data], for the attribute [field]. *)
Definition parse_attribute (boxscore : pq) (self : instance) (field : string)
    : result instance :=
  let short_field := tail field in
  if one_of short_field
       ["winner"; "winning_name"; "winning_abbr"; "losing_name";
        "losing_abbr"; "uri"]
  then Ok self
  else if one_of short_field ["date"; "time"; "stadium"]
  then
    value <- _parse_game_date_and_location short_field boxscore ;;
    Ok (setattr self field (RStr value))
  else if one_of short_field ["away_name"; "home_name"]
  then
    value <- _parse_name short_field boxscore ;;
    Ok (setattr self field value)
  else
    let index :=
      match dict_get BOXSCORE_ELEMENT_INDEX short_field with
      | Some i => i
      | None => 0
      end in
    value <- utils_parse_field BOXSCORE_SCHEME boxscore short_field index ;;
    Ok (setattr self field value).

(** [if not boxscore: return], then [for field in self.__dict__: ...]. *)
Definition _parse_game_data (self : instance) (uri : raw) : result instance :=
  boxscore <- _retrieve_html_page uri ;;
  match boxscore with
  | None => Ok self
  | Some boxscore =>
      if negb (pq_bool boxscore) then Ok self
      else
        fold_left
          (fun acc field => self' <- acc ;; parse_attribute boxscore self' field)
          (dict_keys self) (Ok self)
  end.

Definition __init__ (uri : raw) : result instance :=
  let self := init_None (setattr [] "_uri" uri) fields in
  _parse_game_data self uri.

(** The properties.  Python looks a property up when it is read, so their
    order in the class does not matter; here the numeric ones come first
    because [winner] reads two of them. *)

(** [return int(self._away_points)] *)
Definition away_points (self : instance) : result Z :=
  v <- getattr self "_away_points" ;;
  int_ v.

(** [return int(self._away_first_downs)] *)
Definition away_first_downs (self : instance) : result Z :=
  v <- getattr self "_away_first_downs" ;;
  int_ v.

(** [rush_info = self._away_rush_attempts.replace('--', '-').split('-');
    return int(rush_info[0])] *)
Definition away_rush_attempts (self : instance) : result Z :=
  v <- getattr self "_away_rush_attempts" ;;
  s <- str_replace v "--" "-" ;;
  rush_info <- split "-" s ;;
  part <- getitem rush_info 0 ;;
  int_ (RStr part).

(** [rush_info = self._away_rush_yards.replace('--', '-').split('-');
    return int(rush_info[1])] *)
Definition away_rush_yards (self : instance) : result Z :=
  v <- getattr self "_away_rush_yards" ;;
  s <- str_replace v "--" "-" ;;
  rush_info <- split "-" s ;;
  part <- getitem rush_info 1 ;;
  int_ (RStr part).

(** [rush_info = self._away_rush_touchdowns.replace('--', '-').split('-');
    return int(rush_info[2])] *)
Definition away_rush_touchdowns (self : instance) : result Z :=
  v <- getattr self "_away_rush_touchdowns" ;;
  s <- str_replace v "--" "-" ;;
  rush_info <- split "-" s ;;
  part <- getitem rush_info 2 ;;
  int_ (RStr part).

(** [pass_info = self._away_pass_completions.replace('--', '-').split('-');
    return int(pass_info[0])] *)
Definition away_pass_completions (self : instance) : result Z :=
  v <- getattr self "_away_pass_completions" ;;
  s <- str_replace v "--" "-" ;;
  pass_info <- split "-" s ;;
  part <- getitem pass_info 0 ;;
  int_ (RStr part).

(** [pass_info = self._away_pass_attempts.replace('--', '-').split('-');
    return int(pass_info[1])] *)
Definition away_pass_attempts (self : instance) : result Z :=
  v <- getattr self "_away_pass_attempts" ;;
  s <- str_replace v "--" "-" ;;
  pass_info <- split "-" s ;;
  part <- getitem pass_info 1 ;;
  int_ (RStr part).

(** [pass_info = self._away_pass_yards.replace('--', '-').split('-');
    return int(pass_info[2])] *)
Definition away_pass_yards (self : instance) : result Z :=
  v <- getattr self "_away_pass_yards" ;;
  s <- str_replace v "--" "-" ;;
  pass_info <- split "-" s ;;
  part <- getitem pass_info 2 ;;
  int_ (RStr part).

(** [pass_info = self._away_pass_touchdowns.replace('--', '-').split('-');
    return int(pass_info[3])] *)
Definition away_pass_touchdowns (self : instance) : result Z :=
  v <- getattr self "_away_pass_touchdowns" ;;
  s <- str_replace v "--" "-" ;;
  pass_info <- split "-" s ;;
  part <- getitem pass_info 3 ;;
  int_ (RStr part).

(** [pass_info = self._away_interceptions.replace('--', '-').split('-');
    return int(pass_info[4])] *)
Definition away_interceptions (self : instance) : result Z :=
  v <- getattr self "_away_interceptions" ;;
  s <- str_replace v "--" "-" ;;
  pass_info <- split "-" s ;;
  part <- getitem pass_info 4 ;;
  int_ (RStr part).

(** [return int(self._away_total_yards)] *)
Definition away_total_yards (self : instance) : result Z :=
  v <- getattr self "_away_total_yards" ;;
  int_ v.

(** [fumble_info = self._away_fumbles.replace('--', '-').split('-');
    return int(fumble_info[0])] *)
Definition away_fumbles (self : instance) : result Z :=
  v <- getattr self "_away_fumbles" ;;
  s <- str_replace v "--" "-" ;;
  fumble_info <- split "-" s ;;
  part <- getitem fumble_info 0 ;;
  int_ (RStr part).

(** [fumble_info = self._away_fumbles.replace('--', '-').split('-');
    return int(fumble_info[1])] *)
Definition away_fumbles_lost (self : instance) : result Z :=
  v <- getattr self "_away_fumbles" ;;
  s <- str_replace v "--" "-" ;;
  fumble_info <- split "-" s ;;
  part <- getitem fumble_info 1 ;;
  int_ (RStr part).

(** [return int(self._away_turnovers)] *)
Definition away_turnovers (self : instance) : result Z :=
  v <- getattr self "_away_turnovers" ;;
  int_ v.

(** [penalties_info = self._away_penalties.replace('--', '-').split('-');
    return int(penalties_info[0])] *)
Definition away_penalties (self : instance) : result Z :=
  v <- getattr self "_away_penalties" ;;
  s <- str_replace v "--" "-" ;;
  penalties_info <- split "-" s ;;
  part <- getitem penalties_info 0 ;;
  int_ (RStr part).

(** [penalties_info = self._away_yards_from_penalties.replace('--', '-').split('-');
    return int(penalties_info[1])] *)
Definition away_yards_from_penalties (self : instance) : result Z :=
  v <- getattr self "_away_yards_from_penalties" ;;
  s <- str_replace v "--" "-" ;;
  penalties_info <- split "-" s ;;
  part <- getitem penalties_info 1 ;;
  int_ (RStr part).

(** [return int(self._home_points)] *)
Definition home_points (self : instance) : result Z :=
  v <- getattr self "_home_points" ;;
  int_ v.

(** [return int(self._home_first_downs)] *)
Definition home_first_downs (self : instance) : result Z :=
  v <- getattr self "_home_first_downs" ;;
  int_ v.

(** [rush_info = self._home_rush_attempts.replace('--', '-').split('-');
    return int(rush_info[0])] *)
Definition home_rush_attempts (self : instance) : result Z :=
  v <- getattr self "_home_rush_attempts" ;;
  s <- str_replace v "--" "-" ;;
  rush_info <- split "-" s ;;
  part <- getitem rush_info 0 ;;
  int_ (RStr part).

(** [rush_info = self._home_rush_yards.replace('--', '-').split('-');
    return int(rush_info[1])] *)
Definition home_rush_yards (self : instance) : result Z :=
  v <- getattr self "_home_rush_yards" ;;
  s <- str_replace v "--" "-" ;;
  rush_info <- split "-" s ;;
  part <- getitem rush_info 1 ;;
  int_ (RStr part).

(** [rush_info = self._home_rush_touchdowns.replace('--', '-').split('-');
    return int(rush_info[2])] *)
Definition home_rush_touchdowns (self : instance) : result Z :=
  v <- getattr self "_home_rush_touchdowns" ;;
  s <- str_replace v "--" "-" ;;
  rush_info <- split "-" s ;;
  part <- getitem rush_info 2 ;;
  int_ (RStr part).

(** [pass_info = self._home_pass_completions.replace('--', '-').split('-');
    return int(pass_info[0])] *)
Definition home_pass_completions (self : instance) : result Z :=
  v <- getattr self "_home_pass_completions" ;;
  s <- str_replace v "--" "-" ;;
  pass_info <- split "-" s ;;
  part <- getitem pass_info 0 ;;
  int_ (RStr part).

(** [pass_info = self._home_pass_attempts.replace('--', '-').split('-');
    return int(pass_info[1])] *)
Definition home_pass_attempts (self : instance) : result Z :=
  v <- getattr self "_home_pass_attempts" ;;
  s <- str_replace v "--" "-" ;;
  pass_info <- split "-" s ;;
  part <- getitem pass_info 1 ;;
  int_ (RStr part).

(** [pass_info = self._home_pass_yards.replace('--', '-').split('-');
    return int(pass_info[2])] *)
Definition home_pass_yards (self : instance) : result Z :=
  v <- getattr self "_home_pass_yards" ;;
  s <- str_replace v "--" "-" ;;
  pass_info <- split "-" s ;;
  part <- getitem pass_info 2 ;;
  int_ (RStr part).

(** [pass_info = self._home_pass_touchdowns.replace('--', '-').split('-');
    return int(pass_info[3])] *)
Definition home_pass_touchdowns (self : instance) : result Z :=
  v <- getattr self "_home_pass_touchdowns" ;;
  s <- str_replace v "--" "-" ;;
  pass_info <- split "-" s ;;
  part <- getitem pass_info 3 ;;
  int_ (RStr part).

(** [pass_info = self._home_pass_touchdowns.replace('--', '-').split('-');
    return int(pass_info[4])] *)
Definition home_interceptions (self : instance) : result Z :=
  v <- getattr self "_home_pass_touchdowns" ;;
  s <- str_replace v "--" "-" ;;
  pass_info <- split "-" s ;;
  part <- getitem pass_info 4 ;;
  int_ (RStr part).

(** [return int(self._home_total_yards)] *)
Definition home_total_yards (self : instance) : result Z :=
  v <- getattr self "_home_total_yards" ;;
  int_ v.

(** [fumble_info = self._home_fumbles.replace('--', '-').split('-');
    return int(fumble_info[0])] *)
Definition home_fumbles (self : instance) : result Z :=
  v <- getattr self "_home_fumbles" ;;
  s <- str_replace v "--" "-" ;;
  fumble_info <- split "-" s ;;
  part <- getitem fumble_info 0 ;;
  int_ (RStr part).

(** [fumble_info = self._home_fumbles_lost.replace('--', '-').split('-');
    return int(fumble_info[1])] *)
Definition home_fumbles_lost (self : instance) : result Z :=
  v <- getattr self "_home_fumbles_lost" ;;
  s <- str_replace v "--" "-" ;;
  fumble_info <- split "-" s ;;
  part <- getitem fumble_info 1 ;;
  int_ (RStr part).

(** [return int(self._home_turnovers)] *)
Definition home_turnovers (self : instance) : result Z :=
  v <- getattr self "_home_turnovers" ;;
  int_ v.

(** [penalties_info = self._home_penalties.replace('--', '-').split('-');
    return int(penalties_info[0])] *)
Definition home_penalties (self : instance) : result Z :=
  v <- getattr self "_home_penalties" ;;
  s <- str_replace v "--" "-" ;;
  penalties_info <- split "-" s ;;
  part <- getitem penalties_info 0 ;;
  int_ (RStr part).

(** [penalties_info = self._home_yards_from_penalties.replace('--', '-').split('-');
    return int(penalties_info[1])] *)
Definition home_yards_from_penalties (self : instance) : result Z :=
  v <- getattr self "_home_yards_from_penalties" ;;
  s <- str_replace v "--" "-" ;;
  penalties_info <- split "-" s ;;
  part <- getitem penalties_info 1 ;;
  int_ (RStr part).

(** [return self._date] *)
Definition date (self : instance) : result raw :=
  getattr self "_date".

(** [return self._time.replace('Start Time: ', '')] *)
Definition time (self : instance) : result string :=
  v <- getattr self "_time" ;;
  str_replace v "Start Time: " EmptyString.

(** [return self._stadium.replace('Stadium: ', '')] *)
Definition stadium (self : instance) : result string :=
  v <- getattr self "_stadium" ;;
  str_replace v "Stadium: " EmptyString.

(** [if self.home_points > self.away_points: return HOME], [return AWAY] *)
Definition winner (self : instance) : result side :=
  home <- home_points self ;;
  away <- away_points self ;;
  if (home >? away)%Z then Ok HOME else Ok AWAY.

Definition winning_name (self : instance) : result string :=
  w <- winner self ;;
  if side_eqb w HOME
  then v <- getattr self "_home_name" ;; text v
  else v <- getattr self "_away_name" ;; text v.

(** [if 'cfb/schools' not in str(name): return name.text()], else
    [return utils._parse_abbreviation(name)], for the name tag [name]. *)
Definition abbr_of_name (name : raw) : result string :=
  if negb (contains "cfb/schools" (str name)) then text name
  else utils_parse_abbreviation name.

Definition winning_abbr (self : instance) : result string :=
  w <- winner self ;;
  if side_eqb w HOME
  then v <- getattr self "_home_name" ;; abbr_of_name v
  else v <- getattr self "_away_name" ;; abbr_of_name v.

Definition losing_name (self : instance) : result string :=
  w <- winner self ;;
  if side_eqb w HOME
  then v <- getattr self "_away_name" ;; text v
  else v <- getattr self "_home_name" ;; text v.

Definition losing_abbr (self : instance) : result string :=
  w <- winner self ;;
  if side_eqb w HOME
  then v <- getattr self "_away_name" ;; abbr_of_name v
  else v <- getattr self "_home_name" ;; abbr_of_name v.

(** The dict display [fields_to_include] of [dataframe]. *)
Definition fields_to_include
    : list (string * (instance -> result cell)) :=
  [
      ("away_first_downs", fun self => fmap CInt (away_first_downs self));
      ("away_fumbles", fun self => fmap CInt (away_fumbles self));
      ("away_fumbles_lost", fun self => fmap CInt (away_fumbles_lost self));
      ("away_interceptions", fun self => fmap CInt (away_interceptions self));
      ("away_pass_attempts", fun self => fmap CInt (away_pass_attempts self));
      ("away_pass_completions", fun self => fmap CInt (away_pass_completions self));
      ("away_pass_touchdowns", fun self => fmap CInt (away_pass_touchdowns self));
      ("away_pass_yards", fun self => fmap CInt (away_pass_yards self));
      ("away_penalties", fun self => fmap CInt (away_penalties self));
      ("away_points", fun self => fmap CInt (away_points self));
      ("away_rush_attempts", fun self => fmap CInt (away_rush_attempts self));
      ("away_rush_touchdowns", fun self => fmap CInt (away_rush_touchdowns self));
      ("away_rush_yards", fun self => fmap CInt (away_rush_yards self));
      ("away_total_yards", fun self => fmap CInt (away_total_yards self));
      ("away_turnovers", fun self => fmap CInt (away_turnovers self));
      ("away_yards_from_penalties", fun self => fmap CInt (away_yards_from_penalties self));
      ("date", fun self => fmap CRaw (date self));
      ("home_first_downs", fun self => fmap CInt (home_first_downs self));
      ("home_fumbles", fun self => fmap CInt (home_fumbles self));
      ("home_fumbles_lost", fun self => fmap CInt (home_fumbles_lost self));
      ("home_interceptions", fun self => fmap CInt (home_interceptions self));
      ("home_pass_attempts", fun self => fmap CInt (home_pass_attempts self));
      ("home_pass_completions", fun self => fmap CInt (home_pass_completions self));
      ("home_pass_touchdowns", fun self => fmap CInt (home_pass_touchdowns self));
      ("home_pass_yards", fun self => fmap CInt (home_pass_yards self));
      ("home_penalties", fun self => fmap CInt (home_penalties self));
      ("home_points", fun self => fmap CInt (home_points self));
      ("home_rush_attempts", fun self => fmap CInt (home_rush_attempts self));
      ("home_rush_touchdowns", fun self => fmap CInt (home_rush_touchdowns self));
      ("home_rush_yards", fun self => fmap CInt (home_rush_yards self));
      ("home_total_yards", fun self => fmap CInt (home_total_yards self));
      ("home_turnovers", fun self => fmap CInt (home_turnovers self));
      ("home_yards_from_penalties", fun self => fmap CInt (home_yards_from_penalties self));
      ("losing_abbr", fun self => fmap (fun s => CRaw (RStr s)) (losing_abbr self));
      ("losing_name", fun self => fmap (fun s => CRaw (RStr s)) (losing_name self));
      ("stadium", fun self => fmap (fun s => CRaw (RStr s)) (stadium self));
      ("time", fun self => fmap (fun s => CRaw (RStr s)) (time self));
      ("winner", fun self => fmap CSide (winner self));
      ("winning_abbr", fun self => fmap (fun s => CRaw (RStr s)) (winning_abbr self));
      ("winning_name", fun self => fmap (fun s => CRaw (RStr s)) (winning_name self))
  ].

(** [if self._away_points is None and self._home_points is None:
    return None], then the one-row table indexed by [self._uri]. *)
Definition dataframe (self : instance) : result (option DataFrame) :=
  away <- getattr self "_away_points" ;;
  unset <- (if is_None away
            then home <- getattr self "_home_points" ;; Ok (is_None home)
            else Ok false) ;;
  if (unset : bool) then Ok None
  else
    row <- dict_display self fields_to_include ;;
    uri <- getattr self "_uri" ;;
    Ok (Some {| df_rows := [row]; df_index := [uri] |}).

End WithEnv.
End Boxscore.

(** *** class Boxscores *)

Module Boxscores.

(** One entry of the list under ['boxscores']. *)
Record game : Type := {
  boxscore : string;
  away_name : string;
  away_abbr : string;
  home_name : string;
  home_abbr : string;
  non_di : bool
}.

Section WithEnv.
Context `{E : Env} `{C : Constants}.

Definition quote : string := String "034"%char EmptyString.

(** [BOXSCORES_URL % (date.month, date.day, date.year)] *)
Definition _create_url (d : date_t) : string :=
  BOXSCORES_URL (month d) (day d) (year d).

(** [return pq(url)] *)
Definition _get_requested_page (url : string) : result pq :=
  pq_url url.

(** [re.sub(r'.*cfb/boxscores/', '', str(url))], then
    [re.sub(r'\.html.*', '', uri).strip()] *)
Definition _get_boxscore_uri (url : pq) : string :=
  let uri := re_sub_through "cfb/boxscores/" (pq_str url) in
  strip (re_sub_from ".html" uri).

(** [None] when the tag holds no ['cfb/schools'], else
    [re.sub(r'.*/schools/', '', str(abbr))] then [re.sub(r'/.*', '', abbr)] *)
Definition _parse_abbreviation (abbr : pq) : option string :=
  if negb (contains "cfb/schools" (pq_str abbr)) then None
  else
    let abbr' := re_sub_through "/schools/" (pq_str abbr) in
    Some (re_sub_from "/" abbr').

(** [not abbr] for [abbr] a [str] or [None] *)
Definition not_ (abbr : option string) : bool :=
  match abbr with
  | None => true
  | Some s => String.eqb s EmptyString
  end.

Definition _get_name (name : pq) : string * string * bool :=
  let team_name := pq_text name in
  let abbr := _parse_abbreviation name in
  if not_ abbr then (team_name, team_name, true)
  else
    match abbr with
    | Some a => (team_name, a, false)
    | None => (team_name, team_name, false)
    end.

(** [links[0]] is the away team, [links[-1]] the home team. *)
Definition _get_team_names (g : pq)
    : result (string * string * string * string * bool) :=
  let links := pq_items (pq_call g "td a") in
  away <- getitem links 0 ;;
  home <- getitem links (List.length links - 1) ;;
  let '(away_name, away_abbr, away_non_di) := _get_name away in
  let '(home_name, home_abbr, home_non_di) := _get_name home in
  let non_di := away_non_di || home_non_di in
  Ok (away_name, away_abbr, home_name, home_abbr, non_di).

Fixpoint _extract_game_info (games : list pq) : result (list game) :=
  match games with
  | [] => Ok []
  | g :: rest =>
      names <- _get_team_names g ;;
      let '(away_name, away_abbr, home_name, home_abbr, non_di) := names in
      let boxscore_url :=
        pq_call g ("td[class=" ++ quote ++ "right gamelink" ++ quote ++ "] a") in
      let boxscore_uri := _get_boxscore_uri boxscore_url in
      let game_info :=
        {| boxscore := boxscore_uri;
           away_name := away_name; away_abbr := away_abbr;
           home_name := home_name; home_abbr := home_abbr;
           non_di := non_di |} in
      all_boxscores <- _extract_game_info rest ;;
      Ok (game_info :: all_boxscores)
  end.

(** The list that [_find_games] stores under ['boxscores']. *)
Definition _find_games (d : date_t) : result (list game) :=
  let url := _create_url d in
  page <- _get_requested_page url ;;
  let games :=
    pq_items (pq_call page ("table[class=" ++ quote ++ "teams" ++ quote ++ "]")) in
  _extract_game_info games.

(** [self._boxscores = {'boxscores': []}], then [self._find_games(date)]:
    the instance exists only if [_find_games] returns. *)
Definition __init__ (d : date_t) : result (list game) :=
  _find_games d.

End WithEnv.
End Boxscores.

End NCAAF.

(** ** MLB: [sportsreference/mlb/boxscore.py] *)

Module MLB.

(** *** class Boxscore *)

Module Boxscore.
Section WithEnv.
Context `{E : Env} `{C : Constants}.

(** The attributes [__init__] sets to [None], in the order of the source
    ([_losing_abbr] is assigned twice there). *)
Definition fields : list string :=
  [
    "_date"; "_time"; "_attendance"; "_venue"; "_time_of_day"; "_duration";
    "_away_name"; "_home_name"; "_winner"; "_winning_name";
    "_winning_abbr"; "_losing_name"; "_losing_abbr"; "_losing_abbr";
    "_away_at_bats"; "_away_runs"; "_away_hits"; "_away_rbi";
    "_away_earned_runs"; "_away_bases_on_balls"; "_away_strikeouts";
    "_away_plate_appearances"; "_away_batting_average";
    "_away_on_base_percentage"; "_away_slugging_percentage";
    "_away_on_base_plus"; "_away_pitches"; "_away_strikes";
    "_away_win_probability_for_offensive_player";
    "_away_average_leverage_index"; "_away_win_probability_added";
    "_away_win_probability_subtracted"; "_away_base_out_runs_added";
    "_away_putouts"; "_away_assists"; "_away_innings_pitched";
    "_away_home_runs"; "_away_strikes_by_contact";
    "_away_strikes_swinging"; "_away_strikes_looking";
    "_away_grounded_balls"; "_away_fly_balls"; "_away_line_drives";
    "_away_unknown_bat_type"; "_away_game_score";
    "_away_inherited_runners"; "_away_inherited_score";
    "_away_win_probability_by_pitcher"; "_away_base_out_runs_saved";
    "_home_at_bats"; "_home_runs"; "_home_hits"; "_home_rbi";
    "_home_earned_runs"; "_home_bases_on_balls"; "_home_strikeouts";
    "_home_plate_appearances"; "_home_batting_average";
    "_home_on_base_percentage"; "_home_slugging_percentage";
    "_home_on_base_plus"; "_home_pitches"; "_home_strikes";
    "_home_win_probability_for_offensive_player";
    "_home_average_leverage_index"; "_home_win_probability_added";
    "_home_win_probability_subtracted"; "_home_base_out_runs_added";
    "_home_putouts"; "_home_assists"; "_home_innings_pitched";
    "_home_home_runs"; "_home_strikes_by_contact";
    "_home_strikes_swinging"; "_home_strikes_looking";
    "_home_grounded_balls"; "_home_fly_balls"; "_home_line_drives";
    "_home_unknown_bat_type"; "_home_game_score";
    "_home_inherited_runners"; "_home_inherited_score";
    "_home_win_probability_by_pitcher"; "_home_base_out_runs_saved"
  ].

(** [try: url_data = pq(url)  except: return None], then the page is parsed
    again without its comment tags, outside of the [try]. *)
Definition _retrieve_html_page (uri : raw) : result (option pq) :=
  let url := BOXSCORE_URL uri in
  match pq_url url with
  | Raise _ => Ok None
  | Ok url_data =>
      page <- pq_html (utils_remove_html_comment_tags url_data) ;;
      Ok (Some page)
  end.

(** ['first game of doubleheader' in item.lower() or
     'second game of doubleheader' in item.lower()] *)
Definition doubleheader_marker (item : string) : bool :=
  contains "first game of doubleheader" (lower item)
  || contains "second game of doubleheader" (lower item).

(** The inner loop [for element in game_info] of
    [_parse_game_date_and_location]: the element it returns, or [None] when
    it runs to its end. *)
Fixpoint scan_elements (field : string) (game_info : list string)
    : result (option string) :=
  match game_info with
  | [] => Ok None
  | element :: rest =>
      if String.eqb field "time_of_day"
      then
        if contains "night game" (lower element)
           || contains "day game" (lower element)
        then Ok (Some element)
        else scan_elements field rest
      else
        matcher <- dict_item DOUBLE_HEADER_INDICES field ;;
        if contains matcher (lower element)
        then Ok (Some element)
        else scan_elements field rest
  end.

(** The outer loop [for item in items] and the statements after it;
    [double_header] is the flag the loop sets. *)
Fixpoint scan_items (field : string) (game_info : list string) (index : nat)
    (double_header : bool) (items : list string) : result string :=
  match items with
  | [] =>
      if double_header then Ok EmptyString
      else getitem game_info index
  | item :: rest =>
      if doubleheader_marker item
      then
        if String.eqb field "date" then getitem game_info 0
        else
          found <- scan_elements field game_info ;;
          match found with
          | Some element => Ok element
          | None => scan_items field game_info index true rest
          end
      else scan_items field game_info index double_header rest
  end.

(** [_parse_game_date_and_location] from the texts [items] of the selected
    elements on. *)
Definition date_and_location (field : string) (items : list string)
    : result string :=
  index <- dict_item BOXSCORE_ELEMENT_INDEX field ;;
  first_item <- getitem items 0 ;;
  game_info <- split newline first_item ;;
  scan_items field game_info index false items.

Definition _parse_game_date_and_location (field : string) (boxscore : pq)
    : result string :=
  scheme <- dict_item BOXSCORE_SCHEME field ;;
  let items := map pq_text (pq_items (pq_call boxscore scheme)) in
  date_and_location field items.

Definition _parse_name (field : string) (boxscore : pq) : result raw :=
  scheme <- dict_item BOXSCORE_SCHEME field ;;
  Ok (tag_of (pq_call boxscore scheme)).

(** The body of the loop of [_parse_game_data], for the attribute [field]. *)
Definition parse_attribute (boxscore : pq) (self : instance) (field : string)
    : result instance :=
  let short_field := tail field in
  if one_of short_field
       ["winner"; "winning_name"; "winning_abbr"; "losing_name";
        "losing_abbr"; "uri"]
  then Ok self
  else if one_of short_field
            ["date"; "time"; "venue"; "attendance"; "time_of_day"; "duration"]
  then
    value <- _parse_game_date_and_location short_field boxscore ;;
    Ok (setattr self field (RStr value))
  else if one_of short_field ["away_name"; "home_name"]
  then
    value <- _parse_name short_field boxscore ;;
    Ok (setattr self field value)
  else
    let index :=
      match dict_get BOXSCORE_ELEMENT_INDEX short_field with
      | Some i => i
      | None => 0
      end in
    value <- utils_parse_field BOXSCORE_SCHEME boxscore short_field index ;;
    Ok (setattr self field value).

(** [if not boxscore: return], then [for field in self.__dict__: ...]. *)
Definition _parse_game_data (self : instance) (uri : raw) : result instance :=
  boxscore <- _retrieve_html_page uri ;;
  match boxscore with
  | None => Ok self
  | Some boxscore =>
      if negb (pq_bool boxscore) then Ok self
      else
        fold_left
          (fun acc field => self' <- acc ;; parse_attribute boxscore self' field)
          (dict_keys self) (Ok self)
  end.

Definition __init__ (uri : raw) : result instance :=
  let self := init_None (setattr [] "_uri" uri) fields in
  _parse_game_data self uri.

(** The properties.  Python looks a property up when it is read, so their
    order in the class does not matter; here the numeric ones come first
    because [winner] reads two of them. *)

(** [return int(self._away_at_bats)] *)
Definition away_at_bats (self : instance) : result Z :=
  v <- getattr self "_away_at_bats" ;;
  int_ v.

(** [return int(self._away_runs)] *)
Definition away_runs (self : instance) : result Z :=
  v <- getattr self "_away_runs" ;;
  int_ v.

(** [return int(self._away_hits)] *)
Definition away_hits (self : instance) : result Z :=
  v <- getattr self "_away_hits" ;;
  int_ v.

(** [return int(self._away_rbi)] *)
Definition away_rbi (self : instance) : result Z :=
  v <- getattr self "_away_rbi" ;;
  int_ v.

(** [return float(self._away_earned_runs)] *)
Definition away_earned_runs (self : instance) : result float :=
  v <- getattr self "_away_earned_runs" ;;
  float_ v.

(** [return int(self._away_bases_on_balls)] *)
Definition away_bases_on_balls (self : instance) : result Z :=
  v <- getattr self "_away_bases_on_balls" ;;
  int_ v.

(** [return int(self._away_strikeouts)] *)
Definition away_strikeouts (self : instance) : result Z :=
  v <- getattr self "_away_strikeouts" ;;
  int_ v.

(** [return int(self._away_plate_appearances)] *)
Definition away_plate_appearances (self : instance) : result Z :=
  v <- getattr self "_away_plate_appearances" ;;
  int_ v.

(** [return float(self._away_batting_average)] *)
Definition away_batting_average (self : instance) : result float :=
  v <- getattr self "_away_batting_average" ;;
  float_ v.

(** [return float(self._away_on_base_percentage)] *)
Definition away_on_base_percentage (self : instance) : result float :=
  v <- getattr self "_away_on_base_percentage" ;;
  float_ v.

(** [return float(self._away_slugging_percentage)] *)
Definition away_slugging_percentage (self : instance) : result float :=
  v <- getattr self "_away_slugging_percentage" ;;
  float_ v.

(** [return float(self._away_on_base_plus)] *)
Definition away_on_base_plus (self : instance) : result float :=
  v <- getattr self "_away_on_base_plus" ;;
  float_ v.

(** [return int(self._away_pitches)] *)
Definition away_pitches (self : instance) : result Z :=
  v <- getattr self "_away_pitches" ;;
  int_ v.

(** [return int(self._away_strikes)] *)
Definition away_strikes (self : instance) : result Z :=
  v <- getattr self "_away_strikes" ;;
  int_ v.

(** [return float(self._away_win_probability_for_offensive_player)] *)
Definition away_win_probability_for_offensive_player (self : instance) : result float :=
  v <- getattr self "_away_win_probability_for_offensive_player" ;;
  float_ v.

(** [return float(self._away_average_leverage_index)] *)
Definition away_average_leverage_index (self : instance) : result float :=
  v <- getattr self "_away_average_leverage_index" ;;
  float_ v.

(** [return float(self._away_win_probability_added)] *)
Definition away_win_probability_added (self : instance) : result float :=
  v <- getattr self "_away_win_probability_added" ;;
  float_ v.

(** [return float(self._away_win_probability_subtracted)] *)
Definition away_win_probability_subtracted (self : instance) : result float :=
  v <- getattr self "_away_win_probability_subtracted" ;;
  float_ v.

(** [return float(self._away_base_out_runs_added)] *)
Definition away_base_out_runs_added (self : instance) : result float :=
  v <- getattr self "_away_base_out_runs_added" ;;
  float_ v.

(** [return int(self._away_putouts)] *)
Definition away_putouts (self : instance) : result Z :=
  v <- getattr self "_away_putouts" ;;
  int_ v.

(** [return int(self._away_assists)] *)
Definition away_assists (self : instance) : result Z :=
  v <- getattr self "_away_assists" ;;
  int_ v.

(** [return float(self._away_innings_pitched)] *)
Definition away_innings_pitched (self : instance) : result float :=
  v <- getattr self "_away_innings_pitched" ;;
  float_ v.

(** [return int(self._away_home_runs)] *)
Definition away_home_runs (self : instance) : result Z :=
  v <- getattr self "_away_home_runs" ;;
  int_ v.

(** [return int(self._away_strikes_by_contact)] *)
Definition away_strikes_by_contact (self : instance) : result Z :=
  v <- getattr self "_away_strikes_by_contact" ;;
  int_ v.

(** [return int(self._away_strikes_swinging)] *)
Definition away_strikes_swinging (self : instance) : result Z :=
  v <- getattr self "_away_strikes_swinging" ;;
  int_ v.

(** [return int(self._away_strikes_looking)] *)
Definition away_strikes_looking (self : instance) : result Z :=
  v <- getattr self "_away_strikes_looking" ;;
  int_ v.

(** [return int(self._away_grounded_balls)] *)
Definition away_grounded_balls (self : instance) : result Z :=
  v <- getattr self "_away_grounded_balls" ;;
  int_ v.

(** [return int(self._away_fly_balls)] *)
Definition away_fly_balls (self : instance) : result Z :=
  v <- getattr self "_away_fly_balls" ;;
  int_ v.

(** [return int(self._away_line_drives)] *)
Definition away_line_drives (self : instance) : result Z :=
  v <- getattr self "_away_line_drives" ;;
  int_ v.

(** [return int(self._away_unknown_bat_type)] *)
Definition away_unknown_bat_type (self : instance) : result Z :=
  v <- getattr self "_away_unknown_bat_type" ;;
  int_ v.

(** [return int(self._away_game_score)] *)
Definition away_game_score (self : instance) : result Z :=
  v <- getattr self "_away_game_score" ;;
  int_ v.

(** [try: return int(self._away_inherited_runners)  except ValueError: return 0] *)
Definition away_inherited_runners (self : instance) : result Z :=
  try_except (v <- getattr self "_away_inherited_runners" ;; int_ v) is_ValueError (Ok 0%Z).

(** [try: return int(self._away_inherited_score)  except ValueError: return 0] *)
Definition away_inherited_score (self : instance) : result Z :=
  try_except (v <- getattr self "_away_inherited_score" ;; int_ v) is_ValueError (Ok 0%Z).

(** [return float(self._away_win_probability_by_pitcher)] *)
Definition away_win_probability_by_pitcher (self : instance) : result float :=
  v <- getattr self "_away_win_probability_by_pitcher" ;;
  float_ v.

(** [return float(self._away_base_out_runs_saved)] *)
Definition away_base_out_runs_saved (self : instance) : result float :=
  v <- getattr self "_away_base_out_runs_saved" ;;
  float_ v.

(** [return int(self._home_at_bats)] *)
Definition home_at_bats (self : instance) : result Z :=
  v <- getattr self "_home_at_bats" ;;
  int_ v.

(** [return int(self._home_runs)] *)
Definition home_runs (self : instance) : result Z :=
  v <- getattr self "_home_runs" ;;
  int_ v.

(** [return int(self._home_hits)] *)
Definition home_hits (self : instance) : result Z :=
  v <- getattr self "_home_hits" ;;
  int_ v.

(** [return int(self._home_rbi)] *)
Definition home_rbi (self : instance) : result Z :=
  v <- getattr self "_home_rbi" ;;
  int_ v.

(** [return float(self._home_earned_runs)] *)
Definition home_earned_runs (self : instance) : result float :=
  v <- getattr self "_home_earned_runs" ;;
  float_ v.

(** [return int(self._home_bases_on_balls)] *)
Definition home_bases_on_balls (self : instance) : result Z :=
  v <- getattr self "_home_bases_on_balls" ;;
  int_ v.

(** [return int(self._home_strikeouts)] *)
Definition home_strikeouts (self : instance) : result Z :=
  v <- getattr self "_home_strikeouts" ;;
  int_ v.

(** [return int(self._home_plate_appearances)] *)
Definition home_plate_appearances (self : instance) : result Z :=
  v <- getattr self "_home_plate_appearances" ;;
  int_ v.

(** [return float(self._home_batting_average)] *)
Definition home_batting_average (self : instance) : result float :=
  v <- getattr self "_home_batting_average" ;;
  float_ v.

(** [return float(self._home_on_base_percentage)] *)
Definition home_on_base_percentage (self : instance) : result float :=
  v <- getattr self "_home_on_base_percentage" ;;
  float_ v.

(** [return float(self._home_slugging_percentage)] *)
Definition home_slugging_percentage (self : instance) : result float :=
  v <- getattr self "_home_slugging_percentage" ;;
  float_ v.

(** [return float(self._home_on_base_plus)] *)
Definition home_on_base_plus (self : instance) : result float :=
  v <- getattr self "_home_on_base_plus" ;;
  float_ v.

(** [return int(self._home_pitches)] *)
Definition home_pitches (self : instance) : result Z :=
  v <- getattr self "_home_pitches" ;;
  int_ v.

(** [return int(self._home_strikes)] *)
Definition home_strikes (self : instance) : result Z :=
  v <- getattr self "_home_strikes" ;;
  int_ v.

(** [return float(self._home_win_probability_for_offensive_player)] *)
Definition home_win_probability_for_offensive_player (self : instance) : result float :=
  v <- getattr self "_home_win_probability_for_offensive_player" ;;
  float_ v.

(** [return float(self._home_average_leverage_index)] *)
Definition home_average_leverage_index (self : instance) : result float :=
  v <- getattr self "_home_average_leverage_index" ;;
  float_ v.

(** [return float(self._home_win_probability_added)] *)
Definition home_win_probability_added (self : instance) : result float :=
  v <- getattr self "_home_win_probability_added" ;;
  float_ v.

(** [return float(self._home_win_probability_subtracted)] *)
Definition home_win_probability_subtracted (self : instance) : result float :=
  v <- getattr self "_home_win_probability_subtracted" ;;
  float_ v.

(** [return float(self._home_base_out_runs_added)] *)
Definition home_base_out_runs_added (self : instance) : result float :=
  v <- getattr self "_home_base_out_runs_added" ;;
  float_ v.

(** [return int(self._home_putouts)] *)
Definition home_putouts (self : instance) : result Z :=
  v <- getattr self "_home_putouts" ;;
  int_ v.

(** [return int(self._home_assists)] *)
Definition home_assists (self : instance) : result Z :=
  v <- getattr self "_home_assists" ;;
  int_ v.

(** [return float(self._home_innings_pitched)] *)
Definition home_innings_pitched (self : instance) : result float :=
  v <- getattr self "_home_innings_pitched" ;;
  float_ v.

(** [return int(self._home_home_runs)] *)
Definition home_home_runs (self : instance) : result Z :=
  v <- getattr self "_home_home_runs" ;;
  int_ v.

(** [return int(self._home_strikes_by_contact)] *)
Definition home_strikes_by_contact (self : instance) : result Z :=
  v <- getattr self "_home_strikes_by_contact" ;;
  int_ v.

(** [return int(self._home_strikes_swinging)] *)
Definition home_strikes_swinging (self : instance) : result Z :=
  v <- getattr self "_home_strikes_swinging" ;;
  int_ v.

(** [return int(self._home_strikes_looking)] *)
Definition home_strikes_looking (self : instance) : result Z :=
  v <- getattr self "_home_strikes_looking" ;;
  int_ v.

(** [return int(self._home_grounded_balls)] *)
Definition home_grounded_balls (self : instance) : result Z :=
  v <- getattr self "_home_grounded_balls" ;;
  int_ v.

(** [return int(self._home_fly_balls)] *)
Definition home_fly_balls (self : instance) : result Z :=
  v <- getattr self "_home_fly_balls" ;;
  int_ v.

(** [return int(self._home_line_drives)] *)
Definition home_line_drives (self : instance) : result Z :=
  v <- getattr self "_home_line_drives" ;;
  int_ v.

(** [return int(self._home_unknown_bat_type)] *)
Definition home_unknown_bat_type (self : instance) : result Z :=
  v <- getattr self "_home_unknown_bat_type" ;;
  int_ v.

(** [return int(self._home_game_score)] *)
Definition home_game_score (self : instance) : result Z :=
  v <- getattr self "_home_game_score" ;;
  int_ v.

(** [try: return int(self._home_inherited_runners)  except ValueError: return 0] *)
Definition home_inherited_runners (self : instance) : result Z :=
  try_except (v <- getattr self "_home_inherited_runners" ;; int_ v) is_ValueError (Ok 0%Z).

(** [try: return int(self._home_inherited_score)  except ValueError: return 0] *)
Definition home_inherited_score (self : instance) : result Z :=
  try_except (v <- getattr self "_home_inherited_score" ;; int_ v) is_ValueError (Ok 0%Z).

(** [return float(self._home_win_probability_by_pitcher)] *)
Definition home_win_probability_by_pitcher (self : instance) : result float :=
  v <- getattr self "_home_win_probability_by_pitcher" ;;
  float_ v.

(** [return float(self._home_base_out_runs_saved)] *)
Definition home_base_out_runs_saved (self : instance) : result float :=
  v <- getattr self "_home_base_out_runs_saved" ;;
  float_ v.

(** [return self._date] *)
Definition date (self : instance) : result raw :=
  getattr self "_date".

(** [return self._time.replace('Start Time: ', '')] *)
Definition time (self : instance) : result string :=
  v <- getattr self "_time" ;;
  str_replace v "Start Time: " EmptyString.

(** [return self._venue.replace('Venue: ', '')] *)
Definition venue (self : instance) : result string :=
  v <- getattr self "_venue" ;;
  str_replace v "Venue: " EmptyString.

(** [attendance = self._attendance.replace('Attendance: ', '')], then
    [try: return int(attendance.replace(',', ''))
     except ValueError: return 0] *)
Definition attendance (self : instance) : result Z :=
  v <- getattr self "_attendance" ;;
  attendance <- str_replace v "Attendance: " EmptyString ;;
  try_except (int_of_str (replace "," EmptyString attendance))
    is_ValueError (Ok 0%Z).

(** [return self._duration.replace('Game Duration: ', '')] *)
Definition duration (self : instance) : result string :=
  v <- getattr self "_duration" ;;
  str_replace v "Game Duration: " EmptyString.

(** [if 'night' in self._time_of_day.lower(): return NIGHT], [return DAY] *)
Definition time_of_day (self : instance) : result time_of_day_tag :=
  v <- getattr self "_time_of_day" ;;
  l <- str_lower v ;;
  if contains "night" l then Ok NIGHT else Ok DAY.

(** [if self.home_runs > self.away_runs: return HOME], [return AWAY] *)
Definition winner (self : instance) : result side :=
  home <- home_runs self ;;
  away <- away_runs self ;;
  if (home >? away)%Z then Ok HOME else Ok AWAY.

Definition winning_name (self : instance) : result string :=
  w <- winner self ;;
  if side_eqb w HOME
  then v <- getattr self "_home_name" ;; text v
  else v <- getattr self "_away_name" ;; text v.

Definition winning_abbr (self : instance) : result string :=
  w <- winner self ;;
  if side_eqb w HOME
  then v <- getattr self "_home_name" ;; utils_parse_abbreviation v
  else v <- getattr self "_away_name" ;; utils_parse_abbreviation v.

Definition losing_name (self : instance) : result string :=
  w <- winner self ;;
  if side_eqb w HOME
  then v <- getattr self "_away_name" ;; text v
  else v <- getattr self "_home_name" ;; text v.

Definition losing_abbr (self : instance) : result string :=
  w <- winner self ;;
  if side_eqb w HOME
  then v <- getattr self "_away_name" ;; utils_parse_abbreviation v
  else v <- getattr self "_home_name" ;; utils_parse_abbreviation v.

(** The dict display [fields_to_include] of [dataframe]. *)
Definition fields_to_include
    : list (string * (instance -> result cell)) :=
  [
      ("date", fun self => fmap CRaw (date self));
      ("time", fun self => fmap (fun s => CRaw (RStr s)) (time self));
      ("venue", fun self => fmap (fun s => CRaw (RStr s)) (venue self));
      ("attendance", fun self => fmap CInt (attendance self));
      ("duration", fun self => fmap (fun s => CRaw (RStr s)) (duration self));
      ("time_of_day", fun self => fmap CTimeOfDay (time_of_day self));
      ("winner", fun self => fmap CSide (winner self));
      ("winning_name", fun self => fmap (fun s => CRaw (RStr s)) (winning_name self));
      ("winning_abbr", fun self => fmap (fun s => CRaw (RStr s)) (winning_abbr self));
      ("losing_name", fun self => fmap (fun s => CRaw (RStr s)) (losing_name self));
      ("losing_abbr", fun self => fmap (fun s => CRaw (RStr s)) (losing_abbr self));
      ("away_at_bats", fun self => fmap CInt (away_at_bats self));
      ("away_runs", fun self => fmap CInt (away_runs self));
      ("away_hits", fun self => fmap CInt (away_hits self));
      ("away_rbi", fun self => fmap CInt (away_rbi self));
      ("away_earned_runs", fun self => fmap CFloat (away_earned_runs self));
      ("away_bases_on_balls", fun self => fmap CInt (away_bases_on_balls self));
      ("away_strikeouts", fun self => fmap CInt (away_strikeouts self));
      ("away_plate_appearances", fun self => fmap CInt (away_plate_appearances self));
      ("away_batting_average", fun self => fmap CFloat (away_batting_average self));
      ("away_on_base_percentage", fun self => fmap CFloat (away_on_base_percentage self));
      ("away_slugging_percentage", fun self => fmap CFloat (away_slugging_percentage self));
      ("away_on_base_plus", fun self => fmap CFloat (away_on_base_plus self));
      ("away_pitches", fun self => fmap CInt (away_pitches self));
      ("away_strikes", fun self => fmap CInt (away_strikes self));
      ("away_win_probability_for_offensive_player", fun self => fmap CFloat (away_win_probability_for_offensive_player self));
      ("away_average_leverage_index", fun self => fmap CFloat (away_average_leverage_index self));
      ("away_win_probability_added", fun self => fmap CFloat (away_win_probability_added self));
      ("away_win_probability_subtracted", fun self => fmap CFloat (away_win_probability_subtracted self));
      ("away_base_out_runs_added", fun self => fmap CFloat (away_base_out_runs_added self));
      ("away_putouts", fun self => fmap CInt (away_putouts self));
      ("away_assists", fun self => fmap CInt (away_assists self));
      ("away_innings_pitched", fun self => fmap CFloat (away_innings_pitched self));
      ("away_home_runs", fun self => fmap CInt (away_home_runs self));
      ("away_strikes_by_contact", fun self => fmap CInt (away_strikes_by_contact self));
      ("away_strikes_swinging", fun self => fmap CInt (away_strikes_swinging self));
      ("away_strikes_looking", fun self => fmap CInt (away_strikes_looking self));
      ("away_grounded_balls", fun self => fmap CInt (away_grounded_balls self));
      ("away_fly_balls", fun self => fmap CInt (away_fly_balls self));
      ("away_line_drives", fun self => fmap CInt (away_line_drives self));
      ("away_unknown_bat_type", fun self => fmap CInt (away_unknown_bat_type self));
      ("away_game_score", fun self => fmap CInt (away_game_score self));
      ("away_inherited_runners", fun self => fmap CInt (away_inherited_runners self));
      ("away_inherited_score", fun self => fmap CInt (away_inherited_score self));
      ("away_win_probability_by_pitcher", fun self => fmap CFloat (away_win_probability_by_pitcher self));
      ("away_base_out_runs_saved", fun self => fmap CFloat (away_base_out_runs_saved self));
      ("home_at_bats", fun self => fmap CInt (home_at_bats self));
      ("home_runs", fun self => fmap CInt (home_runs self));
      ("home_hits", fun self => fmap CInt (home_hits self));
      ("home_rbi", fun self => fmap CInt (home_rbi self));
      ("home_earned_runs", fun self => fmap CFloat (home_earned_runs self));
      ("home_bases_on_balls", fun self => fmap CInt (home_bases_on_balls self));
      ("home_strikeouts", fun self => fmap CInt (home_strikeouts self));
      ("home_plate_appearances", fun self => fmap CInt (home_plate_appearances self));
      ("home_batting_average", fun self => fmap CFloat (home_batting_average self));
      ("home_on_base_percentage", fun self => fmap CFloat (home_on_base_percentage self));
      ("home_slugging_percentage", fun self => fmap CFloat (home_slugging_percentage self));
      ("home_on_base_plus", fun self => fmap CFloat (home_on_base_plus self));
      ("home_pitches", fun self => fmap CInt (home_pitches self));
      ("home_strikes", fun self => fmap CInt (home_strikes self));
      ("home_win_probability_for_offensive_player", fun self => fmap CFloat (home_win_probability_for_offensive_player self));
      ("home_average_leverage_index", fun self => fmap CFloat (home_average_leverage_index self));
      ("home_win_probability_added", fun self => fmap CFloat (home_win_probability_added self));
      ("home_win_probability_subtracted", fun self => fmap CFloat (home_win_probability_subtracted self));
      ("home_base_out_runs_added", fun self => fmap CFloat (home_base_out_runs_added self));
      ("home_putouts", fun self => fmap CInt (home_putouts self));
      ("home_assists", fun self => fmap CInt (home_assists self));
      ("home_innings_pitched", fun self => fmap CFloat (home_innings_pitched self));
      ("home_home_runs", fun self => fmap CInt (home_home_runs self));
      ("home_strikes_by_contact", fun self => fmap CInt (home_strikes_by_contact self));
      ("home_strikes_swinging", fun self => fmap CInt (home_strikes_swinging self));
      ("home_strikes_looking", fun self => fmap CInt (home_strikes_looking self));
      ("home_grounded_balls", fun self => fmap CInt (home_grounded_balls self));
      ("home_fly_balls", fun self => fmap CInt (home_fly_balls self));
      ("home_line_drives", fun self => fmap CInt (home_line_drives self));
      ("home_unknown_bat_type", fun self => fmap CInt (home_unknown_bat_type self));
      ("home_game_score", fun self => fmap CInt (home_game_score self));
      ("home_inherited_runners", fun self => fmap CInt (home_inherited_runners self));
      ("home_inherited_score", fun self => fmap CInt (home_inherited_score self));
      ("home_win_probability_by_pitcher", fun self => fmap CFloat (home_win_probability_by_pitcher self));
      ("home_base_out_runs_saved", fun self => fmap CFloat (home_base_out_runs_saved self))
  ].

(** [if self._away_runs is None and self._home_runs is None: return None],
    then the one-row table indexed by [self._uri]. *)
Definition dataframe (self : instance) : result (option DataFrame) :=
  away <- getattr self "_away_runs" ;;
  unset <- (if is_None away
            then home <- getattr self "_home_runs" ;; Ok (is_None home)
            else Ok false) ;;
  if (unset : bool) then Ok None
  else
    row <- dict_display self fields_to_include ;;
    uri <- getattr self "_uri" ;;
    Ok (Some {| df_rows := [row]; df_index := [uri] |}).

End WithEnv.
End Boxscore.

(** *** class Boxscores *)

Module Boxscores.

(** One entry of the list under ['boxscores']. *)
Record game : Type := {
  boxscore : string;
  away_name : string;
  away_abbr : string;
  home_name : string;
  home_abbr : string
}.

Section WithEnv.
Context `{E : Env} `{C : Constants}.

Definition quote : string := String "034"%char EmptyString.

(** [BOXSCORES_URL % (date.year, date.month, date.day)] *)
Definition _create_url (d : date_t) : string :=
  BOXSCORES_URL (year d) (month d) (day d).

(** [return pq(url)] *)
Definition _get_requested_page (url : string) : result pq :=
  pq_url url.

(** [re.sub(r'.*/boxes/', '', str(url))], then
    [re.sub(r'\.shtml.*', '', uri).strip()] *)
Definition _get_boxscore_uri (url : pq) : string :=
  let uri := re_sub_through "/boxes/" (pq_str url) in
  strip (re_sub_from ".shtml" uri).

(** [re.sub(r'.*/teams/', '', str(abbr))], then [re.sub(r'/.*', '', abbr)] *)
Definition _parse_abbreviation (abbr : pq) : string :=
  let abbr' := re_sub_through "/teams/" (pq_str abbr) in
  re_sub_from "/" abbr'.

Definition _get_name (name : pq) : string * string :=
  let team_name := pq_text name in
  let abbr := _parse_abbreviation name in
  (team_name, abbr).

(** [links[0]] is the away team, [links[-1]] the home team. *)
Definition _get_team_names (g : pq)
    : result (string * string * string * string) :=
  let links := pq_items (pq_call g "td a") in
  away <- getitem links 0 ;;
  home <- getitem links (List.length links - 1) ;;
  let '(away_name, away_abbr) := _get_name away in
  let '(home_name, home_abbr) := _get_name home in
  Ok (away_name, away_abbr, home_name, home_abbr).

Fixpoint _extract_game_info (games : list pq) : result (list game) :=
  match games with
  | [] => Ok []
  | g :: rest =>
      names <- _get_team_names g ;;
      let '(away_name, away_abbr, home_name, home_abbr) := names in
      let boxscore_url :=
        pq_call g ("td[class=" ++ quote ++ "right gamelink" ++ quote ++ "] a") in
      let boxscore_uri := _get_boxscore_uri boxscore_url in
      let game_info :=
        {| boxscore := boxscore_uri;
           away_name := away_name; away_abbr := away_abbr;
           home_name := home_name; home_abbr := home_abbr |} in
      all_boxscores <- _extract_game_info rest ;;
      Ok (game_info :: all_boxscores)
  end.

(** The list that [_find_games] stores under ['boxscores']. *)
Definition _find_games (d : date_t) : result (list game) :=
  let url := _create_url d in
  page <- _get_requested_page url ;;
  let games :=
    pq_items (pq_call page ("table[class=" ++ quote ++ "teams" ++ quote ++ "]")) in
  _extract_game_info games.

(** [self._boxscores = {'boxscores': []}], then [self._find_games(date)]:
    the instance exists only if [_find_games] returns. *)
Definition __init__ (d : date_t) : result (list game) :=
  _find_games d.

End WithEnv.
End Boxscores.

End MLB.

(** ** Example collaborators *)

Module Example.

(** A selection is seen through its markup and its text. *)
Definition pq_t : Type := (string * string)%type.

(** A world without network: every download fails. *)
Definition offline : Env := {|
  pq := pq_t;
  pq_url := fun _ => Raise HTTPError;
  pq_html := fun html => Ok (html, html);
  pq_call := fun doc _ => doc;
  pq_items := fun doc => [doc];
  pq_text := snd;
  pq_str := fst;
  pq_bool := fun _ => true;
  utils_remove_html_comment_tags := fst;
  utils_parse_field := fun _ doc _ _ => Ok (RStr (snd doc));
  utils_parse_abbreviation := fun v => Ok (str v);
  float := Z;
  float_of_str := fun _ => None
|}.

(** Tables in the shape the MLB module expects. *)
Definition mlb_constants : Constants := {|
  BOXSCORE_ELEMENT_INDEX :=
    [("date", 0); ("time", 1); ("attendance", 2); ("venue", 3);
     ("duration", 4); ("time_of_day", 5)];
  BOXSCORE_SCHEME := [("date", "div.scorebox_meta"); ("time", "div.scorebox_meta")];
  BOXSCORE_URL := fun uri => "boxes/" ++ str uri ++ ".shtml";
  BOXSCORES_URL := fun _ _ _ => "boxes/";
  DOUBLE_HEADER_INDICES :=
    [("time", "start time"); ("attendance", "attendance");
     ("venue", "venue"); ("duration", "game duration")]
|}.

(** The narrative block of the first game of a doubleheader. *)
Definition doubleheader_block : string :=
  "Monday, May 1, 2017" ++ newline ++ "First game of doubleheader"
  ++ newline ++ "Venue: Fenway Park" ++ newline ++ "Night Game, on grass".




End Example.

(** ** Composite fields of the NCAAF Boxscore *)

(** What the specification says of a composite field: normalise the
    double dashes, split on the dash, convert the part at the position. *)
Definition composite_part (raw_string : string) (position : nat) : result Z :=
  parts <- split "-" (replace "--" "-" raw_string) ;;
  part <- getitem parts position ;;
  int_of_str part.

(** The composite properties of [NCAAF.Boxscore], each with the attribute
    its body reads and the position it returns. *)
Definition composite_accessors
    : list ((instance -> result Z) * string * nat) :=
  [ (NCAAF.Boxscore.away_rush_attempts, "_away_rush_attempts", 0);
    (NCAAF.Boxscore.away_rush_yards, "_away_rush_yards", 1);
    (NCAAF.Boxscore.away_rush_touchdowns, "_away_rush_touchdowns", 2);
    (NCAAF.Boxscore.away_pass_completions, "_away_pass_completions", 0);
    (NCAAF.Boxscore.away_pass_attempts, "_away_pass_attempts", 1);
    (NCAAF.Boxscore.away_pass_yards, "_away_pass_yards", 2);
    (NCAAF.Boxscore.away_pass_touchdowns, "_away_pass_touchdowns", 3);
    (NCAAF.Boxscore.away_interceptions, "_away_interceptions", 4);
    (NCAAF.Boxscore.away_fumbles, "_away_fumbles", 0);
    (NCAAF.Boxscore.away_fumbles_lost, "_away_fumbles", 1);
    (NCAAF.Boxscore.away_penalties, "_away_penalties", 0);
    (NCAAF.Boxscore.away_yards_from_penalties, "_away_yards_from_penalties", 1);
    (NCAAF.Boxscore.home_rush_attempts, "_home_rush_attempts", 0);
    (NCAAF.Boxscore.home_rush_yards, "_home_rush_yards", 1);
    (NCAAF.Boxscore.home_rush_touchdowns, "_home_rush_touchdowns", 2);
    (NCAAF.Boxscore.home_pass_completions, "_home_pass_completions", 0);
    (NCAAF.Boxscore.home_pass_attempts, "_home_pass_attempts", 1);
    (NCAAF.Boxscore.home_pass_yards, "_home_pass_yards", 2);
    (NCAAF.Boxscore.home_pass_touchdowns, "_home_pass_touchdowns", 3);
    (NCAAF.Boxscore.home_interceptions, "_home_pass_touchdowns", 4);
    (NCAAF.Boxscore.home_fumbles, "_home_fumbles", 0);
    (NCAAF.Boxscore.home_fumbles_lost, "_home_fumbles_lost", 1);
    (NCAAF.Boxscore.home_penalties, "_home_penalties", 0);
    (NCAAF.Boxscore.home_yards_from_penalties, "_home_yards_from_penalties", 1) ].

(** A raw string written with one or two dashes between its parts: the
    parts after the first, each with the separator before it ([true] for a
    double dash). *)
Definition dashes (double : bool) : string := if double then "--" else "-".

Fixpoint dashed_tail (rest : list (bool * string)) : string :=
  match rest with
  | [] => EmptyString
  | (double, part) :: rest' => dashes double ++ part ++ dashed_tail rest'
  end.

Definition dashed (first : string) (rest : list (bool * string)) : string :=
  first ++ dashed_tail rest.

(** A part between dashes: not empty, and without a dash. *)
Definition is_part (p : string) : Prop :=
  p <> EmptyString /\ contains "-" p = false.

(** [str(n)] for a natural number [n]: its decimal digits. *)
Definition str_of_nat (n : nat) : string :=
  NilZero.string_of_uint (Nat.to_uint n).

(** An exception of a conversion: what [int] raises on a value it cannot
    convert. *)
Definition conversion_error (e : exn) : Prop :=
  e = TypeError \/ e = ValueError.

(** ** Narrative blocks *)

(** What the specification says of the line selected at [index]: the
    empty string when the index lies past the end of the block, when the
    line is empty and when it holds the image-credit watermark; else the
    line itself. *)
Definition selected_line (game_info : list string) (index : nat) : string :=
  match nth_error game_info index with
  | None => EmptyString
  | Some line =>
      if contains "sports logos.net" (lower line) || String.eqb line EmptyString
      then EmptyString
      else line
  end.

(** Whether a line names a day of the week, in any case. *)
Definition names_weekday (line : string) : bool :=
  existsb (fun day => contains day (lower line)) NCAAF.Boxscore.weekdays.

(** What the specification says of a field of a doubleheader: the first
    line that holds the marker of the field, or the empty string when no
    line does. *)
Definition first_line_with (holds_marker : string -> bool)
    (game_info : list string) : string :=
  match find holds_marker game_info with
  | Some line => line
  | None => EmptyString
  end.

(** ** Boxscore without page *)

(** What a property does on an attribute that is [None]: [None] has
    neither [replace], [lower] nor [text], and [int] and [float] do not
    convert it. *)
Definition raises_on_None `{Env} (r : result cell) : Prop :=
  r = Raise AttributeError \/ r = Raise TypeError.

Definition raises_on_Noneb `{Env} (r : result cell) : bool :=
  match r with
  | Raise AttributeError | Raise TypeError => true
  | _ => false
  end.

Definition is_None_cell `{Env} (r : result cell) : bool :=
  match r with
  | Ok (CRaw RNone) => true
  | _ => false
  end.

(** A column of the exported table that gives no default on [self]: the
    column [date] is [None], any other column raises. *)
Definition gives_no_default `{Env} (self : instance)
    (column : string * (instance -> result cell)) : Prop :=
  if String.eqb (fst column) "date"
  then snd column self = Ok (CRaw RNone)
  else raises_on_None (snd column self).

Definition gives_no_defaultb `{Env} (self : instance)
    (column : string * (instance -> result cell)) : bool :=
  if String.eqb (fst column) "date"
  then is_None_cell (snd column self)
  else raises_on_Noneb (snd column self).

(** ** Attributes set by [_parse_game_data] *)

(** The attributes the loop of [_parse_game_data] passes over: [_uri] and
    the five that the properties compute. *)
Definition is_derived (field : string) : bool :=
  one_of (tail field)
    ["winner"; "winning_name"; "winning_abbr"; "losing_name"; "losing_abbr";
     "uri"].

(** The value the loop body of [MLB.Boxscore._parse_game_data] computes
    for an attribute it does not pass over. *)
Definition mlb_attribute_value `{Env} `{Constants} (boxscore : pq)
    (field : string) : result raw :=
  let short_field := tail field in
  if one_of short_field
       ["date"; "time"; "venue"; "attendance"; "time_of_day"; "duration"]
  then fmap RStr (MLB.Boxscore._parse_game_date_and_location short_field boxscore)
  else if one_of short_field ["away_name"; "home_name"]
  then MLB.Boxscore._parse_name short_field boxscore
  else
    utils_parse_field BOXSCORE_SCHEME boxscore short_field
      (match dict_get BOXSCORE_ELEMENT_INDEX short_field with
       | Some i => i
       | None => 0
       end).

(** The same for [NCAAF.Boxscore._parse_game_data]. *)
Definition ncaaf_attribute_value `{Env} `{Constants} (boxscore : pq)
    (field : string) : result raw :=
  let short_field := tail field in
  if one_of short_field ["date"; "time"; "stadium"]
  then fmap RStr (NCAAF.Boxscore._parse_game_date_and_location short_field boxscore)
  else if one_of short_field ["away_name"; "home_name"]
  then NCAAF.Boxscore._parse_name short_field boxscore
  else
    utils_parse_field BOXSCORE_SCHEME boxscore short_field
      (match dict_get BOXSCORE_ELEMENT_INDEX short_field with
       | Some i => i
       | None => 0
       end).

(** The loop [for field in self.__dict__] of [_parse_game_data], for a
    loop body [body]. *)
Definition loop (body : instance -> string -> result instance)
    (fields : list string) (start : result instance) : result instance :=
  fold_left (fun acc field => self' <- acc ;; body self' field) fields start.

(** Whether the names of a list are pairwise different. *)
Fixpoint distinct (names : list string) : bool :=
  match names with
  | [] => true
  | name :: rest => negb (one_of name rest) && distinct rest
  end.

(** ** Columns of the exported table *)

(** A column of a row: its name and value are those of an entry of the
    dict display, whose property returned the value. *)
Definition column_of `{Env} (self : instance)
    (entry : string * (instance -> result cell)) (column : string * cell)
    : Prop :=
  fst column = fst entry /\ snd entry self = Ok (snd column).

(** ** Game tables of an index page *)

(** Whether the table of a game holds a link ([game('td a')]). *)
Definition has_links `{Env} (g : pq) : bool :=
  match pq_items (pq_call g "td a") with
  | [] => false
  | _ :: _ => true
  end.

(** [game('td[class="right gamelink"] a')] *)
Definition gamelink `{Env} (g : pq) : pq :=
  pq_call g
    ("td[class=" ++ NCAAF.Boxscores.quote ++ "right gamelink"
     ++ NCAAF.Boxscores.quote ++ "] a").

(** [page('table[class="teams"]').items()] *)
Definition game_tables `{Env} (page : pq) : list pq :=
  pq_items
    (pq_call page
       ("table[class=" ++ NCAAF.Boxscores.quote ++ "teams"
        ++ NCAAF.Boxscores.quote ++ "]")).

(** The summary of an NCAAF game as its table shows it: the away team is
    the first link, the home team the last, and the game is flagged when
    one of the two is. *)
Definition ncaaf_summary_of `{Env} (g : pq) (info : NCAAF.Boxscores.game)
    : Prop :=
  exists away home,
    hd_error (pq_items (pq_call g "td a")) = Some away
    /\ last (pq_items (pq_call g "td a")) away = home
    /\ NCAAF.Boxscores._get_name away
       = (NCAAF.Boxscores.away_name info, NCAAF.Boxscores.away_abbr info,
          snd (NCAAF.Boxscores._get_name away))
    /\ NCAAF.Boxscores._get_name home
       = (NCAAF.Boxscores.home_name info, NCAAF.Boxscores.home_abbr info,
          snd (NCAAF.Boxscores._get_name home))
    /\ NCAAF.Boxscores.non_di info
       = (snd (NCAAF.Boxscores._get_name away)
          || snd (NCAAF.Boxscores._get_name home))
    /\ NCAAF.Boxscores.boxscore info
       = NCAAF.Boxscores._get_boxscore_uri (gamelink g).

(** The same for MLB, which has no flag. *)
Definition mlb_summary_of `{Env} (g : pq) (info : MLB.Boxscores.game)
    : Prop :=
  exists away home,
    hd_error (pq_items (pq_call g "td a")) = Some away
    /\ last (pq_items (pq_call g "td a")) away = home
    /\ MLB.Boxscores._get_name away
       = (MLB.Boxscores.away_name info, MLB.Boxscores.away_abbr info)
    /\ MLB.Boxscores._get_name home
       = (MLB.Boxscores.home_name info, MLB.Boxscores.home_abbr info)
    /\ MLB.Boxscores.boxscore info
       = MLB.Boxscores._get_boxscore_uri (gamelink g).

(** ** Labelled lines and defaulted numbers *)

(** The properties that remove the label of a line of the narrative
    block, each with the attribute it reads and the label. *)
Definition label_accessors
    : list ((instance -> result string) * string * string) :=
  [ (MLB.Boxscore.time, "_time", "Start Time: ");
    (MLB.Boxscore.venue, "_venue", "Venue: ");
    (MLB.Boxscore.duration, "_duration", "Game Duration: ");
    (NCAAF.Boxscore.time, "_time", "Start Time: ");
    (NCAAF.Boxscore.stadium, "_stadium", "Stadium: ") ].

(** The numeric properties of MLB whose conversion is in a [try], each
    with the attribute it reads. *)
Definition defaulted_accessors : list ((instance -> result Z) * string) :=
  [ (MLB.Boxscore.away_inherited_runners, "_away_inherited_runners");
    (MLB.Boxscore.away_inherited_score, "_away_inherited_score");
    (MLB.Boxscore.home_inherited_runners, "_home_inherited_runners");
    (MLB.Boxscore.home_inherited_score, "_home_inherited_score") ].

(** The attribute that holds the name tag of a side. *)
Definition name_attribute (s : side) : string :=
  match s with
  | HOME => "_home_name"
  | AWAY => "_away_name"
  end.

Definition other_side (s : side) : side :=
  match s with
  | HOME => AWAY
  | AWAY => HOME
  end.

(** ** Attributes read by the columns *)

(** The columns of the table that tell the result of the game. *)
Definition is_result_column (column : string) : bool :=
  one_of column
    ["winner"; "winning_name"; "winning_abbr"; "losing_name"; "losing_abbr"].

(** The attributes the result columns are computed from. *)
Definition ncaaf_result_attributes : list string :=
  ["_home_points"; "_away_points"; "_home_name"; "_away_name"].

Definition mlb_result_attributes : list string :=
  ["_home_runs"; "_away_runs"; "_home_name"; "_away_name"].

(** The attribute the property of another column of NCAAF reads: the one
    of its name, but for [away_fumbles_lost], which reads [_away_fumbles],
    and [home_interceptions], which reads [_home_pass_touchdowns]. *)
Definition ncaaf_attribute_of (column : string) : string :=
  if String.eqb column "away_fumbles_lost" then "_away_fumbles"
  else if String.eqb column "home_interceptions" then "_home_pass_touchdowns"
  else "_" ++ column.

(** The same for MLB: always the attribute of the column's name. *)
Definition mlb_attribute_of (column : string) : string := "_" ++ column.

(** Two instances hold the same values for the attributes listed. *)
Definition agree (attributes : list string) (self self' : instance) : Prop :=
  Forall (fun a => getattr self a = getattr self' a) attributes.

(** The attributes [dataframe] reads, itself or through a property. *)
Definition ncaaf_attributes_read `{Env} : list string :=
  ("_uri" :: ncaaf_result_attributes
   ++ map ncaaf_attribute_of
        (filter (fun c => negb (is_result_column c))
           (map fst NCAAF.Boxscore.fields_to_include)))%list.

Definition mlb_attributes_read `{Env} : list string :=
  ("_uri" :: mlb_result_attributes
   ++ map mlb_attribute_of
        (filter (fun c => negb (is_result_column c))
           (map fst MLB.Boxscore.fields_to_include)))%list.

(** The attributes the constructor assigns that [dataframe] never reads. *)
Definition ncaaf_attributes_never_read `{Env} : list string :=
  filter (fun f => negb (one_of f ncaaf_attributes_read))
    NCAAF.Boxscore.fields.

Definition mlb_attributes_never_read `{Env} : list string :=
  filter (fun f => negb (one_of f mlb_attributes_read)) MLB.Boxscore.fields.

(** ** A small web *)

Module Web.

(** An element of a page: its markup, its text, and what each selector
    the modules use finds below it. *)
#[local] Unset Elimination Schemes.
Inductive node : Type :=
| Node (html text : string) (found : dict (list node)).
#[local] Set Elimination Schemes.

Definition node_html (n : node) : string :=
  match n with Node html _ _ => html end.

Definition node_text (n : node) : string :=
  match n with Node _ text _ => text end.

Definition node_find (selector : string) (n : node) : list node :=
  match n with
  | Node _ _ found =>
      match dict_get found selector with
      | Some nodes => nodes
      | None => []
      end
  end.

(** A selection is the list of its elements. *)
Definition selection : Type := list node.

Definition markup (sel : selection) : string :=
  fold_right (fun n acc => node_html n ++ acc) EmptyString sel.

Definition quote : string := String "034"%char EmptyString.

Definition scorebox_meta : string := "div.scorebox_meta".

(** The narrative block of a single MLB game. *)
Definition mlb_meta : node :=
  Node "<div>...</div>"
    ("Thursday, June 7, 2018" ++ newline ++ "Start Time: 7:10 p.m. Local"
     ++ newline ++ "Attendance: 36,513" ++ newline ++ "Venue: Fenway Park"
     ++ newline ++ "Game Duration: 2:48" ++ newline ++ "Night Game, on grass")
    [].

Definition tigers : node :=
  Node "<a href='/teams/DET/2018.shtml'>Detroit Tigers</a>" "Detroit Tigers" [].

Definition red_sox : node :=
  Node "<a href='/teams/BOS/2018.shtml'>Boston Red Sox</a>" "Boston Red Sox" [].

Definition final : node :=
  Node "<a href='/boxes/BOS/BOS201806070.shtml'>Final</a>" "Final" [].

Definition runs (n : string) : node := Node ("<td>" ++ n ++ "</td>") n [].

(** The page of one MLB game. *)
Definition mlb_game_page : node :=
  Node "<html>BOS201806070</html>" "BOS201806070"
    [(scorebox_meta, [mlb_meta]);
     ("away_name", [tigers]); ("home_name", [red_sox]);
     ("away_runs", [runs "7"]); ("home_runs", [runs "2"])].

(** One table of the index page of a day: the two teams and the link to
    the boxscore. *)
Definition mlb_game_table : node :=
  Node "<table class='teams'>...</table>" "Detroit Tigers 7 Final Boston Red Sox 2"
    [("td a", [tigers; final; red_sox]);
     ("td[class=" ++ quote ++ "right gamelink" ++ quote ++ "] a", [final])].

(** A table without any link. *)
Definition broken_table : node :=
  Node "<table class='teams'></table>" EmptyString [].

Definition mlb_index_page : node :=
  Node "<html>2018-06-07</html>" "2018-06-07"
    [("table[class=" ++ quote ++ "teams" ++ quote ++ "]", [mlb_game_table])].

(** The page of a day without games. *)
Definition mlb_empty_index_page : node :=
  Node "<html>2018-12-25</html>" "2018-12-25" [].

(** The narrative block of a bowl game of NCAAF. *)
Definition ncaaf_meta : node :=
  Node "<div>...</div>"
    ("College Football Championship" ++ newline ++ "Monday Jan 8, 2018"
     ++ newline ++ "Start Time: 8:00 PM ET" ++ newline
     ++ "Stadium: Mercedes-Benz Stadium" ++ newline
     ++ "Logos via Sports Logos.net / About logos")
    [].

Definition alabama : node :=
  Node "<a href='/cfb/schools/alabama/2017.html'>Alabama</a>" "Alabama" [].

Definition georgia : node :=
  Node "<a href='/cfb/schools/georgia/2017.html'>Georgia</a>" "Georgia" [].

Definition savannah_state : node :=
  Node "<td>Savannah State</td>" "Savannah State" [].

Definition ncaaf_final : node :=
  Node "<a href='/cfb/boxscores/2018-01-08-georgia.html'>Final</a>" "Final" [].

(** The page of one NCAAF game. *)
Definition ncaaf_game_page : node :=
  Node "<html>2018-01-08-georgia</html>" "2018-01-08-georgia"
    [(scorebox_meta, [ncaaf_meta]);
     ("away_name", [alabama]); ("home_name", [georgia]);
     ("away_points", [runs "26"]); ("home_points", [runs "23"])].

Definition ncaaf_game_table : node :=
  Node "<table class='teams'>...</table>" "Alabama 26 Final Georgia 23"
    [("td a", [alabama; ncaaf_final; georgia]);
     ("td[class=" ++ quote ++ "right gamelink" ++ quote ++ "] a", [ncaaf_final])].

(** A game against a school outside of Division-I: its name is no link. *)
Definition ncaaf_non_di_table : node :=
  Node "<table class='teams'>...</table>" "Savannah State 0 Final Georgia 55"
    [("td a", [savannah_state; ncaaf_final; georgia]);
     ("td[class=" ++ quote ++ "right gamelink" ++ quote ++ "] a", [ncaaf_final])].

Definition ncaaf_index_page : node :=
  Node "<html>1-8-2018</html>" "1-8-2018"
    [("table[class=" ++ quote ++ "teams" ++ quote ++ "]",
      [ncaaf_game_table; ncaaf_non_di_table])].

(** A page whose markup [pq] does not parse a second time. *)
Definition garbled_page : node := Node "<html" EmptyString [].

(** The pages that parse, by address. *)
Definition pages : dict node :=
  [("https://www.baseball-reference.com/boxes/BOS/BOS201806070.shtml",
    mlb_game_page);
   ("https://www.baseball-reference.com/boxes/?year=2018&month=6&day=7",
    mlb_index_page);
   ("https://www.baseball-reference.com/boxes/?year=2018&month=12&day=25",
    mlb_empty_index_page);
   ("https://www.sports-reference.com/cfb/boxscores/2018-01-08-georgia.html",
    ncaaf_game_page);
   ("https://www.sports-reference.com/cfb/boxscores/index.cgi?month=1&day=8&year=2018",
    ncaaf_index_page)].

(** What the web serves: the pages that parse, a page that does not, and
    an empty document. *)
Definition served : dict selection :=
  (map (fun entry => (fst entry, [snd entry])) pages
   ++ [("https://www.baseball-reference.com/boxes/GARBLED.shtml", [garbled_page]);
       ("https://www.baseball-reference.com/boxes/EMPTY.shtml", [])])%list.

(** [pq(html)]: the page whose markup is [html]; no markup gives the
    empty document. *)
Fixpoint page_of_markup (html : string) (known : dict node) : result selection :=
  match known with
  | [] => if String.eqb html EmptyString then Ok [] else Raise ParserError
  | (_, page) :: rest =>
      if String.eqb html (node_html page) then Ok [page]
      else page_of_markup html rest
  end.

(** pyquery and [utils] over these pages.  [utils._parse_field] gives the
    text of the element at [index], or [None] when there is none. *)
Definition online : Env := {|
  pq := selection;
  pq_url := fun url =>
    match dict_get served url with
    | Some document => Ok document
    | None => Raise HTTPError
    end;
  pq_html := fun html => page_of_markup html pages;
  pq_call := fun sel selector => flat_map (node_find selector) sel;
  pq_items := fun sel => map (fun n => [n]) sel;
  pq_text := fun sel => join " " (map node_text sel);
  pq_str := markup;
  pq_bool := fun sel => negb (Nat.eqb (List.length sel) 0);
  utils_remove_html_comment_tags := markup;
  utils_parse_field := fun scheme doc field index =>
    match dict_get scheme field with
    | None => Ok RNone
    | Some selector =>
        match nth_error (flat_map (node_find selector) doc) index with
        | Some n => Ok (RStr (node_text n))
        | None => Ok RNone
        end
    end;
  utils_parse_abbreviation := fun v => Ok (str v);
  float := Z;
  float_of_str := fun s =>
    match int_of_str s with
    | Ok z => Some z
    | Raise _ => None
    end
|}.

(** The tables of the MLB module for these pages. *)
Definition mlb_constants : Constants := {|
  BOXSCORE_ELEMENT_INDEX :=
    [("date", 0); ("time", 1); ("attendance", 2); ("venue", 3);
     ("duration", 4); ("time_of_day", 5)];
  BOXSCORE_SCHEME :=
    [("date", scorebox_meta); ("time", scorebox_meta);
     ("attendance", scorebox_meta); ("venue", scorebox_meta);
     ("duration", scorebox_meta); ("time_of_day", scorebox_meta);
     ("away_name", "away_name"); ("home_name", "home_name");
     ("away_runs", "away_runs"); ("home_runs", "home_runs")];
  BOXSCORE_URL := fun uri =>
    "https://www.baseball-reference.com/boxes/" ++ str uri ++ ".shtml";
  BOXSCORES_URL := fun y m d =>
    "https://www.baseball-reference.com/boxes/?year=" ++ str_of_nat (Z.to_nat y)
    ++ "&month=" ++ str_of_nat (Z.to_nat m)
    ++ "&day=" ++ str_of_nat (Z.to_nat d);
  DOUBLE_HEADER_INDICES :=
    [("time", "start time"); ("attendance", "attendance");
     ("venue", "venue"); ("duration", "game duration")]
|}.

(** The same tables without the selector of the date. *)
Definition mlb_constants_without_date : Constants := {|
  BOXSCORE_ELEMENT_INDEX := BOXSCORE_ELEMENT_INDEX (Constants := mlb_constants);
  BOXSCORE_SCHEME := tl (BOXSCORE_SCHEME (Constants := mlb_constants));
  BOXSCORE_URL := BOXSCORE_URL (Constants := mlb_constants);
  BOXSCORES_URL := BOXSCORES_URL (Constants := mlb_constants);
  DOUBLE_HEADER_INDICES := DOUBLE_HEADER_INDICES (Constants := mlb_constants)
|}.

(** The tables of the NCAAF module for these pages. *)
Definition ncaaf_constants : Constants := {|
  BOXSCORE_ELEMENT_INDEX := [("date", 0); ("time", 1); ("stadium", 2)];
  BOXSCORE_SCHEME :=
    [("date", scorebox_meta); ("time", scorebox_meta);
     ("stadium", scorebox_meta);
     ("away_name", "away_name"); ("home_name", "home_name");
     ("away_points", "away_points"); ("home_points", "home_points")];
  BOXSCORE_URL := fun uri =>
    "https://www.sports-reference.com/cfb/boxscores/" ++ str uri ++ ".html";
  BOXSCORES_URL := fun m d y =>
    "https://www.sports-reference.com/cfb/boxscores/index.cgi?month="
    ++ str_of_nat (Z.to_nat m) ++ "&day=" ++ str_of_nat (Z.to_nat d)
    ++ "&year=" ++ str_of_nat (Z.to_nat y);
  DOUBLE_HEADER_INDICES := []
|}.

(** A played NCAAF game, every attribute a property reads being set. *)
Definition rush : raw := RStr "40-184-2".
Definition pass : raw := RStr "14-24-166-3-0".
Definition fumbles : raw := RStr "1--0".
Definition penalties : raw := RStr "6-41".

Definition ncaaf_played : instance :=
  [("_uri", RStr "2018-01-08-georgia");
   ("_date", RStr "Monday Jan 8, 2018");
   ("_time", RStr "Start Time: 8:00 PM ET");
   ("_stadium", RStr "Stadium: Mercedes-Benz Stadium");
   ("_away_name", RTag (node_html alabama) (node_text alabama));
   ("_home_name", RTag (node_html georgia) (node_text georgia));
   ("_away_points", RStr "26"); ("_away_first_downs", RStr "20");
   ("_away_rush_attempts", rush); ("_away_rush_yards", rush);
   ("_away_rush_touchdowns", rush);
   ("_away_pass_completions", pass); ("_away_pass_attempts", pass);
   ("_away_pass_yards", pass); ("_away_pass_touchdowns", pass);
   ("_away_interceptions", pass); ("_away_total_yards", RStr "371");
   ("_away_fumbles", fumbles); ("_away_fumbles_lost", fumbles);
   ("_away_turnovers", RStr "0");
   ("_away_penalties", penalties); ("_away_yards_from_penalties", penalties);
   ("_home_points", RStr "23"); ("_home_first_downs", RStr "22");
   ("_home_rush_attempts", rush); ("_home_rush_yards", rush);
   ("_home_rush_touchdowns", rush);
   ("_home_pass_completions", pass); ("_home_pass_attempts", pass);
   ("_home_pass_yards", pass); ("_home_pass_touchdowns", pass);
   ("_home_interceptions", pass); ("_home_total_yards", RStr "365");
   ("_home_fumbles", fumbles); ("_home_fumbles_lost", fumbles);
   ("_home_turnovers", RStr "2");
   ("_home_penalties", penalties); ("_home_yards_from_penalties", penalties)].

(** The same game with a score that is no number. *)
Definition ncaaf_garbled_score : instance :=
  setattr ncaaf_played "_home_points" (RStr "n/a").

(** A played MLB game, every attribute a property reads being set. *)
Definition mlb_played : instance :=
  let numbers :=
    fold_left (fun d name => setattr d name (RStr "3")) MLB.Boxscore.fields
      (setattr [] "_uri" (RStr "BOS/BOS201806070")) in
  let names :=
    setattr
      (setattr numbers "_away_name" (RTag (node_html tigers) (node_text tigers)))
      "_home_name" (RTag (node_html red_sox) (node_text red_sox)) in
  setattr (setattr names "_away_runs" (RStr "7"))
    "_attendance" (RStr "Attendance: 36,513").

(** The tables of MLB without any marker of a doubleheader. *)
Definition mlb_constants_without_markers : Constants := {|
  BOXSCORE_ELEMENT_INDEX := BOXSCORE_ELEMENT_INDEX (Constants := mlb_constants);
  BOXSCORE_SCHEME := BOXSCORE_SCHEME (Constants := mlb_constants);
  BOXSCORE_URL := BOXSCORE_URL (Constants := mlb_constants);
  BOXSCORES_URL := BOXSCORES_URL (Constants := mlb_constants);
  DOUBLE_HEADER_INDICES := []
|}.

(** A doubleheader block that tells neither a day nor a night game. *)
Definition short_doubleheader_block : string :=
  "Monday, May 1, 2017" ++ newline ++ "Second game of doubleheader".

(** The NCAAF game ending in a tie, and the game won by a visiting school
    outside of Division-I. *)
Definition ncaaf_tied : instance :=
  setattr ncaaf_played "_home_points" (RStr "26").

Definition ncaaf_non_di_winner : instance :=
  setattr ncaaf_played "_away_name"
    (RTag (node_html savannah_state) (node_text savannah_state)).

(** The NCAAF game with one score only. *)
Definition ncaaf_half_scored : instance :=
  setattr ncaaf_played "_away_points" RNone.

(** The page of a game whose narrative block has the text [block]. *)
Definition narrative (block : string) : node := Node "<div>...</div>" block [].

Definition game_page_of (block : string) : node :=
  Node "<html>...</html>" block [(scorebox_meta, [narrative block])].

(** Narrative blocks of NCAAF: a bowl game, whose first line is the title
    of the game, and a game of the regular season. *)
Definition rose_bowl_block : string :=
  "Rose Bowl" ++ newline ++ "Monday Jan 1, 2018" ++ newline
  ++ "Start Time: 5:00 PM" ++ newline ++ "Logos via Sports Logos.net".

Definition regular_season_block : string :=
  "Monday Jan 1, 2018" ++ newline ++ "Start Time: 5:00 PM".

(** The second game of a doubleheader of MLB, played by day. *)
Definition day_doubleheader_block : string :=
  "Monday, May 1, 2017" ++ newline ++ "Second game of doubleheader"
  ++ newline ++ "Day Game, on grass".


End Web.

(** * Properties *)

(** ** Strings *)

Lemma append_empty_r (s : string) : s ++ EmptyString = s.
Proof. induction s as [|c s IH]; simpl; [reflexivity | now rewrite IH]. Qed.

Lemma append_assoc (a b c : string) : (a ++ b) ++ c = a ++ b ++ c.
Proof. induction a as [|x a IH]; simpl; [reflexivity | now rewrite IH]. Qed.

Lemma startswith_append (p t : string) : startswith p (p ++ t) = true.
Proof.
  induction p as [|c p IH]; simpl; [reflexivity|].
  now rewrite Ascii.eqb_refl, IH.
Qed.

Lemma startswith_inv (p s : string) :
  startswith p s = true -> exists t, s = p ++ t.
Proof.
  revert s; induction p as [|c p IH]; intros s H.
  - now exists s.
  - destruct s as [|d s]; simpl in H; [discriminate|].
    apply andb_true_iff in H as [Hc Hp].
    apply Ascii.eqb_eq in Hc; subst d.
    destruct (IH _ Hp) as [t ->]. now exists t.
Qed.

Lemma contains_startswith (m s : string) :
  startswith m s = true -> contains m s = true.
Proof.
  destruct s as [|c s]; simpl; intros H; [exact H | now rewrite H].
Qed.

Lemma contains_intro (m a b : string) : contains m (a ++ m ++ b) = true.
Proof.
  induction a as [|c a IH]; simpl.
  - apply contains_startswith, startswith_append.
  - rewrite IH. apply orb_true_r.
Qed.

Lemma contains_inv (m s : string) :
  contains m s = true -> exists a b, s = a ++ m ++ b.
Proof.
  induction s as [|c s IH]; simpl; intros H.
  - destruct (startswith_inv _ _ H) as [t Ht].
    exists EmptyString, t. exact Ht.
  - apply orb_true_iff in H as [H | H].
    + destruct (startswith_inv _ _ H) as [t Ht].
      exists EmptyString, t. exact Ht.
    + destruct (IH H) as (a & b & ->).
      now exists (String c a), b.
Qed.

Lemma lower_append (a b : string) : lower (a ++ b) = lower a ++ lower b.
Proof. induction a as [|c a IH]; simpl; [reflexivity | now rewrite IH]. Qed.

(** A substring of a text is found in the text, also after [lower]. *)
Lemma contains_lower_within (m a l b : string) :
  contains m (lower l) = true -> contains m (lower (a ++ l ++ b)) = true.
Proof.
  intros H. destruct (contains_inv _ _ H) as (x & y & Hl).
  rewrite !lower_append, Hl, !append_assoc, <- (append_assoc (lower a) x).
  apply contains_intro.
Qed.

(** The part that [split_scan] is reading starts the text. *)
Lemma split_scan_head (sep s : string) :
  exists part parts t, split_scan sep 0 s = part :: parts /\ s = part ++ t.
Proof.
  induction s as [|c s (part & parts & t & Hs & Ht)].
  - exists EmptyString, [], EmptyString. now split.
  - simpl. destruct (startswith sep (String c s)).
    + exists EmptyString, (split_scan sep (String.length sep - 1) s), (String c s).
      now split.
    + rewrite Hs. exists (String c part), parts, t. now rewrite Ht.
Qed.

(** Every part [split_scan] returns is a substring of the text. *)
Lemma split_scan_within (sep : string) (s : string) :
  forall skip l, In l (split_scan sep skip s) -> exists a b, s = a ++ l ++ b.
Proof.
  induction s as [|c s IH]; intros skip l Hin.
  - destruct Hin as [<- | []]. now exists EmptyString, EmptyString.
  - simpl in Hin. destruct skip as [|k].
    + destruct (startswith sep (String c s)).
      * destruct Hin as [<- | Hin]; [now exists EmptyString, (String c s)|].
        destruct (IH _ _ Hin) as (a & b & ->). now exists (String c a), b.
      * destruct (split_scan_head sep s) as (part & parts & t & Hs & Ht).
        rewrite Hs in Hin. destruct Hin as [<- | Hin].
        -- exists EmptyString, t. now rewrite Ht.
        -- destruct (IH 0 l) as (a & b & ->); [rewrite Hs; now right|].
           now exists (String c a), b.
    + destruct (IH _ _ Hin) as (a & b & ->). now exists (String c a), b.
Qed.


(** The primitives on the strings of the two modules. *)
Example replace_examples :
  replace "--" "-" "5---3" = "5--3"
  /\ replace "Start Time: " EmptyString "Start Time: 7:05 PM" = "7:05 PM"
  /\ replace "," EmptyString "36,513" = "36513".
Proof. repeat split. Qed.

Example split_examples :
  split "-" EmptyString = Ok [EmptyString]
  /\ split "-" "-a-" = Ok [EmptyString; "a"; EmptyString]
  /\ split newline ("Monday" ++ newline ++ "Venue") = Ok ["Monday"; "Venue"].
Proof. repeat split. Qed.

Example int_examples :
  int_of_str " 12 " = Ok 12%Z
  /\ int_of_str "-7" = Ok (-7)%Z
  /\ int_of_str "1_000" = Ok 1000%Z
  /\ int_of_str EmptyString = Raise ValueError
  /\ int_of_str "36,513" = Raise ValueError
  /\ int_of_str "- 7" = Raise ValueError.
Proof. repeat split. Qed.

(** [int] skips less than [str.strip] removes: a separator U+001C to
    U+001F at an end of the text makes the conversion fail, a no-break
    space does not. *)
Example int_white_space_examples :
  int_of_str (String "031" "7") = Raise ValueError
  /\ int_of_str ("7" ++ String "028" EmptyString) = Raise ValueError
  /\ strip (String "031" "7") = "7"
  /\ int_of_str (String "160" "7") = Ok 7%Z
  /\ int_of_str (String "009" "7" ++ newline) = Ok 7%Z
  /\ int_of_str (String "133" (String "032" "+7")) = Ok 7%Z.
Proof. repeat split. Qed.

Example attendance_examples :
  MLB.Boxscore.attendance [("_attendance", RStr "Attendance: 36,513")]
  = Ok 36513%Z
  /\ MLB.Boxscore.attendance [("_attendance", RStr "Attendance: unknown")]
     = Ok 0%Z
  /\ MLB.Boxscore.attendance [("_attendance", RNone)] = Raise AttributeError.
Proof. repeat split. Qed.

(** ** Attribute dictionaries *)

Lemma dict_get_set_other {V : Type} (d : dict V) (k k' : string) (v : V) :
  k <> k' -> dict_get (dict_set d k v) k' = dict_get d k'.
Proof.
  intros Hk. induction d as [|[k0 v0] d IH]; simpl.
  - destruct (String.eqb_spec k' k); [congruence | reflexivity].
  - destruct (String.eqb_spec k k0) as [-> | Hk0]; simpl.
    + destruct (String.eqb_spec k' k0); [congruence | reflexivity].
    + now rewrite IH.
Qed.

Lemma getattr_setattr_other (self : instance) (k k' : string) (v : raw) :
  k <> k' -> getattr (setattr self k v) k' = getattr self k'.
Proof.
  intros Hk. unfold getattr, setattr. now rewrite dict_get_set_other.
Qed.

(** ** Composite fields *)

Lemma contains_dash_cons (c : ascii) (p : string) :
  contains "-" (String c p) = false ->
  Ascii.eqb "-" c = false /\ contains "-" p = false.
Proof.
  cbn [contains startswith]. intros H.
  apply orb_false_iff in H as [Hc Hp].
  rewrite andb_true_r in Hc. now split.
Qed.

(** A text without dash passes through the normalisation unchanged. *)
Lemma replace_scan_part (p t : string) :
  contains "-" p = false ->
  replace_scan "--" "-" 0 (p ++ t) = p ++ replace_scan "--" "-" 0 t.
Proof.
  induction p as [|c p IH]; intros Hp; [reflexivity|].
  apply contains_dash_cons in Hp as [Hc Hp].
  cbn [append replace_scan startswith]. rewrite Hc. cbn [andb].
  now rewrite IH.
Qed.

Lemma is_part_head (p : string) :
  is_part p -> exists c p', p = String c p' /\ Ascii.eqb "-" c = false.
Proof.
  intros [Hne Hp]. destruct p as [|c p']; [congruence|].
  exists c, p'. split; [reflexivity|].
  now apply contains_dash_cons in Hp as [Hc _].
Qed.

(** After the normalisation every separator is a single dash. *)
Lemma replace_dashed_tail (rest : list (bool * string)) :
  Forall (fun sp => is_part (snd sp)) rest ->
  replace_scan "--" "-" 0 (dashed_tail rest)
  = dashed_tail (map (fun sp => (false, snd sp)) rest).
Proof.
  induction 1 as [|[double p] rest Hp _ IH]; [reflexivity|].
  cbn [snd] in Hp. destruct (is_part_head _ Hp) as (c & p' & Heq & Hc).
  assert (Hscan : replace_scan "--" "-" 0 (p ++ dashed_tail rest)
                  = p ++ dashed_tail (map (fun sp => (false, snd sp)) rest)).
  { rewrite replace_scan_part by apply Hp. now rewrite IH. }
  destruct double; cbn [map dashed_tail snd dashes].
  - change ("--" ++ p ++ dashed_tail rest)
      with (String "-" (String "-" (p ++ dashed_tail rest))).
    rewrite <- Hscan. reflexivity.
  - change ("-" ++ p ++ dashed_tail rest)
      with (String "-" (p ++ dashed_tail rest)).
    rewrite <- Hscan. subst p.
    cbn [append replace_scan startswith]. rewrite Hc.
    reflexivity.
Qed.

Lemma split_scan_part (p t : string) :
  contains "-" p = false ->
  split_scan "-" 0 (p ++ "-" ++ t) = p :: split_scan "-" 0 t.
Proof.
  induction p as [|c p IH]; intros Hp; [reflexivity|].
  apply contains_dash_cons in Hp as [Hc Hp].
  cbn [append split_scan startswith]. rewrite Hc. cbn [andb].
  change (String "-" t) with ("-" ++ t). now rewrite IH.
Qed.

Lemma split_scan_last_part (p : string) :
  contains "-" p = false -> split_scan "-" 0 p = [p].
Proof.
  induction p as [|c p IH]; intros Hp; [reflexivity|].
  apply contains_dash_cons in Hp as [Hc Hp].
  cbn [split_scan startswith]. rewrite Hc. cbn [andb].
  now rewrite IH.
Qed.

Lemma split_single_dashed (first : string) (rest : list (bool * string)) :
  contains "-" first = false ->
  Forall (fun sp => is_part (snd sp)) rest ->
  split_scan "-" 0 (first ++ dashed_tail (map (fun sp => (false, snd sp)) rest))
  = first :: map snd rest.
Proof.
  intros Hfirst Hrest. revert first Hfirst.
  induction Hrest as [|[double p] rest Hp _ IH]; intros first Hfirst.
  - cbn [map dashed_tail]. rewrite append_empty_r.
    now apply split_scan_last_part.
  - cbn [map dashed_tail snd dashes].
    rewrite split_scan_part by assumption.
    f_equal. apply IH, Hp.
Qed.

(** The parts of a dashed text, as the accessors see them. *)
Lemma split_replace_dashed (first : string) (rest : list (bool * string)) :
  is_part first ->
  Forall (fun sp => is_part (snd sp)) rest ->
  split "-" (replace "--" "-" (dashed first rest)) = Ok (first :: map snd rest).
Proof.
  intros Hfirst Hrest. unfold dashed, split, replace.
  rewrite replace_scan_part by apply Hfirst.
  rewrite replace_dashed_tail by assumption.
  now rewrite split_single_dashed by (assumption || apply Hfirst).
Qed.

(** *** Decimal digits *)

Ltac each_digit d :=
  destruct d as [|d|d|d|d|d|d|d|d|d|d].

Lemma int_lstrip_digits (d : uint) :
  int_lstrip (NilEmpty.string_of_uint d) = NilEmpty.string_of_uint d.
Proof. each_digit d; reflexivity. Qed.

Lemma int_rstrip_digits (d : uint) :
  int_rstrip (NilEmpty.string_of_uint d) = NilEmpty.string_of_uint d.
Proof.
  induction d; cbn [NilEmpty.string_of_uint int_rstrip]; try reflexivity;
    rewrite IHd; now destruct (NilEmpty.string_of_uint d).
Qed.

Lemma contains_dash_digits (d : uint) :
  contains "-" (NilEmpty.string_of_uint d) = false.
Proof.
  induction d; cbn [NilEmpty.string_of_uint]; try reflexivity;
    cbn [contains]; now rewrite IHd.
Qed.

Lemma int_digits_of_uint (d : uint) :
  forall acc, (0 <= acc)%Z ->
  int_digits acc true (NilEmpty.string_of_uint d)
  = Some (Z.of_nat (Nat.of_uint_acc d (Z.to_nat acc))).
Proof.
  induction d; intros acc Hacc; cbn [NilEmpty.string_of_uint].
  1: cbn [int_digits Nat.of_uint_acc]; f_equal; lia.
  all: match goal with
       | |- int_digits ?a true (String ?c ?s) = _ =>
           let v := eval vm_compute in (Z.of_N (code c) - 48)%Z in
           change (int_digits a true (String c s))
             with (int_digits (10 * a + v) true s)
       end.
  all: rewrite IHd by lia.
  all: cbn [Nat.of_uint_acc]; rewrite Nat.tail_mul_spec.
  all: do 3 f_equal; lia.
Qed.

Lemma int_unsigned_of_uint (d : uint) :
  d <> Nil ->
  int_unsigned (NilEmpty.string_of_uint d) = Some (Z.of_nat (Nat.of_uint d)).
Proof.
  intros Hd. unfold Nat.of_uint.
  change 0%nat with (Z.to_nat 0). rewrite <- int_digits_of_uint by lia.
  each_digit d; [contradiction|..]; reflexivity.
Qed.

Lemma int_of_str_of_nat (n : nat) :
  int_of_str (str_of_nat n) = Ok (Z.of_nat n).
Proof.
  unfold str_of_nat.
  rewrite <- (Unsigned.of_to n) at 2.
  generalize (Nat.to_uint n) as d. intros d.
  destruct (uint_eq_dec d Nil) as [-> | Hd]; [reflexivity|].
  replace (NilZero.string_of_uint d) with (NilEmpty.string_of_uint d)
    by now destruct d.
  unfold int_of_str, int_strip. rewrite int_lstrip_digits, int_rstrip_digits.
  replace (match NilEmpty.string_of_uint d with
           | String "+"%char r => int_unsigned r
           | String "-"%char r => option_map Z.opp (int_unsigned r)
           | _ => int_unsigned (NilEmpty.string_of_uint d)
           end)
    with (int_unsigned (NilEmpty.string_of_uint d))
    by (each_digit d; reflexivity).
  now rewrite (int_unsigned_of_uint d Hd).
Qed.

Lemma is_part_str_of_nat (n : nat) : is_part (str_of_nat n).
Proof.
  unfold str_of_nat, NilZero.string_of_uint, is_part.
  destruct (Nat.to_uint n) eqn:Hd; [now split|..];
    (split; [discriminate | apply contains_dash_digits]).
Qed.

(** Each composite property reads its attribute as the specification says. *)
Lemma composite_accessors_read :
  Forall (fun entry =>
            let '(accessor, field, position) := entry in
            forall self raw_string,
              getattr self field = Ok (RStr raw_string) ->
              accessor self = composite_part raw_string position)
         composite_accessors.
Proof.
  unfold composite_accessors.
  repeat (apply Forall_cons;
          [intros self raw_string H;
           match goal with |- ?f self = _ => unfold f end;
           rewrite H; reflexivity |]).
  apply Forall_nil.
Qed.

Lemma composite_accessor_read accessor field position :
  In (accessor, field, position) composite_accessors ->
  forall self raw_string,
    getattr self field = Ok (RStr raw_string) ->
    accessor self = composite_part raw_string position.
Proof.
  intros Hin.
  exact (proj1 (Forall_forall _ _) composite_accessors_read _ Hin).
Qed.

(** The part at a position of a dashed text. *)
Lemma composite_part_dashed (first : string) (rest : list (bool * string))
    (position : nat) :
  is_part first ->
  Forall (fun sp => is_part (snd sp)) rest ->
  composite_part (dashed first rest) position
  = (part <- getitem (first :: map snd rest) position ;; int_of_str part).
Proof.
  intros Hfirst Hrest. unfold composite_part.
  now rewrite split_replace_dashed.
Qed.

(** The number at a position of dashed numbers. *)
Lemma composite_part_numbers (first : nat) (rest : list (bool * nat))
    (position number : nat) :
  nth_error (first :: map snd rest) position = Some number ->
  composite_part
    (dashed (str_of_nat first)
       (map (fun sn => (fst sn, str_of_nat (snd sn))) rest))
    position
  = Ok (Z.of_nat number).
Proof.
  intros Hnth. rewrite composite_part_dashed.
  - replace (str_of_nat first
             :: map snd (map (fun sn => (fst sn, str_of_nat (snd sn))) rest))
      with (map str_of_nat (first :: map snd rest))
      by (cbn [map]; now rewrite !map_map).
    unfold getitem. rewrite nth_error_map, Hnth. cbn [option_map bind].
    apply int_of_str_of_nat.
  - apply is_part_str_of_nat.
  - apply Forall_forall. intros sp Hin.
    apply in_map_iff in Hin as (sn & <- & _). apply is_part_str_of_nat.
Qed.

(** C1. Every composite property of the NCAAF Boxscore normalises the
    double dashes of the raw string of its attribute, splits it on the
    dash and converts the part at its fixed position.  So for parts, and
    for numbers, written with single or double dashes between them the
    property at position [k] returns the [k]-th of them; for the pass
    string 10-20-150-2-1 the pass completions are 10 and the interceptions
    1; and 5--3 is split as 5-3. *)
Theorem composite_accessors_return_fixed_position :
  (forall accessor field position,
      In (accessor, field, position) composite_accessors ->
      forall self raw_string,
        getattr self field = Ok (RStr raw_string) ->
        accessor self
        = (parts <- split "-" (replace "--" "-" raw_string) ;;
           part <- getitem parts position ;;
           int_of_str part))
  /\ (forall first rest position,
         is_part first ->
         Forall (fun sp => is_part (snd sp)) rest ->
         composite_part (dashed first rest) position
         = (part <- getitem (first :: map snd rest) position ;;
            int_of_str part))
  /\ (forall (first : nat) (rest : list (bool * nat)) position number,
         nth_error (first :: map snd rest) position = Some number ->
         composite_part
           (dashed (str_of_nat first)
              (map (fun sn => (fst sn, str_of_nat (snd sn))) rest))
           position
         = Ok (Z.of_nat number))
  /\ (forall self,
         getattr self "_away_pass_completions" = Ok (RStr "10-20-150-2-1") ->
         NCAAF.Boxscore.away_pass_completions self = Ok 10%Z)
  /\ (forall self,
         getattr self "_away_interceptions" = Ok (RStr "10-20-150-2-1") ->
         NCAAF.Boxscore.away_interceptions self = Ok 1%Z)
  /\ replace "--" "-" "5--3" = "5-3"
  /\ split "-" (replace "--" "-" "5--3") = Ok ["5"; "3"].
Proof.
  split; [|split; [|split; [|split; [|split; [|split]]]]].
  - intros accessor field position Hin self raw_string Hget.
    now rewrite (composite_accessor_read _ _ _ Hin _ _ Hget).
  - exact composite_part_dashed.
  - exact composite_part_numbers.
  - intros self Hget. unfold NCAAF.Boxscore.away_pass_completions.
    now rewrite Hget.
  - intros self Hget. unfold NCAAF.Boxscore.away_interceptions.
    now rewrite Hget.
  - reflexivity.
  - reflexivity.
Qed.

Lemma composite_accessors_return_fixed_position_witness :
  NCAAF.Boxscore.away_pass_completions
    [("_away_pass_completions", RStr "10-20-150-2-1")] = Ok 10%Z
  /\ NCAAF.Boxscore.away_interceptions
       [("_away_interceptions", RStr "10-20-150-2-1")] = Ok 1%Z
  /\ NCAAF.Boxscore.away_yards_from_penalties
       [("_away_yards_from_penalties", RStr "5--3")]
     = (parts <- split "-" (replace "--" "-" "5--3") ;;
        part <- getitem parts 1 ;;
        int_of_str part)
  /\ composite_part (dashed "10" [(true, "20"); (false, "150")]) 2
     = (part <- getitem ["10"; "20"; "150"] 2 ;; int_of_str part)
  /\ composite_part
       (dashed (str_of_nat 10)
          (map (fun sn => (fst sn, str_of_nat (snd sn)))
             [(false, 20); (true, 150); (false, 2); (false, 1)]))
       2
     = Ok 150%Z.
Proof.
  destruct composite_accessors_return_fixed_position
    as (Hread & Hdashed & Hnumbers & Hcompletions & Hinterceptions & _).
  split; [|split; [|split; [|split]]].
  - apply Hcompletions. reflexivity.
  - apply Hinterceptions. reflexivity.
  - apply (Hread _ "_away_yards_from_penalties" 1).
    + unfold composite_accessors. simpl. tauto.
    + reflexivity.
  - apply (Hdashed "10" [(true, "20"); (false, "150")] 2).
    + split; [discriminate | reflexivity].
    + repeat constructor; discriminate.
  - apply (Hnumbers 10 [(false, 20); (true, 150); (false, 2); (false, 1)] 2 150).
    reflexivity.
Defined.

(** C5, as the code has it.  When the raw string of a composite property
    has fewer parts than its position requires, the property raises
    IndexError, the exception of the failed subscript; nothing in the
    property catches it, so the caller receives it. *)
Theorem short_composite_raises_IndexError accessor field position :
  In (accessor, field, position) composite_accessors ->
  forall self raw_string,
    getattr self field = Ok (RStr raw_string) ->
    (List.length (split_scan "-" 0 (replace "--" "-" raw_string)) <= position)%nat ->
    accessor self = Raise IndexError.
Proof.
  intros Hin self raw_string Hget Hshort.
  rewrite (composite_accessor_read _ _ _ Hin _ _ Hget).
  unfold composite_part. cbn [split bind]. unfold getitem.
  apply nth_error_None in Hshort. now rewrite Hshort.
Qed.

Lemma short_composite_raises_IndexError_witness :
  NCAAF.Boxscore.away_interceptions [("_away_interceptions", RStr "10-20")]
  = Raise IndexError
  /\ NCAAF.Boxscore.away_yards_from_penalties
       [("_away_yards_from_penalties", RStr "7")]
     = Raise IndexError.
Proof.
  split.
  - apply (short_composite_raises_IndexError _ "_away_interceptions" 4)
      with (raw_string := "10-20").
    + unfold composite_accessors. simpl. tauto.
    + reflexivity.
    + vm_compute. lia.
  - apply (short_composite_raises_IndexError _ "_away_yards_from_penalties" 1)
      with (raw_string := "7").
    + unfold composite_accessors. simpl. tauto.
    + reflexivity.
    + vm_compute. lia.
Defined.

(** C5, as the specification states it, fails: read at position 4, the
    two-part string 10-20 raises no exception of a conversion. *)
Lemma short_composite_is_no_conversion_error :
  ~ exists e,
      NCAAF.Boxscore.away_interceptions
        [("_away_interceptions", RStr "10-20")] = Raise e
      /\ conversion_error e.
Proof.
  intros (e & Hraise & [He | He]); subst e; discriminate Hraise.
Qed.

(** C10. The property [home_interceptions] of the NCAAF Boxscore is a
    function of the attribute [_home_pass_touchdowns] alone: two instances
    that agree on it give the same result, whatever [_home_interceptions]
    holds, and the result is position 4 of that string. *)
Theorem home_interceptions_reads_pass_touchdowns (self1 self2 : instance) :
  getattr self1 "_home_pass_touchdowns" = getattr self2 "_home_pass_touchdowns" ->
  NCAAF.Boxscore.home_interceptions self1
  = NCAAF.Boxscore.home_interceptions self2
  /\ (forall v,
         NCAAF.Boxscore.home_interceptions (setattr self1 "_home_interceptions" v)
         = NCAAF.Boxscore.home_interceptions self1)
  /\ (forall raw_string,
         getattr self1 "_home_pass_touchdowns" = Ok (RStr raw_string) ->
         NCAAF.Boxscore.home_interceptions self1
         = (parts <- split "-" (replace "--" "-" raw_string) ;;
            part <- getitem parts 4 ;;
            int_of_str part)).
Proof.
  intros Hsame. unfold NCAAF.Boxscore.home_interceptions.
  split; [|split].
  - now rewrite Hsame.
  - intros v. now rewrite getattr_setattr_other by discriminate.
  - intros raw_string Hget. now rewrite Hget.
Qed.

Lemma home_interceptions_reads_pass_touchdowns_witness :
  NCAAF.Boxscore.home_interceptions
    [("_home_pass_touchdowns", RStr "10-20-150-2-1");
     ("_home_interceptions", RStr "0-0-0-0-9")]
  = NCAAF.Boxscore.home_interceptions
      [("_home_pass_touchdowns", RStr "10-20-150-2-1");
       ("_home_interceptions", RNone)].
Proof.
  refine (proj1 (home_interceptions_reads_pass_touchdowns
                   [("_home_pass_touchdowns", RStr "10-20-150-2-1");
                    ("_home_interceptions", RStr "0-0-0-0-9")]
                   [("_home_pass_touchdowns", RStr "10-20-150-2-1");
                    ("_home_interceptions", RNone)] _)).
  reflexivity.
Defined.

(** ** Winner and tabular export *)

(** C2. In both sports [winner] is HOME exactly when the home score is
    strictly greater than the away score, and AWAY in every other case, a
    tie included. *)
Theorem winner_is_home_iff_strictly_greater (self : instance) :
  (NCAAF.Boxscore.winner self = Ok HOME
   <-> exists home away,
         NCAAF.Boxscore.home_points self = Ok home
         /\ NCAAF.Boxscore.away_points self = Ok away
         /\ (home > away)%Z)
  /\ (NCAAF.Boxscore.winner self = Ok AWAY
      <-> exists home away,
            NCAAF.Boxscore.home_points self = Ok home
            /\ NCAAF.Boxscore.away_points self = Ok away
            /\ (home <= away)%Z)
  /\ (MLB.Boxscore.winner self = Ok HOME
      <-> exists home away,
            MLB.Boxscore.home_runs self = Ok home
            /\ MLB.Boxscore.away_runs self = Ok away
            /\ (home > away)%Z)
  /\ (MLB.Boxscore.winner self = Ok AWAY
      <-> exists home away,
            MLB.Boxscore.home_runs self = Ok home
            /\ MLB.Boxscore.away_runs self = Ok away
            /\ (home <= away)%Z).
Proof.
  unfold NCAAF.Boxscore.winner, MLB.Boxscore.winner.
  repeat split.
  all: try (intros (home & away & -> & -> & Hcmp); cbn [bind];
            destruct (Z.gtb_spec home away); (reflexivity || lia)).
  all: match goal with
       | |- context [bind ?h _] =>
           destruct h as [home|]; cbn [bind]; [|discriminate]
       end.
  all: match goal with
       | |- context [bind ?a _] =>
           destruct a as [away|]; cbn [bind]; [|discriminate]
       end.
  all: destruct (Z.gtb_spec home away); intros Hw; try discriminate Hw.
  all: exists home, away; repeat split; lia.
Qed.

Lemma winner_is_home_iff_strictly_greater_witness :
  NCAAF.Boxscore.winner
    [("_home_points", RStr "75"); ("_away_points", RStr "70")] = Ok HOME
  /\ NCAAF.Boxscore.winner
       [("_home_points", RStr "70"); ("_away_points", RStr "75")] = Ok AWAY
  /\ MLB.Boxscore.winner
       [("_home_runs", RStr "3"); ("_away_runs", RStr "3")] = Ok AWAY.
Proof.
  split; [|split].
  - apply (proj1 (winner_is_home_iff_strictly_greater _)).
    exists 75%Z, 70%Z. repeat split.
  - apply (proj1 (proj2 (winner_is_home_iff_strictly_greater _))).
    exists 70%Z, 75%Z. repeat split. discriminate.
  - apply (proj2 (proj2 (proj2 (winner_is_home_iff_strictly_greater _)))).
    exists 3%Z, 3%Z. repeat split. discriminate.
Defined.

Section TabularExport.
Context `{E : Env}.

(** C7. In both sports, when the two score attributes are [None], the
    property [dataframe] returns [None]: no column is computed and no
    table is built. *)
Theorem dataframe_is_None_without_scores (self : instance) :
  (getattr self "_away_points" = Ok RNone ->
   getattr self "_home_points" = Ok RNone ->
   NCAAF.Boxscore.dataframe self = Ok None)
  /\ (getattr self "_away_runs" = Ok RNone ->
      getattr self "_home_runs" = Ok RNone ->
      MLB.Boxscore.dataframe self = Ok None).
Proof.
  split; intros Haway Hhome.
  - unfold NCAAF.Boxscore.dataframe. now rewrite Haway, Hhome.
  - unfold MLB.Boxscore.dataframe. now rewrite Haway, Hhome.
Qed.

End TabularExport.

Lemma dataframe_is_None_without_scores_witness :
  NCAAF.Boxscore.dataframe (E := Example.offline)
    (init_None (setattr [] "_uri" (RStr "2018-01-08-georgia"))
       NCAAF.Boxscore.fields) = Ok None
  /\ MLB.Boxscore.dataframe (E := Example.offline)
       (init_None (setattr [] "_uri" (RStr "BOS/BOS201806070"))
          MLB.Boxscore.fields) = Ok None.
Proof.
  split.
  - apply (proj1 (dataframe_is_None_without_scores (E := Example.offline) _));
      reflexivity.
  - apply (proj2 (dataframe_is_None_without_scores (E := Example.offline) _));
      reflexivity.
Defined.

(** ** Page fetch *)

Section Fetch.
Context `{E : Env} `{C : Constants}.

(** A failed download leaves the Boxscore of either sport as [__init__]
    made it: every attribute but [_uri] is [None]. *)
Lemma init_without_page (uri : raw) (e : exn) :
  pq_url (BOXSCORE_URL uri) = Raise e ->
  MLB.Boxscore.__init__ uri
  = Ok (init_None (setattr [] "_uri" uri) MLB.Boxscore.fields)
  /\ NCAAF.Boxscore.__init__ uri
     = Ok (init_None (setattr [] "_uri" uri) NCAAF.Boxscore.fields).
Proof.
  intros Hfail. split.
  - unfold MLB.Boxscore.__init__, MLB.Boxscore._parse_game_data,
      MLB.Boxscore._retrieve_html_page.
    now rewrite Hfail.
  - unfold NCAAF.Boxscore.__init__, NCAAF.Boxscore._parse_game_data,
      NCAAF.Boxscore._retrieve_html_page.
    now rewrite Hfail.
Qed.

(** C8, as the code has it.  When [pq(url)] fails, the detail-page fetch
    of a Boxscore catches the exception and returns [None], and the
    constructor returns an instance without data; the index-page fetch of
    Boxscores has no handler, and the exception reaches the caller of the
    constructor. *)
Theorem fetch_failure_is_caught_for_detail_page_only (e : exn) :
  (forall uri,
      pq_url (BOXSCORE_URL uri) = Raise e ->
      MLB.Boxscore._retrieve_html_page uri = Ok None
      /\ NCAAF.Boxscore._retrieve_html_page uri = Ok None
      /\ MLB.Boxscore.__init__ uri
         = Ok (init_None (setattr [] "_uri" uri) MLB.Boxscore.fields)
      /\ NCAAF.Boxscore.__init__ uri
         = Ok (init_None (setattr [] "_uri" uri) NCAAF.Boxscore.fields))
  /\ (forall d,
         pq_url (MLB.Boxscores._create_url d) = Raise e ->
         MLB.Boxscores._get_requested_page (MLB.Boxscores._create_url d)
         = Raise e
         /\ MLB.Boxscores.__init__ d = Raise e)
  /\ (forall d,
         pq_url (NCAAF.Boxscores._create_url d) = Raise e ->
         NCAAF.Boxscores._get_requested_page (NCAAF.Boxscores._create_url d)
         = Raise e
         /\ NCAAF.Boxscores.__init__ d = Raise e).
Proof.
  split; [|split].
  - intros uri Hfail. destruct (init_without_page uri e Hfail) as [Hmlb Hncaaf].
    unfold MLB.Boxscore._retrieve_html_page,
      NCAAF.Boxscore._retrieve_html_page.
    rewrite Hfail. auto.
  - intros d Hfail.
    unfold MLB.Boxscores.__init__, MLB.Boxscores._find_games,
      MLB.Boxscores._get_requested_page.
    now rewrite Hfail.
  - intros d Hfail.
    unfold NCAAF.Boxscores.__init__, NCAAF.Boxscores._find_games,
      NCAAF.Boxscores._get_requested_page.
    now rewrite Hfail.
Qed.

Lemma gives_no_default_reflect (self : instance)
    (columns : list (string * (instance -> result cell))) :
  forallb (gives_no_defaultb self) columns = true ->
  Forall (gives_no_default self) columns.
Proof.
  intros Hall. apply Forall_forall. intros column Hin.
  apply (proj1 (forallb_forall _ _) Hall) in Hin.
  unfold gives_no_defaultb, gives_no_default, raises_on_None in *.
  destruct (String.eqb (fst column) "date").
  - destruct (snd column self) as [[[]| | | |]|]; try discriminate.
    reflexivity.
  - destruct (snd column self) as [|[]]; try discriminate; auto.
Qed.

(** C9, as the code has it.  On a Boxscore of either sport whose page
    was unavailable no property returns a default: [date] returns [None],
    every other property raises AttributeError or TypeError, and only
    [dataframe] reports the absence, by returning [None]. *)
Theorem unavailable_page_properties_raise (uri : raw) (e : exn) :
  pq_url (BOXSCORE_URL uri) = Raise e ->
  (exists self,
      MLB.Boxscore.__init__ uri = Ok self
      /\ MLB.Boxscore.dataframe self = Ok None
      /\ MLB.Boxscore.date self = Ok RNone
      /\ MLB.Boxscore.time self = Raise AttributeError
      /\ MLB.Boxscore.attendance self = Raise AttributeError
      /\ MLB.Boxscore.away_runs self = Raise TypeError
      /\ Forall (gives_no_default self) MLB.Boxscore.fields_to_include)
  /\ (exists self,
         NCAAF.Boxscore.__init__ uri = Ok self
         /\ NCAAF.Boxscore.dataframe self = Ok None
         /\ NCAAF.Boxscore.date self = Ok RNone
         /\ NCAAF.Boxscore.time self = Raise AttributeError
         /\ NCAAF.Boxscore.away_points self = Raise TypeError
         /\ NCAAF.Boxscore.away_interceptions self = Raise AttributeError
         /\ Forall (gives_no_default self) NCAAF.Boxscore.fields_to_include).
Proof.
  intros Hfail. destruct (init_without_page uri e Hfail) as [Hmlb Hncaaf].
  split; eexists; (split; [eassumption|]);
    repeat (split; [reflexivity|]).
  - apply gives_no_default_reflect. vm_compute. reflexivity.
  - apply gives_no_default_reflect. vm_compute. reflexivity.
Qed.

End Fetch.

Lemma fetch_failure_is_caught_for_detail_page_only_witness :
  MLB.Boxscore._retrieve_html_page (E := Example.offline)
    (C := Example.mlb_constants) (RStr "BOS/BOS201806070") = Ok None
  /\ MLB.Boxscores.__init__ (E := Example.offline) (C := Example.mlb_constants)
       {| year := 2018; month := 6; day := 7 |} = Raise HTTPError.
Proof.
  destruct (fetch_failure_is_caught_for_detail_page_only
              (E := Example.offline) (C := Example.mlb_constants) HTTPError)
    as (Hdetail & Hindex & _).
  split.
  - apply (Hdetail (RStr "BOS/BOS201806070")). reflexivity.
  - apply (Hindex {| year := 2018; month := 6; day := 7 |}). reflexivity.
Defined.

(** C8, as the specification states it, fails: without network the
    constructor of Boxscores raises. *)
Lemma index_page_failure_is_raised :
  MLB.Boxscores.__init__ (E := Example.offline) (C := Example.mlb_constants)
    {| year := 2018; month := 6; day := 7 |} = Raise HTTPError
  /\ NCAAF.Boxscores.__init__ (E := Example.offline)
       (C := Example.mlb_constants)
       {| year := 2018; month := 1; day := 8 |} = Raise HTTPError.
Proof. split; reflexivity. Qed.

Lemma unavailable_page_properties_raise_witness :
  exists self,
    MLB.Boxscore.__init__ (E := Example.offline) (C := Example.mlb_constants)
      (RStr "BOS/BOS201806070") = Ok self
    /\ MLB.Boxscore.dataframe (E := Example.offline) self = Ok None
    /\ MLB.Boxscore.date self = Ok RNone
    /\ MLB.Boxscore.time self = Raise AttributeError.
Proof.
  destruct (unavailable_page_properties_raise (E := Example.offline)
              (C := Example.mlb_constants) (RStr "BOS/BOS201806070") HTTPError
              eq_refl)
    as ((self & Hinit & Hframe & Hdate & Htime & _) & _).
  exists self. auto.
Defined.

(** C9, as the specification states it, fails: on the Boxscore built
    without network [time] does not return the empty string and
    [attendance] and [away_runs] do not return zero; all three raise. *)
Lemma unavailable_page_gives_no_default :
  exists self,
    MLB.Boxscore.__init__ (E := Example.offline) (C := Example.mlb_constants)
      (RStr "BOS/BOS201806070") = Ok self
    /\ MLB.Boxscore.time self = Raise AttributeError
    /\ MLB.Boxscore.time self <> Ok EmptyString
    /\ MLB.Boxscore.attendance self = Raise AttributeError
    /\ MLB.Boxscore.attendance self <> Ok 0%Z
    /\ MLB.Boxscore.away_runs self = Raise TypeError
    /\ MLB.Boxscore.away_runs self <> Ok 0%Z.
Proof.
  eexists. split; [reflexivity|].
  repeat split; try reflexivity; discriminate.
Qed.

(** ** Narrative block of the NCAAF Boxscore *)

Lemma for_return_test {A B : Type} (l : list A) (test : A -> bool) (b : B) :
  for_return l (fun a => if test a then Some b else None)
  = if existsb test l then Some b else None.
Proof.
  induction l as [|a l IH]; [reflexivity|].
  cbn [for_return existsb]. destruct (test a); [reflexivity | exact IH].
Qed.

Lemma line_at_selected (game_info : list string) (index : nat) :
  NCAAF.Boxscore.line_at game_info index = Ok (selected_line game_info index).
Proof.
  unfold NCAAF.Boxscore.line_at, selected_line, getitem.
  destruct (Nat.leb_spec (List.length game_info) index) as [Hpast | Hin].
  - apply nth_error_None in Hpast. now rewrite Hpast.
  - destruct (nth_error game_info index) as [line|] eqn:Hline.
    + cbn [bind]. now destruct (_ || _).
    + apply nth_error_None in Hline. lia.
Qed.

Section BowlGame.
Context `{E : Env} `{C : Constants}.

(** [_parse_game_date_and_location] on a page where the selector of the
    field finds an element: the block is the text of the first element,
    cut at its line feeds. *)
Lemma ncaaf_parser_reads_first_element (field scheme : string)
    (boxscore first : pq) (rest : list pq) (index : nat) :
  dict_get BOXSCORE_SCHEME field = Some scheme ->
  pq_items (pq_call boxscore scheme) = first :: rest ->
  dict_get BOXSCORE_ELEMENT_INDEX field = Some index ->
  NCAAF.Boxscore._parse_game_date_and_location field boxscore
  = NCAAF.Boxscore.date_and_location
      (split_scan newline 0 (pq_text first)) index.
Proof.
  intros Hscheme Hitems Hindex.
  unfold NCAAF.Boxscore._parse_game_date_and_location, dict_item.
  rewrite Hscheme. cbn [bind]. rewrite Hitems.
  change (getitem (map pq_text (first :: rest)) 0) with (Ok (pq_text first)).
  cbn [bind].
  change (split newline (pq_text first))
    with (Ok (split_scan newline 0 (pq_text first))).
  cbn [bind]. now rewrite Hindex.
Qed.

(** C4. [_parse_game_date_and_location] of NCAAF, on a page where the
    selector of the field finds the narrative block: when the first line
    of the block names no day of the week, the field is read at its fixed
    index plus one, else at its fixed index; in both cases a line that
    holds the watermark, is empty, or lies past the end of the block gives
    the empty string, and any other line is returned as it is. *)
Theorem bowl_game_fields_shift_by_one (field scheme : string)
    (boxscore first : pq) (rest : list pq) (index : nat) :
  dict_get BOXSCORE_SCHEME field = Some scheme ->
  pq_items (pq_call boxscore scheme) = first :: rest ->
  dict_get BOXSCORE_ELEMENT_INDEX field = Some index ->
  let game_info := split_scan newline 0 (pq_text first) in
  let first_line := nth 0 game_info EmptyString in
  (names_weekday first_line = false ->
   NCAAF.Boxscore._parse_game_date_and_location field boxscore
   = Ok (selected_line game_info (index + 1)))
  /\ (names_weekday first_line = true ->
      NCAAF.Boxscore._parse_game_date_and_location field boxscore
      = Ok (selected_line game_info index))
  /\ (forall i, (List.length game_info <= i)%nat ->
                selected_line game_info i = EmptyString)
  /\ (forall i line,
         nth_error game_info i = Some line ->
         contains "sports logos.net" (lower line) = true
         \/ line = EmptyString ->
         selected_line game_info i = EmptyString)
  /\ (forall i line,
         nth_error game_info i = Some line ->
         contains "sports logos.net" (lower line) = false ->
         line <> EmptyString ->
         selected_line game_info i = line).
Proof.
  intros Hscheme Hitems Hindex game_info first_line.
  assert (Hscan : NCAAF.Boxscore._parse_game_date_and_location field boxscore
                  = if names_weekday first_line
                    then Ok (selected_line game_info index)
                    else Ok (selected_line game_info (index + 1))).
  { rewrite (ncaaf_parser_reads_first_element _ _ _ _ _ _
               Hscheme Hitems Hindex).
    fold game_info. subst first_line.
    destruct (split_scan_head newline (pq_text first))
      as (part & parts & t & Hsplit & _).
    subst game_info. rewrite Hsplit.
    unfold NCAAF.Boxscore.date_and_location, names_weekday.
    cbn [getitem nth_error nth].
    rewrite for_return_test, !line_at_selected.
    now destruct (existsb _ _). }
  split; [|split; [|split; [|split]]].
  - intros Hday. now rewrite Hscan, Hday.
  - intros Hday. now rewrite Hscan, Hday.
  - intros i Hpast. unfold selected_line.
    apply nth_error_None in Hpast. now rewrite Hpast.
  - intros i line Hline Hwhy. unfold selected_line. rewrite Hline.
    destruct Hwhy as [Hmark | ->]; [now rewrite Hmark|].
    now rewrite orb_true_r.
  - intros i line Hline Hmark Hfull. unfold selected_line.
    rewrite Hline, Hmark.
    destruct (String.eqb_spec line EmptyString); [contradiction | reflexivity].
Qed.

End BowlGame.

Lemma bowl_game_fields_shift_by_one_witness :
  NCAAF.Boxscore._parse_game_date_and_location (E := Web.online)
    (C := Web.ncaaf_constants) "time" [Web.game_page_of Web.rose_bowl_block]
  = Ok "Start Time: 5:00 PM"
  /\ NCAAF.Boxscore._parse_game_date_and_location (E := Web.online)
       (C := Web.ncaaf_constants) "stadium"
       [Web.game_page_of Web.rose_bowl_block]
     = Ok EmptyString
  /\ NCAAF.Boxscore._parse_game_date_and_location (E := Web.online)
       (C := Web.ncaaf_constants) "time"
       [Web.game_page_of Web.regular_season_block]
     = Ok "Start Time: 5:00 PM"
  /\ NCAAF.Boxscore._parse_game_date_and_location (E := Web.online)
       (C := Web.ncaaf_constants) "stadium"
       [Web.game_page_of Web.regular_season_block]
     = Ok EmptyString.
Proof.
  split; [|split; [|split]].
  - refine (proj1 (bowl_game_fields_shift_by_one (E := Web.online)
                     (C := Web.ncaaf_constants) "time" Web.scorebox_meta
                     [Web.game_page_of Web.rose_bowl_block]
                     [Web.narrative Web.rose_bowl_block] [] 1
                     eq_refl eq_refl eq_refl) eq_refl).
  - refine (proj1 (bowl_game_fields_shift_by_one (E := Web.online)
                     (C := Web.ncaaf_constants) "stadium" Web.scorebox_meta
                     [Web.game_page_of Web.rose_bowl_block]
                     [Web.narrative Web.rose_bowl_block] [] 2
                     eq_refl eq_refl eq_refl) eq_refl).
  - refine (proj1 (proj2 (bowl_game_fields_shift_by_one (E := Web.online)
                            (C := Web.ncaaf_constants) "time" Web.scorebox_meta
                            [Web.game_page_of Web.regular_season_block]
                            [Web.narrative Web.regular_season_block] [] 1
                            eq_refl eq_refl eq_refl)) eq_refl).
  - refine (proj1 (proj2 (bowl_game_fields_shift_by_one (E := Web.online)
                            (C := Web.ncaaf_constants) "stadium"
                            Web.scorebox_meta
                            [Web.game_page_of Web.regular_season_block]
                            [Web.narrative Web.regular_season_block] [] 2
                            eq_refl eq_refl eq_refl)) eq_refl).
Defined.

(** ** Narrative block of the MLB Boxscore *)

(** The marker found on a line of an element is found in the element. *)
Lemma doubleheader_marker_of_line (item line : string) :
  In line (split_scan newline 0 item) ->
  MLB.Boxscore.doubleheader_marker line = true ->
  MLB.Boxscore.doubleheader_marker item = true.
Proof.
  intros Hin Hline.
  destruct (split_scan_within _ _ _ _ Hin) as (a & b & ->).
  unfold MLB.Boxscore.doubleheader_marker in *.
  apply orb_true_iff in Hline. apply orb_true_iff.
  destruct Hline as [H | H]; [left | right];
    now apply contains_lower_within.
Qed.

Section Doubleheader.
Context `{E : Env} `{C : Constants}.

Lemma scan_elements_time_of_day (game_info : list string) :
  MLB.Boxscore.scan_elements "time_of_day" game_info
  = Ok (find (fun line => contains "night game" (lower line)
                          || contains "day game" (lower line)) game_info).
Proof.
  induction game_info as [|element rest IH]; [reflexivity|].
  cbn [MLB.Boxscore.scan_elements find].
  change (String.eqb "time_of_day" "time_of_day") with true. cbn iota.
  now destruct (_ || _).
Qed.

Lemma scan_elements_matcher (field matcher : string) (game_info : list string) :
  field <> "time_of_day" ->
  dict_get DOUBLE_HEADER_INDICES field = Some matcher ->
  MLB.Boxscore.scan_elements field game_info
  = Ok (find (fun line => contains matcher (lower line)) game_info).
Proof.
  intros Hfield Hmatcher.
  induction game_info as [|element rest IH]; [reflexivity|].
  cbn [MLB.Boxscore.scan_elements find].
  destruct (String.eqb_spec field "time_of_day"); [contradiction|].
  unfold dict_item. rewrite Hmatcher. cbn [bind].
  now destruct (contains matcher (lower element)).
Qed.

(** Once the flag is set and the scan of the lines has found nothing, the
    rest of the loop changes nothing. *)
Lemma scan_items_not_found (field : string) (game_info : list string)
    (index : nat) (items : list string) :
  field <> "date" ->
  MLB.Boxscore.scan_elements field game_info = Ok None ->
  MLB.Boxscore.scan_items field game_info index true items = Ok EmptyString.
Proof.
  intros Hfield Hnone.
  induction items as [|item rest IH]; [reflexivity|].
  cbn [MLB.Boxscore.scan_items].
  destruct (MLB.Boxscore.doubleheader_marker item); [|exact IH].
  destruct (String.eqb_spec field "date"); [contradiction|].
  rewrite Hnone. exact IH.
Qed.

Lemma scan_items_marked (field : string) (game_info : list string)
    (index : nat) (items : list string) :
  (exists item, In item items /\ MLB.Boxscore.doubleheader_marker item = true) ->
  forall double_header,
    MLB.Boxscore.scan_items field game_info index double_header items
    = if String.eqb field "date" then getitem game_info 0
      else
        found <- MLB.Boxscore.scan_elements field game_info ;;
        Ok (match found with
            | Some element => element
            | None => EmptyString
            end).
Proof.
  induction items as [|item rest IH]; intros (marked & Hin & Hmarked) flag.
  - destruct Hin.
  - cbn [MLB.Boxscore.scan_items].
    destruct (MLB.Boxscore.doubleheader_marker item) eqn:Hitem.
    + destruct (String.eqb_spec field "date") as [|Hfield]; [reflexivity|].
      destruct (MLB.Boxscore.scan_elements field game_info)
        as [[element|]|e] eqn:Hscan; cbn [bind]; try reflexivity.
      now apply scan_items_not_found.
    + apply IH. exists marked. split; [|exact Hmarked].
      destruct Hin as [-> | Hin]; [congruence | exact Hin].
Qed.

(** [_parse_game_date_and_location] of MLB for a field that has a
    selector: what follows works on the texts of the selected elements. *)
Lemma mlb_parser_reads_selected_items (field scheme : string)
    (boxscore : pq) :
  dict_get BOXSCORE_SCHEME field = Some scheme ->
  MLB.Boxscore._parse_game_date_and_location field boxscore
  = MLB.Boxscore.date_and_location field
      (map pq_text (pq_items (pq_call boxscore scheme))).
Proof.
  intros Hscheme.
  unfold MLB.Boxscore._parse_game_date_and_location, dict_item.
  now rewrite Hscheme.
Qed.

(** C3. [_parse_game_date_and_location] of MLB, on a page where the
    selector of the field finds a narrative block in which some line holds
    the doubleheader marker, in any case: the date is line 0 of the block,
    whatever the fixed index; every other field is the first line that
    holds the marker of the field; and a field whose marker is on no line
    is the empty string. *)
Theorem doubleheader_fields_are_found_by_marker
    (field scheme : string) (boxscore : pq) (index : nat) :
  dict_get BOXSCORE_SCHEME field = Some scheme ->
  dict_get BOXSCORE_ELEMENT_INDEX field = Some index ->
  let items := map pq_text (pq_items (pq_call boxscore scheme)) in
  (exists item line,
      In item items
      /\ In line (split_scan newline 0 item)
      /\ MLB.Boxscore.doubleheader_marker line = true) ->
  let game_info := split_scan newline 0 (hd EmptyString items) in
  (field = "date" ->
   MLB.Boxscore._parse_game_date_and_location field boxscore
   = Ok (nth 0 game_info EmptyString))
  /\ (field = "time_of_day" ->
      MLB.Boxscore._parse_game_date_and_location field boxscore
      = Ok (first_line_with
              (fun line => contains "night game" (lower line)
                           || contains "day game" (lower line))
              game_info))
  /\ (forall matcher,
         field <> "date" ->
         field <> "time_of_day" ->
         dict_get DOUBLE_HEADER_INDICES field = Some matcher ->
         MLB.Boxscore._parse_game_date_and_location field boxscore
         = Ok (first_line_with (fun line => contains matcher (lower line))
                 game_info))
  /\ (forall holds_marker,
         find holds_marker game_info = None ->
         first_line_with holds_marker game_info = EmptyString).
Proof.
  intros Hscheme Hindex items (item & line & Hitem & Hline & Hmarker) game_info.
  assert (Hmarked : exists item,
             In item items /\ MLB.Boxscore.doubleheader_marker item = true).
  { exists item. split; [exact Hitem|].
    exact (doubleheader_marker_of_line _ _ Hline Hmarker). }
  assert (Hscan : MLB.Boxscore._parse_game_date_and_location field boxscore
                  = MLB.Boxscore.scan_items field game_info index false items).
  { rewrite (mlb_parser_reads_selected_items _ _ _ Hscheme). fold items.
    unfold MLB.Boxscore.date_and_location, dict_item. rewrite Hindex.
    subst game_info.
    destruct items as [|first_item rest]; [destruct Hitem|].
    reflexivity. }
  rewrite Hscan, (scan_items_marked _ _ _ _ Hmarked).
  split; [|split; [|split]].
  - intros ->. cbn [String.eqb Ascii.eqb Bool.eqb]. cbn iota.
    subst game_info.
    destruct (split_scan_head newline (hd EmptyString items))
      as (part & parts & t & -> & _).
    reflexivity.
  - intros ->. change (String.eqb "time_of_day" "date") with false. cbn iota.
    now rewrite scan_elements_time_of_day.
  - intros matcher Hdate Htime Hmatcher.
    destruct (String.eqb_spec field "date"); [contradiction|].
    now rewrite (scan_elements_matcher _ _ _ Htime Hmatcher).
  - intros holds_marker Hnone. unfold first_line_with. now rewrite Hnone.
Qed.

End Doubleheader.

Lemma doubleheader_fields_are_found_by_marker_witness :
  MLB.Boxscore._parse_game_date_and_location (E := Web.online)
    (C := Web.mlb_constants) "date"
    [Web.game_page_of Example.doubleheader_block]
  = Ok "Monday, May 1, 2017"
  /\ MLB.Boxscore._parse_game_date_and_location (E := Web.online)
       (C := Web.mlb_constants) "venue"
       [Web.game_page_of Example.doubleheader_block]
     = Ok "Venue: Fenway Park"
  /\ MLB.Boxscore._parse_game_date_and_location (E := Web.online)
       (C := Web.mlb_constants) "time_of_day"
       [Web.game_page_of Example.doubleheader_block]
     = Ok "Night Game, on grass"
  /\ MLB.Boxscore._parse_game_date_and_location (E := Web.online)
       (C := Web.mlb_constants) "duration"
       [Web.game_page_of Example.doubleheader_block]
     = Ok EmptyString.
Proof.
  assert (Hmarker : exists item line,
             In item [Example.doubleheader_block]
             /\ In line (split_scan newline 0 item)
             /\ MLB.Boxscore.doubleheader_marker line = true).
  { exists Example.doubleheader_block, "First game of doubleheader".
    split; [now left|]. split; [vm_compute; tauto | reflexivity]. }
  split; [|split; [|split]].
  - refine (proj1 (doubleheader_fields_are_found_by_marker
                     (E := Web.online) (C := Web.mlb_constants) "date"
                     Web.scorebox_meta
                     [Web.game_page_of Example.doubleheader_block] 0
                     eq_refl eq_refl Hmarker) eq_refl).
  - refine (proj1 (proj2 (proj2 (doubleheader_fields_are_found_by_marker
                     (E := Web.online) (C := Web.mlb_constants) "venue"
                     Web.scorebox_meta
                     [Web.game_page_of Example.doubleheader_block] 3
                     eq_refl eq_refl Hmarker))) "venue" _ _ eq_refl);
      discriminate.
  - refine (proj1 (proj2 (doubleheader_fields_are_found_by_marker
                     (E := Web.online) (C := Web.mlb_constants) "time_of_day"
                     Web.scorebox_meta
                     [Web.game_page_of Example.doubleheader_block] 5
                     eq_refl eq_refl Hmarker)) eq_refl).
  - refine (proj1 (proj2 (proj2 (doubleheader_fields_are_found_by_marker
                     (E := Web.online) (C := Web.mlb_constants) "duration"
                     Web.scorebox_meta
                     [Web.game_page_of Example.doubleheader_block] 4
                     eq_refl eq_refl Hmarker))) "game duration" _ _ eq_refl);
      discriminate.
Defined.

(** ** Team names of the NCAAF game-day index *)









Example school_code_of_purdue_link :
  re_sub_through "/schools/" "<a href='/cfb/schools/purdue/2017.html'>Purdue</a>"
  = "purdue/2017.html'>Purdue</a>"
  /\ re_sub_from "/" "purdue/2017.html'>Purdue</a>" = "purdue".
Proof. split; reflexivity. Qed.

Section TeamNames.
Context `{E : Env}.


End TeamNames.



(** * Further properties *)

(** ** Tabular export *)

Section Table.
Context `{E : Env}.

Lemma dict_display_Ok (self : instance)
    (entries : list (string * (instance -> result cell))) :
  forall row,
    dict_display self entries = Ok row <->
    Forall2 (column_of self) entries row.
Proof.
  induction entries as [|[k e] rest IH]; intros row; cbn [dict_display].
  - split; [intros [= <-]; constructor | now inversion 1].
  - split.
    + destruct (e self) as [v|x] eqn:He; cbn [bind]; [|discriminate].
      destruct (dict_display self rest) as [d|x] eqn:Hrest; cbn [bind];
        [|discriminate].
      intros [= <-]. constructor; [now split | now apply IH].
    + inversion 1 as [|entry [k' v] rest' row' [Hk He] Hrest]; subst.
      cbn [fst snd] in *. subst k'. rewrite He. cbn [bind].
      apply IH in Hrest. now rewrite Hrest.
Qed.

(** The dict display raises what its first failing entry raises. *)
Lemma dict_display_Raise (self : instance)
    (before after : list (string * (instance -> result cell)))
    (name : string) (property : instance -> result cell) (x : exn) :
  Forall (fun entry => exists v, snd entry self = Ok v) before ->
  property self = Raise x ->
  dict_display self (before ++ (name, property) :: after)%list = Raise x.
Proof.
  intros Hbefore Hraise.
  induction Hbefore as [|[k e] rest [v Hv] _ IH]; cbn.
  - now rewrite Hraise.
  - cbn in Hv. rewrite Hv. cbn. now rewrite IH.
Qed.

(** X1. When [dataframe] returns a table, in either sport, the table has
    one row, indexed by [_uri]; the row has the columns of the source in
    their order, and the value of each column is what the property of that
    name returned: no column is filled with a default. *)
Theorem dataframe_holds_the_properties (self : instance) (table : DataFrame) :
  (NCAAF.Boxscore.dataframe self = Ok (Some table) ->
   exists row uri,
     table = {| df_rows := [row]; df_index := [uri] |}
     /\ getattr self "_uri" = Ok uri
     /\ map fst row = map fst NCAAF.Boxscore.fields_to_include
     /\ Forall2 (column_of self) NCAAF.Boxscore.fields_to_include row)
  /\ (MLB.Boxscore.dataframe self = Ok (Some table) ->
      exists row uri,
        table = {| df_rows := [row]; df_index := [uri] |}
        /\ getattr self "_uri" = Ok uri
        /\ map fst row = map fst MLB.Boxscore.fields_to_include
        /\ Forall2 (column_of self) MLB.Boxscore.fields_to_include row).
Proof.
  assert (Hnames : forall entries row,
             Forall2 (column_of self) entries row ->
             map fst row = map fst entries).
  { induction 1 as [|entry column entries row [Hk _] _ IH]; [reflexivity|].
    cbn [map]. now rewrite Hk, IH. }
  split; intros Hframe.
  - unfold NCAAF.Boxscore.dataframe in Hframe.
    destruct (getattr self "_away_points") as [away|]; [|discriminate].
    cbn [bind] in Hframe.
    destruct (if is_None away
              then home <- getattr self "_home_points" ;; Ok (is_None home)
              else Ok false) as [[|]|]; cbn [bind] in Hframe;
      try discriminate.
    destruct (dict_display self NCAAF.Boxscore.fields_to_include)
      as [row|] eqn:Hrow; cbn [bind] in Hframe; [|discriminate].
    destruct (getattr self "_uri") as [uri|]; cbn [bind] in Hframe;
      [|discriminate].
    injection Hframe as <-. apply dict_display_Ok in Hrow.
    exists row, uri. auto.
  - unfold MLB.Boxscore.dataframe in Hframe.
    destruct (getattr self "_away_runs") as [away|]; [|discriminate].
    cbn [bind] in Hframe.
    destruct (if is_None away
              then home <- getattr self "_home_runs" ;; Ok (is_None home)
              else Ok false) as [[|]|]; cbn [bind] in Hframe;
      try discriminate.
    destruct (dict_display self MLB.Boxscore.fields_to_include)
      as [row|] eqn:Hrow; cbn [bind] in Hframe; [|discriminate].
    destruct (getattr self "_uri") as [uri|]; cbn [bind] in Hframe;
      [|discriminate].
    injection Hframe as <-. apply dict_display_Ok in Hrow.
    exists row, uri. auto.
Qed.

(** X2. [dataframe] raises what the first failing property raises, in
    the order of the columns: when a score attribute is set and the
    properties of the columns before some column return, the exception of
    that column is the exception of [dataframe]. *)
Theorem dataframe_raises_first_failure (self : instance)
    (before after : list (string * (instance -> result cell)))
    (name : string) (property : instance -> result cell) (x : exn)
    (score : string) :
  Forall (fun entry => exists v, snd entry self = Ok v) before ->
  property self = Raise x ->
  (NCAAF.Boxscore.fields_to_include
   = (before ++ (name, property) :: after)%list ->
   getattr self "_away_points" = Ok (RStr score) ->
   NCAAF.Boxscore.dataframe self = Raise x)
  /\ (MLB.Boxscore.fields_to_include
      = (before ++ (name, property) :: after)%list ->
      getattr self "_away_runs" = Ok (RStr score) ->
      MLB.Boxscore.dataframe self = Raise x).
Proof.
  intros Hbefore Hraise. split; intros Hcolumns Hscore.
  - unfold NCAAF.Boxscore.dataframe. rewrite Hscore. cbn [bind is_None].
    now rewrite Hcolumns, (dict_display_Raise _ _ _ _ _ _ Hbefore Hraise).
  - unfold MLB.Boxscore.dataframe. rewrite Hscore. cbn [bind is_None].
    now rewrite Hcolumns, (dict_display_Raise _ _ _ _ _ _ Hbefore Hraise).
Qed.

End Table.

(** ** The loop of [_parse_game_data] *)

Lemma dict_keys_set_present {V : Type} (d : dict V) (k : string) (v : V) :
  In k (dict_keys d) -> dict_keys (dict_set d k v) = dict_keys d.
Proof.
  induction d as [|[k0 v0] d IH]; intros Hin; [destruct Hin|].
  cbn [dict_set]. destruct (String.eqb_spec k k0) as [-> | Hk]; [reflexivity|].
  cbn [dict_keys map fst]. f_equal. apply IH.
  destruct Hin as [Hin | Hin]; [cbn in Hin; congruence | exact Hin].
Qed.

Lemma dict_get_set_same {V : Type} (d : dict V) (k : string) (v : V) :
  dict_get (dict_set d k v) k = Some v.
Proof.
  induction d as [|[k0 v0] d IH]; cbn [dict_set dict_get].
  - now rewrite String.eqb_refl.
  - destruct (String.eqb_spec k k0) as [-> | Hk]; cbn [dict_get].
    + now rewrite String.eqb_refl.
    + destruct (String.eqb_spec k k0); [contradiction | exact IH].
Qed.

Lemma distinct_NoDup (names : list string) :
  distinct names = true -> NoDup names.
Proof.
  induction names as [|name rest IH]; intros H; [constructor|].
  cbn [distinct] in H. apply andb_true_iff in H as [Hnew Hrest].
  constructor; [|now apply IH].
  intros Hin. apply negb_true_iff in Hnew.
  assert (Hone : one_of name rest = true).
  { apply existsb_exists. exists name. split; [exact Hin|].
    apply String.eqb_refl. }
  congruence.
Qed.

Section Loop.

(** The loop body of either sport: derived attributes are passed over, any
    other attribute is set to the value computed for it. *)
Variable value_of : string -> result raw.
Variable body : instance -> string -> result instance.
Hypothesis body_spec : forall self field,
  body self field
  = if is_derived field then Ok self
    else v <- value_of field ;; Ok (setattr self field v).

Lemma loop_Raise (fields : list string) (e : exn) :
  loop body fields (Raise e) = Raise e.
Proof. induction fields as [|f rest IH]; [reflexivity | exact IH]. Qed.

Lemma loop_cons (f : string) (rest : list string) (self : instance) :
  loop body (f :: rest) (Ok self) = loop body rest (body self f).
Proof. reflexivity. Qed.

Lemma loop_keys (fields : list string) :
  forall self self',
    (forall f, In f fields -> In f (dict_keys self)) ->
    loop body fields (Ok self) = Ok self' ->
    dict_keys self' = dict_keys self.
Proof.
  induction fields as [|f rest IH]; intros self self' Hin Hloop.
  - now injection Hloop as <-.
  - rewrite loop_cons, body_spec in Hloop.
    destruct (is_derived f).
    + apply IH; [|exact Hloop]. intros g Hg. apply Hin. now right.
    + destruct (value_of f) as [v|e]; cbn [bind] in Hloop;
        [|now rewrite loop_Raise in Hloop].
      assert (Hkeys : dict_keys (setattr self f v) = dict_keys self).
      { apply dict_keys_set_present, Hin. now left. }
      rewrite <- Hkeys. apply IH; [|exact Hloop].
      intros g Hg. rewrite Hkeys. apply Hin. now right.
Qed.

Lemma loop_untouched (fields : list string) (k : string) :
  ~ In k fields \/ is_derived k = true ->
  forall self self',
    loop body fields (Ok self) = Ok self' ->
    dict_get self' k = dict_get self k.
Proof.
  intros Hk. induction fields as [|f rest IH]; intros self self' Hloop.
  - now injection Hloop as <-.
  - assert (Hrest : ~ In k rest \/ is_derived k = true).
    { destruct Hk as [Hk | Hk]; [left | now right].
      intros Hin. apply Hk. now right. }
    rewrite loop_cons, body_spec in Hloop.
    destruct (is_derived f) eqn:Hf; [now apply (IH Hrest)|].
    destruct (value_of f) as [v|e]; cbn [bind] in Hloop;
      [|now rewrite loop_Raise in Hloop].
    rewrite (IH Hrest _ _ Hloop). apply dict_get_set_other.
    intros ->. destruct Hk as [Hk | Hk]; [apply Hk; now left | congruence].
Qed.

Lemma loop_values (fields : list string) :
  NoDup fields ->
  forall self self',
    loop body fields (Ok self) = Ok self' ->
    forall f, In f fields -> is_derived f = false ->
    exists v, value_of f = Ok v /\ dict_get self' f = Some v.
Proof.
  induction 1 as [|f0 rest Hnew _ IH]; intros self self' Hloop f Hin Hf;
    [destruct Hin|].
  rewrite loop_cons, body_spec in Hloop.
  destruct Hin as [<- | Hin].
  - rewrite Hf in Hloop.
    destruct (value_of f0) as [v|e]; cbn [bind] in Hloop;
      [|now rewrite loop_Raise in Hloop].
    exists v. split; [reflexivity|].
    rewrite (loop_untouched rest f0 (or_introl Hnew) _ _ Hloop).
    apply dict_get_set_same.
  - destruct (is_derived f0); [now apply (IH _ _ Hloop)|].
    destruct (value_of f0) as [v|e]; cbn [bind] in Hloop;
      [|now rewrite loop_Raise in Hloop].
    now apply (IH _ _ Hloop).
Qed.

Lemma loop_first_failure (before after : list string) (f : string) (e : exn) :
  Forall (fun g => is_derived g = true \/ exists v, value_of g = Ok v) before ->
  is_derived f = false ->
  value_of f = Raise e ->
  forall self, loop body (before ++ f :: after)%list (Ok self) = Raise e.
Proof.
  intros Hbefore Hf He.
  induction Hbefore as [|g rest Hg _ IH]; intros self;
    [rewrite app_nil_l | rewrite <- app_comm_cons];
    rewrite loop_cons, body_spec.
  - rewrite Hf, He. apply loop_Raise.
  - destruct (is_derived g) eqn:Hd; [apply IH|].
    destruct Hg as [Hg | [v Hv]]; [congruence|].
    rewrite Hv. apply IH.
Qed.

Lemma loop_returns (fields : list string) :
  Forall (fun g => is_derived g = true \/ exists v, value_of g = Ok v) fields ->
  forall self, exists self', loop body fields (Ok self) = Ok self'.
Proof.
  induction 1 as [|g rest Hg _ IH]; intros self; [now exists self|].
  rewrite loop_cons, body_spec.
  destruct (is_derived g) eqn:Hd; [apply IH|].
  destruct Hg as [Hg | [v Hv]]; [congruence|].
  rewrite Hv. apply IH.
Qed.

End Loop.

Lemma one_of_In (name : string) (names : list string) :
  one_of name names = true <-> In name names.
Proof.
  unfold one_of. rewrite existsb_exists. split.
  - intros (x & Hin & Heq). apply String.eqb_eq in Heq. now subst.
  - intros Hin. exists name. split; [exact Hin | apply String.eqb_refl].
Qed.

Section Constructor.
Context `{E : Env} `{C : Constants}.

Lemma mlb_parse_attribute_spec (boxscore : pq) (self : instance)
    (field : string) :
  MLB.Boxscore.parse_attribute boxscore self field
  = if is_derived field then Ok self
    else v <- mlb_attribute_value boxscore field ;; Ok (setattr self field v).
Proof.
  unfold MLB.Boxscore.parse_attribute, mlb_attribute_value, is_derived.
  destruct (one_of (tail field) _); [reflexivity|].
  destruct (one_of (tail field) _).
  { now destruct (MLB.Boxscore._parse_game_date_and_location _ _). }
  destruct (one_of (tail field) _); reflexivity.
Qed.

Lemma ncaaf_parse_attribute_spec (boxscore : pq) (self : instance)
    (field : string) :
  NCAAF.Boxscore.parse_attribute boxscore self field
  = if is_derived field then Ok self
    else v <- ncaaf_attribute_value boxscore field ;; Ok (setattr self field v).
Proof.
  unfold NCAAF.Boxscore.parse_attribute, ncaaf_attribute_value, is_derived.
  destruct (one_of (tail field) _); [reflexivity|].
  destruct (one_of (tail field) _).
  { now destruct (NCAAF.Boxscore._parse_game_date_and_location _ _). }
  destruct (one_of (tail field) _); reflexivity.
Qed.

(** What [_parse_game_data] does, by the page it retrieves. *)
Lemma mlb_parse_game_data_cases (self : instance) (uri : raw) :
  MLB.Boxscore._parse_game_data self uri
  = match MLB.Boxscore._retrieve_html_page uri with
    | Raise e => Raise e
    | Ok None => Ok self
    | Ok (Some boxscore) =>
        if pq_bool boxscore
        then loop (MLB.Boxscore.parse_attribute boxscore) (dict_keys self)
               (Ok self)
        else Ok self
    end.
Proof.
  unfold MLB.Boxscore._parse_game_data, loop.
  destruct (MLB.Boxscore._retrieve_html_page uri) as [[boxscore|]|];
    cbn [bind]; try reflexivity.
  now destruct (pq_bool boxscore).
Qed.

Lemma ncaaf_parse_game_data_cases (self : instance) (uri : raw) :
  NCAAF.Boxscore._parse_game_data self uri
  = match NCAAF.Boxscore._retrieve_html_page uri with
    | Raise e => Raise e
    | Ok None => Ok self
    | Ok (Some boxscore) =>
        if pq_bool boxscore
        then loop (NCAAF.Boxscore.parse_attribute boxscore) (dict_keys self)
               (Ok self)
        else Ok self
    end.
Proof.
  unfold NCAAF.Boxscore._parse_game_data, loop.
  destruct (NCAAF.Boxscore._retrieve_html_page uri) as [[boxscore|]|];
    cbn [bind]; try reflexivity.
  now destruct (pq_bool boxscore).
Qed.

(** X3. [_parse_game_data] of either sport neither adds nor removes an
    attribute, and leaves [_uri] and the five derived attributes as they
    are.  So every Boxscore the constructor returns has the attributes
    that [__init__] assigns, its [_uri] is the argument, and [_winner],
    [_winning_name], [_winning_abbr], [_losing_name] and [_losing_abbr]
    are [None]. *)
Theorem parsing_keeps_the_attributes (uri : raw) (self : instance) :
  (forall start,
      MLB.Boxscore._parse_game_data start uri = Ok self
      \/ NCAAF.Boxscore._parse_game_data start uri = Ok self ->
      dict_keys self = dict_keys start
      /\ forall k, is_derived k = true -> getattr self k = getattr start k)
  /\ (MLB.Boxscore.__init__ uri = Ok self
      \/ NCAAF.Boxscore.__init__ uri = Ok self ->
      getattr self "_uri" = Ok uri
      /\ Forall (fun k => getattr self k = Ok RNone)
           ["_winner"; "_winning_name"; "_winning_abbr"; "_losing_name";
            "_losing_abbr"]).
Proof.
  assert (Hparse : forall start,
             MLB.Boxscore._parse_game_data start uri = Ok self
             \/ NCAAF.Boxscore._parse_game_data start uri = Ok self ->
             dict_keys self = dict_keys start
             /\ forall k, is_derived k = true -> getattr self k = getattr start k).
  { intros start [Hparse | Hparse].
    - rewrite mlb_parse_game_data_cases in Hparse.
      destruct (MLB.Boxscore._retrieve_html_page uri) as [[boxscore|]|];
        try discriminate; [|now injection Hparse as <-].
      destruct (pq_bool boxscore); [|now injection Hparse as <-].
      split.
      + exact (loop_keys _ _ (mlb_parse_attribute_spec boxscore) _ _ _
                 (fun f Hf => Hf) Hparse).
      + intros k Hk. unfold getattr.
        now rewrite (loop_untouched _ _ (mlb_parse_attribute_spec boxscore)
                       _ k (or_intror Hk) _ _ Hparse).
    - rewrite ncaaf_parse_game_data_cases in Hparse.
      destruct (NCAAF.Boxscore._retrieve_html_page uri) as [[boxscore|]|];
        try discriminate; [|now injection Hparse as <-].
      destruct (pq_bool boxscore); [|now injection Hparse as <-].
      split.
      + exact (loop_keys _ _ (ncaaf_parse_attribute_spec boxscore) _ _ _
                 (fun f Hf => Hf) Hparse).
      + intros k Hk. unfold getattr.
        now rewrite (loop_untouched _ _ (ncaaf_parse_attribute_spec boxscore)
                       _ k (or_intror Hk) _ _ Hparse). }
  split; [exact Hparse|].
  intros [Hinit | Hinit].
  - destruct (Hparse _ (or_introl Hinit)) as [_ Hsame].
    split; [now rewrite Hsame|].
    repeat (apply Forall_cons; [now rewrite Hsame|]). apply Forall_nil.
  - destruct (Hparse _ (or_intror Hinit)) as [_ Hsame].
    split; [now rewrite Hsame|].
    repeat (apply Forall_cons; [now rewrite Hsame|]). apply Forall_nil.
Qed.

End Constructor.

Section Parsed.
Context `{E : Env} `{C : Constants}.

Lemma mlb_initial_keys (uri : raw) :
  let start := init_None (setattr [] "_uri" uri) MLB.Boxscore.fields in
  distinct (dict_keys start) = true
  /\ forallb (fun f => one_of f (dict_keys start)) MLB.Boxscore.fields = true
  /\ forallb (fun k => one_of k ("_uri" :: MLB.Boxscore.fields))
       (dict_keys start) = true.
Proof. vm_compute. auto. Qed.

Lemma ncaaf_initial_keys (uri : raw) :
  let start := init_None (setattr [] "_uri" uri) NCAAF.Boxscore.fields in
  distinct (dict_keys start) = true
  /\ forallb (fun f => one_of f (dict_keys start)) NCAAF.Boxscore.fields = true
  /\ forallb (fun k => one_of k ("_uri" :: NCAAF.Boxscore.fields))
       (dict_keys start) = true.
Proof. vm_compute. auto. Qed.

(** X4. When the page of a game is retrieved and is not empty, every
    attribute of the Boxscore that the constructor returns, the derived
    ones apart, holds the value its own parser returned on that page. *)
Theorem constructed_attributes_hold_parsed_values (uri : raw) (boxscore : pq)
    (self : instance) (field : string) :
  pq_bool boxscore = true ->
  is_derived field = false ->
  (MLB.Boxscore._retrieve_html_page uri = Ok (Some boxscore) ->
   MLB.Boxscore.__init__ uri = Ok self ->
   In field MLB.Boxscore.fields ->
   exists v, mlb_attribute_value boxscore field = Ok v
             /\ getattr self field = Ok v)
  /\ (NCAAF.Boxscore._retrieve_html_page uri = Ok (Some boxscore) ->
      NCAAF.Boxscore.__init__ uri = Ok self ->
      In field NCAAF.Boxscore.fields ->
      exists v, ncaaf_attribute_value boxscore field = Ok v
                /\ getattr self field = Ok v).
Proof.
  intros Hfull Hfield. split; intros Hpage Hinit Hin.
  - destruct (mlb_initial_keys uri) as (Hdistinct & Hkeys & _).
    unfold MLB.Boxscore.__init__ in Hinit.
    rewrite mlb_parse_game_data_cases, Hpage, Hfull in Hinit.
    destruct (loop_values _ _ (mlb_parse_attribute_spec boxscore) _
                (distinct_NoDup _ Hdistinct) _ _ Hinit field)
      as (v & Hv & Hget); [|exact Hfield|].
    + apply one_of_In. exact (proj1 (forallb_forall _ _) Hkeys _ Hin).
    + exists v. split; [exact Hv|]. unfold getattr. now rewrite Hget.
  - destruct (ncaaf_initial_keys uri) as (Hdistinct & Hkeys & _).
    unfold NCAAF.Boxscore.__init__ in Hinit.
    rewrite ncaaf_parse_game_data_cases, Hpage, Hfull in Hinit.
    destruct (loop_values _ _ (ncaaf_parse_attribute_spec boxscore) _
                (distinct_NoDup _ Hdistinct) _ _ Hinit field)
      as (v & Hv & Hget); [|exact Hfield|].
    + apply one_of_In. exact (proj1 (forallb_forall _ _) Hkeys _ Hin).
    + exists v. split; [exact Hv|]. unfold getattr. now rewrite Hget.
Qed.

(** X5. When the page of a game is retrieved and is not empty, the
    constructor returns if the parser of every attribute returns; and if
    the parser of some attribute raises while those of the attributes
    before it return, the constructor raises that exception: no failure
    of a parser is caught. *)
Theorem constructor_raises_first_parser_failure (uri : raw) (boxscore : pq) :
  pq_bool boxscore = true ->
  (MLB.Boxscore._retrieve_html_page uri = Ok (Some boxscore) ->
   (Forall (fun f => is_derived f = true
                     \/ exists v, mlb_attribute_value boxscore f = Ok v)
      MLB.Boxscore.fields ->
    exists self, MLB.Boxscore.__init__ uri = Ok self)
   /\ (forall before f after e,
          dict_keys (init_None (setattr [] "_uri" uri) MLB.Boxscore.fields)
          = (before ++ f :: after)%list ->
          Forall (fun g => is_derived g = true
                           \/ exists v, mlb_attribute_value boxscore g = Ok v)
            before ->
          is_derived f = false ->
          mlb_attribute_value boxscore f = Raise e ->
          MLB.Boxscore.__init__ uri = Raise e))
  /\ (NCAAF.Boxscore._retrieve_html_page uri = Ok (Some boxscore) ->
      (Forall (fun f => is_derived f = true
                        \/ exists v, ncaaf_attribute_value boxscore f = Ok v)
         NCAAF.Boxscore.fields ->
       exists self, NCAAF.Boxscore.__init__ uri = Ok self)
      /\ (forall before f after e,
             dict_keys (init_None (setattr [] "_uri" uri) NCAAF.Boxscore.fields)
             = (before ++ f :: after)%list ->
             Forall (fun g => is_derived g = true
                              \/ exists v, ncaaf_attribute_value boxscore g = Ok v)
               before ->
             is_derived f = false ->
             ncaaf_attribute_value boxscore f = Raise e ->
             NCAAF.Boxscore.__init__ uri = Raise e)).
Proof.
  intros Hfull. split; intros Hpage; split.
  - intros Hall. unfold MLB.Boxscore.__init__.
    rewrite mlb_parse_game_data_cases, Hpage, Hfull.
    apply (loop_returns _ _ (mlb_parse_attribute_spec boxscore)).
    destruct (mlb_initial_keys uri) as (_ & _ & Hkeys).
    apply Forall_forall. intros k Hk.
    apply (proj1 (forallb_forall _ _) Hkeys), one_of_In in Hk.
    destruct Hk as [<- | Hk]; [now left|].
    exact (proj1 (Forall_forall _ _) Hall _ Hk).
  - intros before f after e Hkeys Hbefore Hf He.
    unfold MLB.Boxscore.__init__.
    rewrite mlb_parse_game_data_cases, Hpage, Hfull, Hkeys.
    now apply (loop_first_failure _ _ (mlb_parse_attribute_spec boxscore)).
  - intros Hall. unfold NCAAF.Boxscore.__init__.
    rewrite ncaaf_parse_game_data_cases, Hpage, Hfull.
    apply (loop_returns _ _ (ncaaf_parse_attribute_spec boxscore)).
    destruct (ncaaf_initial_keys uri) as (_ & _ & Hkeys).
    apply Forall_forall. intros k Hk.
    apply (proj1 (forallb_forall _ _) Hkeys), one_of_In in Hk.
    destruct Hk as [<- | Hk]; [now left|].
    exact (proj1 (Forall_forall _ _) Hall _ Hk).
  - intros before f after e Hkeys Hbefore Hf He.
    unfold NCAAF.Boxscore.__init__.
    rewrite ncaaf_parse_game_data_cases, Hpage, Hfull, Hkeys.
    now apply (loop_first_failure _ _ (ncaaf_parse_attribute_spec boxscore)).
Qed.

(** X6. The [try] of [_retrieve_html_page] covers the download only.
    When the page is downloaded and its text does not parse again, the
    exception reaches the caller of the constructor; when it parses to an
    empty document, the constructor returns a Boxscore without data, as
    for a failed download. *)
Theorem downloaded_page_that_fails_or_is_empty (uri : raw) (url_data : pq) :
  pq_url (BOXSCORE_URL uri) = Ok url_data ->
  (forall e,
      pq_html (utils_remove_html_comment_tags url_data) = Raise e ->
      MLB.Boxscore._retrieve_html_page uri = Raise e
      /\ MLB.Boxscore.__init__ uri = Raise e
      /\ NCAAF.Boxscore._retrieve_html_page uri = Raise e
      /\ NCAAF.Boxscore.__init__ uri = Raise e)
  /\ (forall page,
         pq_html (utils_remove_html_comment_tags url_data) = Ok page ->
         pq_bool page = false ->
         MLB.Boxscore.__init__ uri
         = Ok (init_None (setattr [] "_uri" uri) MLB.Boxscore.fields)
         /\ NCAAF.Boxscore.__init__ uri
            = Ok (init_None (setattr [] "_uri" uri) NCAAF.Boxscore.fields)).
Proof.
  intros Hurl. split.
  - intros e Hparse.
    unfold MLB.Boxscore.__init__, NCAAF.Boxscore.__init__.
    rewrite mlb_parse_game_data_cases, ncaaf_parse_game_data_cases.
    unfold MLB.Boxscore._retrieve_html_page, NCAAF.Boxscore._retrieve_html_page.
    rewrite Hurl, Hparse. cbn [bind]. auto.
  - intros page Hparse Hempty.
    unfold MLB.Boxscore.__init__, NCAAF.Boxscore.__init__.
    rewrite mlb_parse_game_data_cases, ncaaf_parse_game_data_cases.
    unfold MLB.Boxscore._retrieve_html_page, NCAAF.Boxscore._retrieve_html_page.
    rewrite Hurl, Hparse. cbn [bind]. rewrite Hempty. auto.
Qed.

End Parsed.

(** [returned t H]: the computation [t] returns, and [H] states it, the
    value being left as it stands.  [returned_some] is the same for a
    computation that returns [Some _]. *)
Ltac returned t H :=
  let v := eval lazy head in t in
  match v with
  | Ok _ => assert (H : t = v) by reflexivity
  end.

Ltac returned_some t H :=
  let v := eval lazy head in t in
  match v with
  | Ok ?o =>
      let o' := eval lazy head in o in
      match o' with
      | Some _ => assert (H : t = Ok o') by reflexivity
      end
  end.

Lemma dataframe_holds_the_properties_witness :
  (exists table row,
      NCAAF.Boxscore.dataframe (E := Web.online) Web.ncaaf_played
      = Ok (Some table)
      /\ df_rows table = [row]
      /\ df_index table = [RStr "2018-01-08-georgia"]
      /\ map fst row = map fst (NCAAF.Boxscore.fields_to_include (E := Web.online)))
  /\ (exists table row,
         MLB.Boxscore.dataframe (E := Web.online) Web.mlb_played
         = Ok (Some table)
         /\ df_rows table = [row]
         /\ df_index table = [RStr "BOS/BOS201806070"]
         /\ map fst row = map fst (MLB.Boxscore.fields_to_include (E := Web.online))).
Proof.
  split.
  - returned_some (NCAAF.Boxscore.dataframe (E := Web.online) Web.ncaaf_played)
      Hframe.
    destruct (proj1 (dataframe_holds_the_properties (E := Web.online) _ _)
                Hframe)
      as (row & uri & Htable & Huri & Hnames & _).
    eexists. exists row. split; [exact Hframe|].
    injection Huri as <-. rewrite Htable. auto.
  - returned_some (MLB.Boxscore.dataframe (E := Web.online) Web.mlb_played)
      Hframe.
    destruct (proj2 (dataframe_holds_the_properties (E := Web.online) _ _)
                Hframe)
      as (row & uri & Htable & Huri & Hnames & _).
    eexists. exists row. split; [exact Hframe|].
    injection Huri as <-. rewrite Htable. auto.
Defined.

Lemma dataframe_raises_first_failure_witness :
  NCAAF.Boxscore.dataframe (E := Web.online) Web.ncaaf_garbled_score
  = Raise ValueError.
Proof.
  refine (proj1 (dataframe_raises_first_failure (E := Web.online)
                   Web.ncaaf_garbled_score
                   (firstn 26 NCAAF.Boxscore.fields_to_include)
                   (skipn 27 NCAAF.Boxscore.fields_to_include)
                   "home_points"
                   (fun self => fmap CInt (NCAAF.Boxscore.home_points self))
                   ValueError "26" _ _) _ _).
  - cbn [firstn NCAAF.Boxscore.fields_to_include].
    repeat (apply Forall_cons; [eexists; lazy head; reflexivity|]).
    apply Forall_nil.
  - reflexivity.
  - reflexivity.
  - reflexivity.
Defined.

Lemma parsing_keeps_the_attributes_witness :
  exists self,
    MLB.Boxscore.__init__ (E := Web.online) (C := Web.mlb_constants)
      (RStr "BOS/BOS201806070") = Ok self
    /\ getattr self "_uri" = Ok (RStr "BOS/BOS201806070")
    /\ getattr self "_winner" = Ok RNone
    /\ getattr self "_date" = Ok (RStr "Thursday, June 7, 2018").
Proof.
  returned (MLB.Boxscore.__init__ (E := Web.online) (C := Web.mlb_constants)
              (RStr "BOS/BOS201806070")) Hinit.
  destruct (proj2 (parsing_keeps_the_attributes (E := Web.online)
                     (C := Web.mlb_constants) _ _) (or_introl Hinit))
    as (Huri & Hderived).
  eexists. split; [exact Hinit|]. split; [exact Huri|].
  split; [exact (Forall_inv Hderived) | reflexivity].
Defined.

Lemma constructed_attributes_hold_parsed_values_witness :
  (exists self v,
      MLB.Boxscore.__init__ (E := Web.online) (C := Web.mlb_constants)
        (RStr "BOS/BOS201806070") = Ok self
      /\ mlb_attribute_value (H := Web.online) (H0 := Web.mlb_constants)
           [Web.mlb_game_page] "_venue" = Ok v
      /\ getattr self "_venue" = Ok v)
  /\ (exists self v,
         NCAAF.Boxscore.__init__ (E := Web.online) (C := Web.ncaaf_constants)
           (RStr "2018-01-08-georgia") = Ok self
         /\ ncaaf_attribute_value (H := Web.online) (H0 := Web.ncaaf_constants)
              [Web.ncaaf_game_page] "_stadium" = Ok v
         /\ getattr self "_stadium" = Ok v).
Proof.
  split.
  - returned (MLB.Boxscore.__init__ (E := Web.online) (C := Web.mlb_constants)
                (RStr "BOS/BOS201806070")) Hinit.
    destruct (proj1 (constructed_attributes_hold_parsed_values
                       (E := Web.online) (C := Web.mlb_constants)
                       (RStr "BOS/BOS201806070") [Web.mlb_game_page] _
                       "_venue" eq_refl eq_refl) eq_refl Hinit
                (proj1 (one_of_In "_venue" MLB.Boxscore.fields) eq_refl))
      as (v & Hv & Hget).
    eexists. exists v. split; [exact Hinit|]. split; [exact Hv | exact Hget].
  - returned (NCAAF.Boxscore.__init__ (E := Web.online)
                (C := Web.ncaaf_constants) (RStr "2018-01-08-georgia")) Hinit.
    destruct (proj2 (constructed_attributes_hold_parsed_values
                       (E := Web.online) (C := Web.ncaaf_constants)
                       (RStr "2018-01-08-georgia") [Web.ncaaf_game_page] _
                       "_stadium" eq_refl eq_refl) eq_refl Hinit
                (proj1 (one_of_In "_stadium" NCAAF.Boxscore.fields) eq_refl))
      as (v & Hv & Hget).
    eexists. exists v. split; [exact Hinit|]. split; [exact Hv | exact Hget].
Defined.

Lemma constructor_raises_first_parser_failure_witness :
  MLB.Boxscore.__init__ (E := Web.online) (C := Web.mlb_constants_without_date)
    (RStr "BOS/BOS201806070") = Raise KeyError
  /\ exists self,
       MLB.Boxscore.__init__ (E := Web.online) (C := Web.mlb_constants)
         (RStr "BOS/BOS201806070") = Ok self.
Proof.
  split.
  - refine (proj2 (proj1 (constructor_raises_first_parser_failure
                            (E := Web.online)
                            (C := Web.mlb_constants_without_date)
                            (RStr "BOS/BOS201806070") [Web.mlb_game_page]
                            eq_refl) eq_refl)
              ["_uri"] "_date"
              (tl (tl (dict_keys (init_None (setattr [] "_uri"
                                               (RStr "BOS/BOS201806070"))
                                    MLB.Boxscore.fields))))
              KeyError eq_refl _ eq_refl eq_refl).
    apply Forall_cons; [now left | apply Forall_nil].
  - refine (proj1 (proj1 (constructor_raises_first_parser_failure
                            (E := Web.online) (C := Web.mlb_constants)
                            (RStr "BOS/BOS201806070") [Web.mlb_game_page]
                            eq_refl) eq_refl) _).
    unfold MLB.Boxscore.fields.
    repeat (apply Forall_cons;
            [first [ left; reflexivity
                   | right; eexists; lazy head; reflexivity ] |]).
    apply Forall_nil.
Defined.

Lemma downloaded_page_that_fails_or_is_empty_witness :
  MLB.Boxscore.__init__ (E := Web.online) (C := Web.mlb_constants)
    (RStr "GARBLED") = Raise ParserError
  /\ MLB.Boxscore.__init__ (E := Web.online) (C := Web.mlb_constants)
       (RStr "EMPTY")
     = Ok (init_None (setattr [] "_uri" (RStr "EMPTY")) MLB.Boxscore.fields).
Proof.
  split.
  - refine (proj1 (proj2 (proj1 (downloaded_page_that_fails_or_is_empty
                                   (E := Web.online) (C := Web.mlb_constants)
                                   (RStr "GARBLED") [Web.garbled_page] eq_refl)
                            ParserError eq_refl))).
  - refine (proj1 (proj2 (downloaded_page_that_fails_or_is_empty
                            (E := Web.online) (C := Web.mlb_constants)
                            (RStr "EMPTY") [] eq_refl)
                     [] eq_refl eq_refl)).
Defined.

(** ** Narrative blocks: single games and failures *)

Section Narrative.
Context `{E : Env} `{C : Constants}.

Lemma scan_items_unmarked (field : string) (game_info : list string)
    (index : nat) (items : list string) :
  forallb (fun item => negb (MLB.Boxscore.doubleheader_marker item)) items
  = true ->
  forall double_header,
    MLB.Boxscore.scan_items field game_info index double_header items
    = if double_header then Ok EmptyString else getitem game_info index.
Proof.
  induction items as [|item rest IH]; intros Hnone flag; [reflexivity|].
  cbn [forallb] in Hnone. apply andb_true_iff in Hnone as [Hitem Hrest].
  apply negb_true_iff in Hitem.
  cbn [MLB.Boxscore.scan_items]. rewrite Hitem. now apply IH.
Qed.

(** X7. [_parse_game_date_and_location] of MLB raises KeyError for a
    field without selector or without index, and IndexError when the page
    has no element for the selector.  For a game that is no doubleheader
    it returns the line at the fixed index of the field as it is, empty or
    not, and raises IndexError when the block has no such line; for a
    doubleheader it raises KeyError on a field, other than the date and
    the time of day, that has no marker. *)
Theorem single_game_reads_the_fixed_index (field : string) (boxscore : pq) :
  (dict_get BOXSCORE_SCHEME field = None ->
   MLB.Boxscore._parse_game_date_and_location field boxscore = Raise KeyError)
  /\ (forall scheme,
         dict_get BOXSCORE_SCHEME field = Some scheme ->
         let items := map pq_text (pq_items (pq_call boxscore scheme)) in
         (dict_get BOXSCORE_ELEMENT_INDEX field = None ->
          MLB.Boxscore._parse_game_date_and_location field boxscore
          = Raise KeyError)
         /\ (forall index,
                dict_get BOXSCORE_ELEMENT_INDEX field = Some index ->
                (items = [] ->
                 MLB.Boxscore._parse_game_date_and_location field boxscore
                 = Raise IndexError)
                /\ (forall first_item rest,
                       items = first_item :: rest ->
                       let game_info := split_scan newline 0 first_item in
                       (forallb
                          (fun item =>
                             negb (MLB.Boxscore.doubleheader_marker item))
                          items = true ->
                        (forall line,
                            nth_error game_info index = Some line ->
                            MLB.Boxscore._parse_game_date_and_location
                              field boxscore
                            = Ok line)
                        /\ ((List.length game_info <= index)%nat ->
                            MLB.Boxscore._parse_game_date_and_location
                              field boxscore
                            = Raise IndexError))
                       /\ (existsb MLB.Boxscore.doubleheader_marker items
                           = true ->
                           field <> "date" -> field <> "time_of_day" ->
                           dict_get DOUBLE_HEADER_INDICES field = None ->
                           MLB.Boxscore._parse_game_date_and_location
                             field boxscore
                           = Raise KeyError)))).
Proof.
  split.
  { intros Hscheme.
    unfold MLB.Boxscore._parse_game_date_and_location, dict_item.
    now rewrite Hscheme. }
  intros scheme Hscheme items.
  rewrite (mlb_parser_reads_selected_items _ _ _ Hscheme). fold items.
  unfold MLB.Boxscore.date_and_location, dict_item.
  split; [intros Hindex; now rewrite Hindex|].
  intros index Hindex. rewrite Hindex. cbn [bind].
  split; [intros Hempty; now rewrite Hempty|].
  intros first_item rest Hitems.
  set (game_info := split_scan newline 0 first_item). rewrite Hitems.
  change (getitem (first_item :: rest) 0) with (Ok first_item).
  cbn [bind].
  change (split newline first_item) with (Ok game_info). cbn [bind].
  split.
  - intros Hnone. rewrite (scan_items_unmarked _ _ _ _ Hnone). unfold getitem.
    split.
    + intros line Hline. now rewrite Hline.
    + intros Hshort. apply nth_error_None in Hshort. now rewrite Hshort.
  - intros Hmarked Hdate Htime Hmatcher.
    apply existsb_exists in Hmarked as (item & Hin & Hitem).
    rewrite (scan_items_marked field game_info index (first_item :: rest)
               (ex_intro _ item (conj Hin Hitem))).
    destruct (String.eqb_spec field "date"); [contradiction|].
    destruct (split_scan_head newline first_item)
      as (part & parts & t & Hsplit & _).
    subst game_info. rewrite Hsplit. cbn [MLB.Boxscore.scan_elements].
    destruct (String.eqb_spec field "time_of_day"); [contradiction|].
    unfold dict_item. now rewrite Hmatcher.
Qed.

(** X8. The narrative parser of NCAAF raises KeyError for a field
    without selector or without index and IndexError when the page has no
    element for the selector; in every other case it returns, whatever
    the block and the index: the selected line, or the empty string. *)
Theorem ncaaf_narrative_parser_returns (field : string) (boxscore : pq) :
  (dict_get BOXSCORE_SCHEME field = None ->
   NCAAF.Boxscore._parse_game_date_and_location field boxscore
   = Raise KeyError)
  /\ (forall scheme,
         dict_get BOXSCORE_SCHEME field = Some scheme ->
         (pq_items (pq_call boxscore scheme) = [] ->
          NCAAF.Boxscore._parse_game_date_and_location field boxscore
          = Raise IndexError)
         /\ (forall first rest,
                pq_items (pq_call boxscore scheme) = first :: rest ->
                (dict_get BOXSCORE_ELEMENT_INDEX field = None ->
                 NCAAF.Boxscore._parse_game_date_and_location field boxscore
                 = Raise KeyError)
                /\ (forall index,
                       dict_get BOXSCORE_ELEMENT_INDEX field = Some index ->
                       let game_info := split_scan newline 0 (pq_text first) in
                       NCAAF.Boxscore._parse_game_date_and_location
                         field boxscore
                       = Ok (selected_line game_info
                               (if names_weekday (nth 0 game_info EmptyString)
                                then index else index + 1))))).
Proof.
  unfold NCAAF.Boxscore._parse_game_date_and_location, dict_item.
  split; [intros Hscheme; now rewrite Hscheme|].
  intros scheme Hscheme. rewrite Hscheme. cbn [bind]. split.
  - intros Hitems. now rewrite Hitems.
  - intros first rest Hitems. rewrite Hitems.
    change (getitem (map pq_text (first :: rest)) 0) with (Ok (pq_text first)).
    cbn [bind].
    change (split newline (pq_text first))
      with (Ok (split_scan newline 0 (pq_text first))).
    cbn [bind]. split.
    + intros Hindex. now rewrite Hindex.
    + intros index Hindex. rewrite Hindex. cbn [bind]. cbv zeta.
      destruct (split_scan_head newline (pq_text first))
        as (part & parts & t & Hsplit & _).
      rewrite Hsplit. unfold NCAAF.Boxscore.date_and_location, names_weekday.
      cbn [getitem nth_error nth].
      rewrite for_return_test, !line_at_selected.
      now destruct (existsb _ _).
Qed.

(** X9. For a doubleheader of MLB [_parse_game_date_and_location]
    always returns for the time of day: the first line of the block that
    tells a day or a night game, be it the one or the other, or the empty
    string when no line does.  The property [time_of_day] then reports a
    night game exactly when that value holds [night]: a day game for the
    empty string and for a line that tells a day game without the word,
    a night game for a line that tells a night game. *)
Theorem doubleheader_time_of_day (scheme : string) (boxscore : pq)
    (index : nat) (self : instance) :
  dict_get BOXSCORE_SCHEME "time_of_day" = Some scheme ->
  dict_get BOXSCORE_ELEMENT_INDEX "time_of_day" = Some index ->
  let items := map pq_text (pq_items (pq_call boxscore scheme)) in
  existsb MLB.Boxscore.doubleheader_marker items = true ->
  let game_info := split_scan newline 0 (hd EmptyString items) in
  let tells := fun line => contains "night game" (lower line)
                           || contains "day game" (lower line) in
  exists value,
    MLB.Boxscore._parse_game_date_and_location "time_of_day" boxscore
    = Ok value
    /\ (find tells game_info = None -> value = EmptyString)
    /\ (forall line, find tells game_info = Some line ->
                     value = line /\ tells line = true)
    /\ (getattr self "_time_of_day" = Ok (RStr value) ->
        MLB.Boxscore.time_of_day self
        = Ok (if contains "night" (lower value) then NIGHT else DAY)
        /\ (find tells game_info = None ->
            MLB.Boxscore.time_of_day self = Ok DAY)
        /\ (forall line,
               find tells game_info = Some line ->
               (contains "night game" (lower line) = true ->
                MLB.Boxscore.time_of_day self = Ok NIGHT)
               /\ (contains "night" (lower line) = false ->
                   MLB.Boxscore.time_of_day self = Ok DAY))).
Proof.
  intros Hscheme Hindex items Hmarked game_info tells.
  apply existsb_exists in Hmarked as (item & Hin & Hitem).
  assert (Hscan : MLB.Boxscore._parse_game_date_and_location
                    "time_of_day" boxscore
                  = Ok (match find tells game_info with
                        | Some element => element
                        | None => EmptyString
                        end)).
  { rewrite (mlb_parser_reads_selected_items _ _ _ Hscheme). fold items.
    unfold MLB.Boxscore.date_and_location, dict_item. rewrite Hindex.
    subst game_info.
    destruct items as [|first_item rest]; [destruct Hin|].
    cbn [bind getitem nth_error hd]. unfold split. cbn [newline bind].
    fold newline.
    rewrite (scan_items_marked "time_of_day" _ index _
               (ex_intro _ item (conj Hin Hitem))).
    change (String.eqb "time_of_day" "date") with false. cbn iota.
    now rewrite scan_elements_time_of_day. }
  eexists. split; [exact Hscan|]. split; [|split].
  - intros Hnone. now rewrite Hnone.
  - intros line Hline. rewrite Hline. split; [reflexivity|].
    now apply find_some in Hline.
  - intros Hget. unfold MLB.Boxscore.time_of_day. rewrite Hget.
    cbn [bind str_lower]. split; [|split].
    + now destruct (contains "night" _).
    + intros Hnone. now rewrite Hnone.
    + intros line Hline. rewrite Hline. split.
      * intros Hnight.
        destruct (contains_inv _ _ Hnight) as (a & b & Hl). rewrite Hl.
        change ("night game" ++ b) with ("night" ++ " game" ++ b).
        now rewrite contains_intro.
      * intros Hday. now rewrite Hday.
Qed.

End Narrative.

(** ** The game-day finder *)

Lemma nth_error_last {A : Type} (l : list A) (a : A) :
  l <> [] -> nth_error l (List.length l - 1) = Some (last l a).
Proof.
  induction l as [|x l IH]; intros Hne; [contradiction|].
  destruct l as [|y l]; [reflexivity|].
  replace (List.length (x :: y :: l) - 1) with (S (List.length (y :: l) - 1))
    by (cbn [List.length]; lia).
  cbn [nth_error]. rewrite IH by discriminate. reflexivity.
Qed.

Section Finder.
Context `{E : Env} `{C : Constants}.

Lemma ncaaf_team_names (g : pq) :
  NCAAF.Boxscores._get_team_names g
  = match pq_items (pq_call g "td a") with
    | [] => Raise IndexError
    | away :: rest =>
        let home := last (away :: rest) away in
        let '(away_name, away_abbr, away_non_di) := NCAAF.Boxscores._get_name away in
        let '(home_name, home_abbr, home_non_di) := NCAAF.Boxscores._get_name home in
        Ok (away_name, away_abbr, home_name, home_abbr,
            away_non_di || home_non_di)
    end.
Proof.
  unfold NCAAF.Boxscores._get_team_names.
  destruct (pq_items (pq_call g "td a")) as [|away rest] eqn:Hlinks;
    [reflexivity|].
  unfold getitem at 2. rewrite (nth_error_last _ away) by discriminate.
  reflexivity.
Qed.

Lemma mlb_team_names (g : pq) :
  MLB.Boxscores._get_team_names g
  = match pq_items (pq_call g "td a") with
    | [] => Raise IndexError
    | away :: rest =>
        let home := last (away :: rest) away in
        let '(away_name, away_abbr) := MLB.Boxscores._get_name away in
        let '(home_name, home_abbr) := MLB.Boxscores._get_name home in
        Ok (away_name, away_abbr, home_name, home_abbr)
    end.
Proof.
  unfold MLB.Boxscores._get_team_names.
  destruct (pq_items (pq_call g "td a")) as [|away rest] eqn:Hlinks;
    [reflexivity|].
  unfold getitem at 2. rewrite (nth_error_last _ away) by discriminate.
  reflexivity.
Qed.

(** X10. The finder of either sport gives one summary for each table of
    the index page, in the order of the page; it raises IndexError, and
    nothing else, exactly when some table holds no link; and a page
    without tables, a day without games, gives the empty list. *)
Theorem finder_gives_one_summary_per_table (games : list pq) :
  (forallb has_links games = true ->
   (exists l, NCAAF.Boxscores._extract_game_info games = Ok l
              /\ List.length l = List.length games)
   /\ (exists l, MLB.Boxscores._extract_game_info games = Ok l
                 /\ List.length l = List.length games))
  /\ (forallb has_links games = false ->
      NCAAF.Boxscores._extract_game_info games = Raise IndexError
      /\ MLB.Boxscores._extract_game_info games = Raise IndexError)
  /\ (forall d page,
         game_tables page = [] ->
         (pq_url (NCAAF.Boxscores._create_url d) = Ok page ->
          NCAAF.Boxscores.__init__ d = Ok [])
         /\ (pq_url (MLB.Boxscores._create_url d) = Ok page ->
             MLB.Boxscores.__init__ d = Ok [])).
Proof.
  split; [|split].
  - induction games as [|g rest IH]; intros Hall.
    { split; exists []; now split. }
    cbn [forallb] in Hall. apply andb_true_iff in Hall as [Hg Hrest].
    destruct (IH Hrest) as ((ln & Hn & Hlen_n) & (lm & Hm & Hlen_m)).
    unfold has_links in Hg.
    cbn [NCAAF.Boxscores._extract_game_info MLB.Boxscores._extract_game_info].
    rewrite ncaaf_team_names, mlb_team_names, Hn, Hm.
    destruct (pq_items (pq_call g "td a")) as [|away links]; [discriminate|].
    cbv zeta.
    destruct (NCAAF.Boxscores._get_name away) as [[? ?] ?].
    destruct (NCAAF.Boxscores._get_name (last (away :: links) away))
      as [[? ?] ?].
    destruct (MLB.Boxscores._get_name away) as [? ?].
    destruct (MLB.Boxscores._get_name (last (away :: links) away)) as [? ?].
    cbn [bind]. split; eexists; (split; [reflexivity|]); cbn [List.length];
      congruence.
  - induction games as [|g rest IH]; intros Hsome; [discriminate|].
    cbn [forallb] in Hsome.
    cbn [NCAAF.Boxscores._extract_game_info MLB.Boxscores._extract_game_info].
    rewrite ncaaf_team_names, mlb_team_names.
    unfold has_links in Hsome.
    destruct (pq_items (pq_call g "td a")) as [|away links]; [now split|].
    cbn [andb] in Hsome. destruct (IH Hsome) as [Hn Hm]. rewrite Hn, Hm.
    cbv zeta.
    destruct (NCAAF.Boxscores._get_name away) as [[? ?] ?].
    destruct (NCAAF.Boxscores._get_name (last (away :: links) away))
      as [[? ?] ?].
    destruct (MLB.Boxscores._get_name away) as [? ?].
    destruct (MLB.Boxscores._get_name (last (away :: links) away)) as [? ?].
    now split.
  - intros d page Hnone. unfold game_tables in Hnone.
    unfold NCAAF.Boxscores.__init__, NCAAF.Boxscores._find_games,
      NCAAF.Boxscores._get_requested_page,
      MLB.Boxscores.__init__, MLB.Boxscores._find_games,
      MLB.Boxscores._get_requested_page.
    split; intros Hpage; rewrite Hpage; cbn [bind].
    + now rewrite Hnone.
    + unfold MLB.Boxscores.quote. unfold NCAAF.Boxscores.quote in Hnone.
      now rewrite Hnone.
Qed.

(** X11. Every summary the finder returns names the team of the first
    link of its table as the away team and the team of the last link as
    the home team, with the abbreviations [_get_name] gives them; its
    boxscore is the uri of the gamelink cell; and an NCAAF game is
    flagged [non_di] exactly when one of its two teams is. *)
Theorem finder_summaries_follow_the_tables (games : list pq) :
  (forall l, NCAAF.Boxscores._extract_game_info games = Ok l ->
             Forall2 ncaaf_summary_of games l)
  /\ (forall l, MLB.Boxscores._extract_game_info games = Ok l ->
                Forall2 mlb_summary_of games l).
Proof.
  split.
  - induction games as [|g rest IH]; intros l Hl.
    { injection Hl as <-. constructor. }
    cbn [NCAAF.Boxscores._extract_game_info] in Hl.
    rewrite ncaaf_team_names in Hl.
    destruct (pq_items (pq_call g "td a")) as [|away links] eqn:Hlinks;
      [discriminate|].
    cbv zeta in Hl.
    destruct (NCAAF.Boxscores._get_name away) as [[an aa] ad] eqn:Haway.
    destruct (NCAAF.Boxscores._get_name (last (away :: links) away))
      as [[hn ha] hd] eqn:Hhome.
    cbn [bind] in Hl.
    destruct (NCAAF.Boxscores._extract_game_info rest) as [l'|];
      [|discriminate].
    cbn [bind] in Hl. injection Hl as <-.
    constructor; [|now apply IH].
    exists away, (last (away :: links) away). rewrite Hlinks, Haway, Hhome.
    cbn. repeat split.
  - induction games as [|g rest IH]; intros l Hl.
    { injection Hl as <-. constructor. }
    cbn [MLB.Boxscores._extract_game_info] in Hl.
    rewrite mlb_team_names in Hl.
    destruct (pq_items (pq_call g "td a")) as [|away links] eqn:Hlinks;
      [discriminate|].
    cbv zeta in Hl.
    destruct (MLB.Boxscores._get_name away) as [an aa] eqn:Haway.
    destruct (MLB.Boxscores._get_name (last (away :: links) away))
      as [hn ha] eqn:Hhome.
    cbn [bind] in Hl.
    destruct (MLB.Boxscores._extract_game_info rest) as [l'|];
      [|discriminate].
    cbn [bind] in Hl. injection Hl as <-.
    constructor; [|now apply IH].
    exists away, (last (away :: links) away). rewrite Hlinks, Haway, Hhome.
    cbn. repeat split.
Qed.

End Finder.

(** ** Links of the index page *)





Section Links.
Context `{E : Env}.



(** X14. Whatever the name tag, [_get_name] of NCAAF returns its text as
    the name; a team it flags has its name as abbreviation; a team it
    does not flag has the school path in its tag and the code extracted
    from it, which is not empty, as abbreviation.  So the abbreviation is
    empty only when the name is. *)
Theorem ncaaf_name_abbreviation_and_flag (tag : pq) :
  let '(name, abbr, non_di) := NCAAF.Boxscores._get_name tag in
  name = pq_text tag
  /\ (non_di = true -> abbr = name)
  /\ (non_di = false ->
      contains "cfb/schools" (pq_str tag) = true
      /\ abbr = re_sub_from "/" (re_sub_through "/schools/" (pq_str tag))
      /\ abbr <> EmptyString)
  /\ (abbr = EmptyString -> name = EmptyString).
Proof.
  unfold NCAAF.Boxscores._get_name, NCAAF.Boxscores._parse_abbreviation.
  destruct (contains "cfb/schools" (pq_str tag)); cbn [negb NCAAF.Boxscores.not_].
  - destruct (String.eqb_spec
                (re_sub_from "/" (re_sub_through "/schools/" (pq_str tag)))
                EmptyString) as [Hempty | Hfull].
    + repeat split; try discriminate; auto.
    + repeat split; try discriminate; auto. intros Habbr. contradiction.
  - repeat split; try discriminate; auto.
Qed.

End Links.

(** ** Names of the winner and the loser *)

Section Names.
Context `{E : Env}.

(** X15. When both scores convert, the winning and the losing name of
    either sport are the names of the two different sides: of the home and
    the away team when the home score is strictly greater, of the away
    and the home team else; so a tie names the away team as the winner.
    The abbreviations of MLB follow the same sides. *)
Theorem winner_and_loser_are_the_two_sides (self : instance) (home away : Z) :
  let winning := if (home >? away)%Z then HOME else AWAY in
  (NCAAF.Boxscore.home_points self = Ok home ->
   NCAAF.Boxscore.away_points self = Ok away ->
   NCAAF.Boxscore.winning_name self
   = (v <- getattr self (name_attribute winning) ;; text v)
   /\ NCAAF.Boxscore.losing_name self
      = (v <- getattr self (name_attribute (other_side winning)) ;; text v))
  /\ (MLB.Boxscore.home_runs self = Ok home ->
      MLB.Boxscore.away_runs self = Ok away ->
      MLB.Boxscore.winning_name self
      = (v <- getattr self (name_attribute winning) ;; text v)
      /\ MLB.Boxscore.losing_name self
         = (v <- getattr self (name_attribute (other_side winning)) ;; text v)
      /\ MLB.Boxscore.winning_abbr self
         = (v <- getattr self (name_attribute winning) ;;
            utils_parse_abbreviation v)
      /\ MLB.Boxscore.losing_abbr self
         = (v <- getattr self (name_attribute (other_side winning)) ;;
            utils_parse_abbreviation v)).
Proof.
  intros winning. split; intros Hhome Haway.
  - unfold NCAAF.Boxscore.winning_name, NCAAF.Boxscore.losing_name,
      NCAAF.Boxscore.winner.
    rewrite Hhome, Haway. cbn [bind]. subst winning.
    now destruct (home >? away)%Z.
  - unfold MLB.Boxscore.winning_name, MLB.Boxscore.losing_name,
      MLB.Boxscore.winning_abbr, MLB.Boxscore.losing_abbr,
      MLB.Boxscore.winner.
    rewrite Hhome, Haway. cbn [bind]. subst winning.
    now destruct (home >? away)%Z.
Qed.

(** X16. In NCAAF the abbreviation of a winner, or of a loser, whose
    name tag holds no school path is its name: [utils._parse_abbreviation]
    is not called for it. *)
Theorem non_di_abbreviation_is_the_name (self : instance) (w : side)
    (tag : raw) :
  NCAAF.Boxscore.winner self = Ok w ->
  contains "cfb/schools" (str tag) = false ->
  (getattr self (name_attribute w) = Ok tag ->
   NCAAF.Boxscore.winning_abbr self = NCAAF.Boxscore.winning_name self
   /\ NCAAF.Boxscore.winning_abbr self = text tag)
  /\ (getattr self (name_attribute (other_side w)) = Ok tag ->
      NCAAF.Boxscore.losing_abbr self = NCAAF.Boxscore.losing_name self
      /\ NCAAF.Boxscore.losing_abbr self = text tag).
Proof.
  intros Hwinner Hplain.
  unfold NCAAF.Boxscore.winning_abbr, NCAAF.Boxscore.winning_name,
    NCAAF.Boxscore.losing_abbr, NCAAF.Boxscore.losing_name,
    NCAAF.Boxscore.abbr_of_name.
  rewrite Hwinner. cbn [bind].
  split; intros Hget; destruct w; cbn [name_attribute other_side side_eqb] in *;
    rewrite Hget; cbn [bind]; now rewrite Hplain.
Qed.

End Names.

(** ** Labels and defaults *)

Lemma replace_scan_skip (old new p s : string) :
  replace_scan old new (String.length p) (p ++ s) = replace_scan old new 0 s.
Proof. induction p as [|c p IH]; [now destruct s | exact IH]. Qed.

Lemma replace_scan_absent (old new s : string) :
  contains old s = false -> replace_scan old new 0 s = s.
Proof.
  induction s as [|c s IH]; intros Hs; [reflexivity|].
  cbn [contains] in Hs. apply orb_false_iff in Hs as [Hhere Hlater].
  cbn [replace_scan]. now rewrite Hhere, IH.
Qed.

(** [s.replace(label, '')] on a text without the label, and on the label
    followed by such a text. *)
Lemma replace_label (c : ascii) (l rest : string) :
  contains (String c l) rest = false ->
  replace (String c l) EmptyString rest = rest
  /\ replace (String c l) EmptyString (String c l ++ rest) = rest.
Proof.
  intros Hrest. unfold replace. split; [now apply replace_scan_absent|].
  change (String c l ++ rest) with (String c (l ++ rest)).
  cbn [replace_scan].
  change (String c (l ++ rest)) with (String c l ++ rest).
  rewrite startswith_append. cbn [append String.length].
  replace (S (String.length l) - 1) with (String.length l) by lia.
  rewrite replace_scan_skip. now apply replace_scan_absent.
Qed.

(** X17. The properties that show a line of the narrative block remove
    its label: a line made of the label and a text gives the text, and a
    line without the label, the empty string of a missing line included,
    is returned as it is. *)
Theorem label_is_removed accessor field label :
  In (accessor, field, label) label_accessors ->
  forall self rest,
    contains label rest = false ->
    (getattr self field = Ok (RStr (label ++ rest)) -> accessor self = Ok rest)
    /\ (getattr self field = Ok (RStr rest) -> accessor self = Ok rest).
Proof.
  intros Hin self rest Hrest.
  assert (Hlabel : replace label EmptyString rest = rest
                   /\ replace label EmptyString (label ++ rest) = rest).
  { unfold label_accessors in Hin. cbn [In] in Hin.
    repeat (destruct Hin as [[= _ _ <-] | Hin]; [now apply replace_label|]).
    destruct Hin. }
  destruct Hlabel as [Hplain Hlabelled].
  unfold label_accessors in Hin. cbn [In] in Hin.
  repeat (destruct Hin as [[= <- <- <-] | Hin];
          [split; intros Hget;
           match goal with |- ?f self = _ => unfold f end;
           rewrite Hget; cbn [bind str_replace]; congruence |]).
  destruct Hin.
Qed.

Lemma int_of_str_cases (s : string) :
  (exists z, int_of_str s = Ok z) \/ int_of_str s = Raise ValueError.
Proof.
  unfold int_of_str.
  destruct (match int_strip s with
            | String "+"%char r => int_unsigned r
            | String "-"%char r => option_map Z.opp (int_unsigned r)
            | _ => int_unsigned (int_strip s)
            end) as [z|]; [left; now exists z | now right].
Qed.

Lemma contains_nondigit_digits (c : ascii) (m : string) (d : uint) :
  is_digit c = false ->
  contains (String c m) (NilEmpty.string_of_uint d) = false.
Proof.
  intros Hc.
  assert (Hneq : forall k, is_digit k = true -> Ascii.eqb c k = false).
  { intros k Hk. destruct (Ascii.eqb_spec c k); [congruence | reflexivity]. }
  induction d; cbn [NilEmpty.string_of_uint]; try reflexivity;
    cbn [contains startswith]; rewrite IHd, Hneq by reflexivity; reflexivity.
Qed.

Lemma contains_nondigit_str_of_nat (c : ascii) (m : string) (n : nat) :
  is_digit c = false -> contains (String c m) (str_of_nat n) = false.
Proof.
  intros Hc. unfold str_of_nat, NilZero.string_of_uint.
  destruct (Nat.to_uint n) eqn:Hd; try (rewrite <- Hd at 1);
    try now apply contains_nondigit_digits.
  cbn [contains startswith].
  destruct (Ascii.eqb_spec c "0"); [subst c; discriminate | reflexivity].
Qed.

(** A text that starts with one of the separators U+001C to U+001F is no
    number for [int], although [str.strip] would remove the separator; and
    removing the commas keeps the separator where it is. *)
Lemma int_of_str_separator (c : ascii) (rest : string) :
  in_range 28 31 c = true ->
  int_of_str (String c rest) = Raise ValueError
  /\ replace "," EmptyString (String c rest)
     = String c (replace "," EmptyString rest)
  /\ is_space c = true.
Proof.
  intros Hc.
  destruct c as [[] [] [] [] [] [] [] []];
    try (vm_compute in Hc; discriminate Hc);
    (split; [|split; reflexivity]);
    unfold int_of_str, int_strip;
    match goal with
    | |- context [int_lstrip (String ?c rest)] =>
        change (int_lstrip (String c rest)) with (String c rest)
    end;
    cbn [int_rstrip]; destruct (int_rstrip rest); reflexivity.
Qed.

(** X18. On a text [attendance] of MLB never raises: it returns the
    number that is left when the label and the commas are removed, and 0
    when what is left is no number for [int]; so it is 0 for a number that
    follows one of the separators U+001C to U+001F, which [int] does not
    skip. *)
Theorem attendance_returns_on_every_text (self : instance) (s : string) :
  getattr self "_attendance" = Ok (RStr s) ->
  (exists z, MLB.Boxscore.attendance self = Ok z)
  /\ (forall rest n,
         s = "Attendance: " ++ rest ->
         contains "Attendance: " rest = false ->
         replace "," EmptyString rest = str_of_nat n ->
         MLB.Boxscore.attendance self = Ok (Z.of_nat n))
  /\ (forall n,
         s = "Attendance: " ++ str_of_nat n ->
         MLB.Boxscore.attendance self = Ok (Z.of_nat n))
  /\ (int_of_str (replace "," EmptyString (replace "Attendance: " EmptyString s))
      = Raise ValueError ->
      MLB.Boxscore.attendance self = Ok 0%Z)
  /\ (forall c rest,
         in_range 28 31 c = true ->
         s = "Attendance: " ++ String c rest ->
         contains "Attendance: " (String c rest) = false ->
         MLB.Boxscore.attendance self = Ok 0%Z).
Proof.
  intros Hget. unfold MLB.Boxscore.attendance. rewrite Hget.
  cbn [bind str_replace].
  assert (Hnumber : forall rest n,
             s = "Attendance: " ++ rest ->
             contains "Attendance: " rest = false ->
             replace "," EmptyString rest = str_of_nat n ->
             try_except
               (int_of_str
                  (replace "," EmptyString
                     (replace "Attendance: " EmptyString s)))
               is_ValueError (Ok 0%Z)
             = Ok (Z.of_nat n)).
  { intros rest n -> Hrest Hdigits.
    rewrite (proj2 (replace_label _ _ _ Hrest)), Hdigits, int_of_str_of_nat.
    reflexivity. }
  split; [|split; [|split; [|split]]].
  - destruct (int_of_str_cases
                (replace "," EmptyString (replace "Attendance: " EmptyString s)))
      as [[z Hz] | Hz]; rewrite Hz; [now exists z | now exists 0%Z].
  - exact Hnumber.
  - intros n Hs. apply (Hnumber (str_of_nat n) n Hs).
    + now apply contains_nondigit_str_of_nat.
    + apply replace_label. now apply contains_nondigit_str_of_nat.
  - intros Hz. now rewrite Hz.
  - intros c rest Hc -> Hrest.
    destruct (int_of_str_separator c rest Hc) as (_ & Hcommas & _).
    rewrite (proj2 (replace_label _ _ _ Hrest)), Hcommas.
    now rewrite (proj1 (int_of_str_separator c _ Hc)).
Qed.

(** X19. The four inherited-runner properties of MLB default on text
    only: on a text they return its number, or 0 when it is no number for
    [int], the empty string and a number after one of the separators
    U+001C to U+001F included; on [None] they raise TypeError, which their
    handler does not catch. *)
Theorem inherited_numbers_default_on_text_only accessor field :
  In (accessor, field) defaulted_accessors ->
  forall self,
    (forall s, getattr self field = Ok (RStr s) ->
               accessor self
               = Ok (match int_of_str s with
                     | Ok z => z
                     | Raise _ => 0%Z
                     end))
    /\ (forall n, getattr self field = Ok (RStr (str_of_nat n)) ->
                  accessor self = Ok (Z.of_nat n))
    /\ (getattr self field = Ok (RStr EmptyString) -> accessor self = Ok 0%Z)
    /\ (getattr self field = Ok RNone -> accessor self = Raise TypeError)
    /\ (forall c rest,
           in_range 28 31 c = true ->
           getattr self field = Ok (RStr (String c rest)) ->
           accessor self = Ok 0%Z).
Proof.
  intros Hin self.
  assert (Htext : forall s, getattr self field = Ok (RStr s) ->
                            accessor self
                            = Ok (match int_of_str s with
                                  | Ok z => z
                                  | Raise _ => 0%Z
                                  end)).
  { intros s Hget. unfold defaulted_accessors in Hin. cbn [In] in Hin.
    repeat (destruct Hin as [[= <- <-] | Hin];
            [match goal with |- ?f self = _ => unfold f end;
             rewrite Hget; cbn [bind int_];
             destruct (int_of_str_cases s) as [[z Hz] | Hz]; now rewrite Hz |]).
    destruct Hin. }
  split; [exact Htext | split; [|split; [|split]]].
  - intros n Hget. now rewrite (Htext _ Hget), int_of_str_of_nat.
  - intros Hget. now rewrite (Htext _ Hget).
  - intros Hget. unfold defaulted_accessors in Hin. cbn [In] in Hin.
    repeat (destruct Hin as [[= <- <-] | Hin];
            [match goal with |- ?f self = _ => unfold f end;
             now rewrite Hget |]).
    destruct Hin.
  - intros c rest Hc Hget.
    now rewrite (Htext _ Hget), (proj1 (int_of_str_separator c rest Hc)).
Qed.

(** ** Export with one score *)

Lemma Forall2_entry {A B : Type} (R : A -> B -> Prop) (l : list A)
    (l' : list B) (a : A) :
  Forall2 R l l' -> In a l -> exists b, R a b.
Proof.
  induction 1 as [|x y l l' Hxy _ IH]; intros Hin; [destruct Hin|].
  destruct Hin as [<- | Hin]; [now exists y | now apply IH].
Qed.

Section HalfScored.
Context `{E : Env}.

(** X20. [dataframe] of either sport returns [None] only when both score
    attributes are [None]; when one of them is [None] and the other a
    text, it raises: the property of the missing score cannot convert
    [None], and no table with a hole is returned. *)
Theorem dataframe_with_one_score_raises (self : instance) :
  (NCAAF.Boxscore.dataframe self = Ok None ->
   getattr self "_away_points" = Ok RNone
   /\ getattr self "_home_points" = Ok RNone)
  /\ (MLB.Boxscore.dataframe self = Ok None ->
      getattr self "_away_runs" = Ok RNone
      /\ getattr self "_home_runs" = Ok RNone)
  /\ (forall score,
         (getattr self "_away_points" = Ok RNone
          /\ getattr self "_home_points" = Ok (RStr score))
         \/ (getattr self "_away_points" = Ok (RStr score)
             /\ getattr self "_home_points" = Ok RNone) ->
         exists e, NCAAF.Boxscore.dataframe self = Raise e)
  /\ (forall score,
         (getattr self "_away_runs" = Ok RNone
          /\ getattr self "_home_runs" = Ok (RStr score))
         \/ (getattr self "_away_runs" = Ok (RStr score)
             /\ getattr self "_home_runs" = Ok RNone) ->
         exists e, MLB.Boxscore.dataframe self = Raise e).
Proof.
  split; [|split; [|split]].
  - unfold NCAAF.Boxscore.dataframe.
    destruct (getattr self "_away_points") as [[]|]; cbn [bind is_None];
      try discriminate.
    + destruct (getattr self "_home_points") as [[]|]; cbn [bind is_None];
        try discriminate; [now split|..];
        destruct (dict_display self _); cbn [bind]; try discriminate;
        destruct (getattr self "_uri"); discriminate.
    + destruct (dict_display self _); cbn [bind]; try discriminate;
        destruct (getattr self "_uri"); discriminate.
    + destruct (dict_display self _); cbn [bind]; try discriminate;
        destruct (getattr self "_uri"); discriminate.
  - unfold MLB.Boxscore.dataframe.
    destruct (getattr self "_away_runs") as [[]|]; cbn [bind is_None];
      try discriminate.
    + destruct (getattr self "_home_runs") as [[]|]; cbn [bind is_None];
        try discriminate; [now split|..];
        destruct (dict_display self _); cbn [bind]; try discriminate;
        destruct (getattr self "_uri"); discriminate.
    + destruct (dict_display self _); cbn [bind]; try discriminate;
        destruct (getattr self "_uri"); discriminate.
    + destruct (dict_display self _); cbn [bind]; try discriminate;
        destruct (getattr self "_uri"); discriminate.
  - intros score Hhalf.
    assert (Hcolumn : exists name property,
               In (name, property) NCAAF.Boxscore.fields_to_include
               /\ property self = Raise TypeError).
    { destruct Hhalf as [[Haway _] | [_ Hhome]].
      - exists "away_points",
          (fun self => fmap CInt (NCAAF.Boxscore.away_points self)).
        split.
        + unfold NCAAF.Boxscore.fields_to_include. cbn [In].
          repeat (first [left; reflexivity | right]).
        + unfold NCAAF.Boxscore.away_points. now rewrite Haway.
      - exists "home_points",
          (fun self => fmap CInt (NCAAF.Boxscore.home_points self)).
        split.
        + unfold NCAAF.Boxscore.fields_to_include. cbn [In].
          repeat (first [left; reflexivity | right]).
        + unfold NCAAF.Boxscore.home_points. now rewrite Hhome. }
    destruct Hcolumn as (name & property & Hin & Hraise).
    unfold NCAAF.Boxscore.dataframe.
    assert (Hunset : (away <- getattr self "_away_points" ;;
                      if is_None away
                      then home <- getattr self "_home_points" ;;
                           Ok (is_None home)
                      else Ok false) = Ok false).
    { destruct Hhalf as [[-> ->] | [-> _]]; reflexivity. }
    destruct (getattr self "_away_points") as [away|]; [|discriminate].
    cbn [bind] in Hunset |- *. rewrite Hunset. cbn [bind].
    destruct (dict_display self NCAAF.Boxscore.fields_to_include)
      as [row|e] eqn:Hrow; [|now exists e].
    apply dict_display_Ok in Hrow.
    destruct (Forall2_entry _ _ _ _ Hrow Hin) as (column & _ & Hvalue).
    cbn [snd] in Hvalue. congruence.
  - intros score Hhalf.
    assert (Hcolumn : exists name property,
               In (name, property) MLB.Boxscore.fields_to_include
               /\ property self = Raise TypeError).
    { destruct Hhalf as [[Haway _] | [_ Hhome]].
      - exists "away_runs",
          (fun self => fmap CInt (MLB.Boxscore.away_runs self)).
        split.
        + unfold MLB.Boxscore.fields_to_include. cbn [In].
          repeat (first [left; reflexivity | right]).
        + unfold MLB.Boxscore.away_runs. now rewrite Haway.
      - exists "home_runs",
          (fun self => fmap CInt (MLB.Boxscore.home_runs self)).
        split.
        + unfold MLB.Boxscore.fields_to_include. cbn [In].
          repeat (first [left; reflexivity | right]).
        + unfold MLB.Boxscore.home_runs. now rewrite Hhome. }
    destruct Hcolumn as (name & property & Hin & Hraise).
    unfold MLB.Boxscore.dataframe.
    assert (Hunset : (away <- getattr self "_away_runs" ;;
                      if is_None away
                      then home <- getattr self "_home_runs" ;;
                           Ok (is_None home)
                      else Ok false) = Ok false).
    { destruct Hhalf as [[-> ->] | [-> _]]; reflexivity. }
    destruct (getattr self "_away_runs") as [away|]; [|discriminate].
    cbn [bind] in Hunset |- *. rewrite Hunset. cbn [bind].
    destruct (dict_display self MLB.Boxscore.fields_to_include)
      as [row|e] eqn:Hrow; [|now exists e].
    apply dict_display_Ok in Hrow.
    destruct (Forall2_entry _ _ _ _ Hrow Hin) as (column & _ & Hvalue).
    cbn [snd] in Hvalue. congruence.
Qed.

End HalfScored.

(** ** The properties above, on the small web *)

Lemma single_game_reads_the_fixed_index_witness :
  MLB.Boxscore._parse_game_date_and_location (E := Web.online)
    (C := Web.mlb_constants) "venue" [Web.mlb_game_page]
  = Ok "Venue: Fenway Park"
  /\ MLB.Boxscore._parse_game_date_and_location (E := Web.online)
       (C := Web.mlb_constants) "venue"
       [Web.game_page_of "Thursday, June 7, 2018"]
     = Raise IndexError
  /\ MLB.Boxscore._parse_game_date_and_location (E := Web.online)
       (C := Web.mlb_constants_without_markers) "venue"
       [Web.game_page_of Example.doubleheader_block]
     = Raise KeyError
  /\ MLB.Boxscore._parse_game_date_and_location (E := Web.online)
       (C := Web.mlb_constants) "venue" [Web.mlb_index_page]
     = Raise IndexError
  /\ MLB.Boxscore._parse_game_date_and_location (E := Web.online)
       (C := Web.mlb_constants) "weather" [Web.mlb_game_page]
     = Raise KeyError.
Proof.
  split; [|split; [|split; [|split]]].
  - refine (proj1 (proj1 (proj2 (proj2 (proj2
              (single_game_reads_the_fixed_index (E := Web.online)
                 (C := Web.mlb_constants) "venue" [Web.mlb_game_page])
              Web.scorebox_meta eq_refl) 3 eq_refl)
              (Web.node_text Web.mlb_meta) [] eq_refl) eq_refl)
              "Venue: Fenway Park" eq_refl).
  - refine (proj2 (proj1 (proj2 (proj2 (proj2
              (single_game_reads_the_fixed_index (E := Web.online)
                 (C := Web.mlb_constants) "venue"
                 [Web.game_page_of "Thursday, June 7, 2018"])
              Web.scorebox_meta eq_refl) 3 eq_refl)
              "Thursday, June 7, 2018" [] eq_refl) eq_refl) _).
    vm_compute. lia.
  - refine (proj2 (proj2 (proj2 (proj2
              (single_game_reads_the_fixed_index (E := Web.online)
                 (C := Web.mlb_constants_without_markers) "venue"
                 [Web.game_page_of Example.doubleheader_block])
              Web.scorebox_meta eq_refl) 3 eq_refl)
              Example.doubleheader_block [] eq_refl)
              eq_refl _ _ eq_refl); discriminate.
  - refine (proj1 (proj2 (proj2
              (single_game_reads_the_fixed_index (E := Web.online)
                 (C := Web.mlb_constants) "venue" [Web.mlb_index_page])
              Web.scorebox_meta eq_refl) 3 eq_refl) eq_refl).
  - refine (proj1 (single_game_reads_the_fixed_index (E := Web.online)
                     (C := Web.mlb_constants) "weather" [Web.mlb_game_page])
              eq_refl).
Defined.

Lemma ncaaf_narrative_parser_returns_witness :
  NCAAF.Boxscore._parse_game_date_and_location (E := Web.online)
    (C := Web.ncaaf_constants) "time" [Web.ncaaf_game_page]
  = Ok "Start Time: 8:00 PM ET"
  /\ NCAAF.Boxscore._parse_game_date_and_location (E := Web.online)
       (C := Web.ncaaf_constants) "time" [Web.ncaaf_index_page]
     = Raise IndexError
  /\ NCAAF.Boxscore._parse_game_date_and_location (E := Web.online)
       (C := Web.ncaaf_constants) "weather" [Web.ncaaf_game_page]
     = Raise KeyError.
Proof.
  split; [|split].
  - refine (proj2 (proj2 (proj2 (ncaaf_narrative_parser_returns
                                   (E := Web.online) (C := Web.ncaaf_constants)
                                   "time" [Web.ncaaf_game_page])
                            Web.scorebox_meta eq_refl)
                     [Web.ncaaf_meta] [] eq_refl) 1 eq_refl).
  - refine (proj1 (proj2 (ncaaf_narrative_parser_returns
                            (E := Web.online) (C := Web.ncaaf_constants)
                            "time" [Web.ncaaf_index_page])
                     Web.scorebox_meta eq_refl) eq_refl).
  - refine (proj1 (ncaaf_narrative_parser_returns
                     (E := Web.online) (C := Web.ncaaf_constants)
                     "weather" [Web.ncaaf_game_page]) eq_refl).
Defined.

Lemma doubleheader_time_of_day_witness :
  (MLB.Boxscore._parse_game_date_and_location (E := Web.online)
     (C := Web.mlb_constants) "time_of_day"
     [Web.game_page_of Web.short_doubleheader_block] = Ok EmptyString
   /\ MLB.Boxscore.time_of_day [("_time_of_day", RStr EmptyString)] = Ok DAY)
  /\ (MLB.Boxscore._parse_game_date_and_location (E := Web.online)
        (C := Web.mlb_constants) "time_of_day"
        [Web.game_page_of Example.doubleheader_block]
      = Ok "Night Game, on grass"
      /\ MLB.Boxscore.time_of_day
           [("_time_of_day", RStr "Night Game, on grass")] = Ok NIGHT)
  /\ (MLB.Boxscore._parse_game_date_and_location (E := Web.online)
        (C := Web.mlb_constants) "time_of_day"
        [Web.game_page_of Web.day_doubleheader_block]
      = Ok "Day Game, on grass"
      /\ MLB.Boxscore.time_of_day
           [("_time_of_day", RStr "Day Game, on grass")] = Ok DAY).
Proof.
  split; [|split].
  - destruct (doubleheader_time_of_day (E := Web.online)
                (C := Web.mlb_constants) Web.scorebox_meta
                [Web.game_page_of Web.short_doubleheader_block] 5
                [("_time_of_day", RStr EmptyString)] eq_refl eq_refl eq_refl)
      as (value & Hvalue & Hnone & _ & Hprop).
    pose proof (Hnone eq_refl) as Hempty. subst value.
    split; [exact Hvalue|].
    exact (proj1 (proj2 (Hprop eq_refl)) eq_refl).
  - destruct (doubleheader_time_of_day (E := Web.online)
                (C := Web.mlb_constants) Web.scorebox_meta
                [Web.game_page_of Example.doubleheader_block] 5
                [("_time_of_day", RStr "Night Game, on grass")]
                eq_refl eq_refl eq_refl)
      as (value & Hvalue & _ & Hsome & Hprop).
    pose proof (proj1 (Hsome "Night Game, on grass" eq_refl)) as Hline.
    subst value. split; [exact Hvalue|].
    exact (proj1 (proj2 (proj2 (Hprop eq_refl)) "Night Game, on grass"
                    eq_refl) eq_refl).
  - destruct (doubleheader_time_of_day (E := Web.online)
                (C := Web.mlb_constants) Web.scorebox_meta
                [Web.game_page_of Web.day_doubleheader_block] 5
                [("_time_of_day", RStr "Day Game, on grass")]
                eq_refl eq_refl eq_refl)
      as (value & Hvalue & _ & Hsome & Hprop).
    pose proof (proj1 (Hsome "Day Game, on grass" eq_refl)) as Hline.
    subst value. split; [exact Hvalue|].
    exact (proj2 (proj2 (proj2 (Hprop eq_refl)) "Day Game, on grass"
                    eq_refl) eq_refl).
Defined.

Lemma finder_gives_one_summary_per_table_witness :
  (exists l,
      NCAAF.Boxscores._extract_game_info (E := Web.online)
        (game_tables (H := Web.online) [Web.ncaaf_index_page]) = Ok l
      /\ List.length l = 2)
  /\ MLB.Boxscores._extract_game_info (E := Web.online)
       [[Web.mlb_game_table]; [Web.broken_table]] = Raise IndexError
  /\ MLB.Boxscores.__init__ (E := Web.online) (C := Web.mlb_constants)
       {| year := 2018; month := 12; day := 25 |} = Ok [].
Proof.
  split; [|split].
  - exact (proj1 (proj1 (finder_gives_one_summary_per_table
                           (E := Web.online) (C := Web.mlb_constants)
                           (game_tables (H := Web.online)
                              [Web.ncaaf_index_page]))
                    eq_refl)).
  - exact (proj2 (proj1 (proj2 (finder_gives_one_summary_per_table
                                  (E := Web.online) (C := Web.mlb_constants)
                                  [[Web.mlb_game_table]; [Web.broken_table]]))
                    eq_refl)).
  - exact (proj2 (proj2 (proj2 (finder_gives_one_summary_per_table
                                  (E := Web.online) (C := Web.mlb_constants)
                                  []))
                    {| year := 2018; month := 12; day := 25 |}
                    [Web.mlb_empty_index_page] eq_refl) eq_refl).
Defined.

Lemma finder_summaries_follow_the_tables_witness :
  exists first second,
    NCAAF.Boxscores._extract_game_info (E := Web.online)
      (game_tables (H := Web.online) [Web.ncaaf_index_page])
    = Ok [first; second]
    /\ ncaaf_summary_of (H := Web.online) [Web.ncaaf_game_table] first
    /\ ncaaf_summary_of (H := Web.online) [Web.ncaaf_non_di_table] second
    /\ NCAAF.Boxscores.non_di first = false
    /\ NCAAF.Boxscores.non_di second = true.
Proof.
  evar (first : NCAAF.Boxscores.game). evar (second : NCAAF.Boxscores.game).
  assert (Hl : NCAAF.Boxscores._extract_game_info (E := Web.online)
                 (game_tables (H := Web.online) [Web.ncaaf_index_page])
               = Ok [first; second]).
  { subst first second. vm_compute. reflexivity. }
  pose proof (proj1 (finder_summaries_follow_the_tables (E := Web.online) _)
                _ Hl) as Hall.
  inversion Hall as [|g1 i1 gs l1 H1 Hrest]; subst.
  inversion Hrest as [|g2 i2 gs2 l2 H2 _]; subst.
  exists first, second.
  split; [exact Hl|]. split; [exact H1|]. split; [exact H2|].
  split; reflexivity.
Defined.



Lemma winner_and_loser_are_the_two_sides_witness :
  NCAAF.Boxscore.winning_name Web.ncaaf_tied = Ok "Alabama"
  /\ NCAAF.Boxscore.losing_name Web.ncaaf_tied = Ok "Georgia"
  /\ MLB.Boxscore.winning_abbr (E := Web.online) Web.mlb_played
     = utils_parse_abbreviation (Env := Web.online)
         (RTag (Web.node_html Web.tigers) (Web.node_text Web.tigers)).
Proof.
  split; [|split].
  - refine (proj1 (proj1 (winner_and_loser_are_the_two_sides
                            (E := Web.online) Web.ncaaf_tied 26 26)
                     eq_refl eq_refl)).
  - refine (proj2 (proj1 (winner_and_loser_are_the_two_sides
                            (E := Web.online) Web.ncaaf_tied 26 26)
                     eq_refl eq_refl)).
  - refine (proj1 (proj2 (proj2 (proj2 (winner_and_loser_are_the_two_sides
                                          (E := Web.online) Web.mlb_played 3 7)
                                   eq_refl eq_refl)))).
Defined.

Lemma non_di_abbreviation_is_the_name_witness :
  NCAAF.Boxscore.winning_abbr (E := Web.online) Web.ncaaf_non_di_winner
  = Ok "Savannah State"
  /\ NCAAF.Boxscore.winning_abbr (E := Web.online) Web.ncaaf_non_di_winner
     = NCAAF.Boxscore.winning_name Web.ncaaf_non_di_winner.
Proof.
  destruct (proj1 (non_di_abbreviation_is_the_name (E := Web.online)
                     Web.ncaaf_non_di_winner AWAY
                     (RTag (Web.node_html Web.savannah_state)
                        (Web.node_text Web.savannah_state))
                     eq_refl eq_refl) eq_refl)
    as [Hname Htext].
  split; [exact Htext | exact Hname].
Defined.

Lemma label_is_removed_witness :
  MLB.Boxscore.time [("_time", RStr "Start Time: 7:10 p.m. Local")]
  = Ok "7:10 p.m. Local"
  /\ NCAAF.Boxscore.stadium [("_stadium", RStr EmptyString)] = Ok EmptyString.
Proof.
  split.
  - refine (proj1 (label_is_removed MLB.Boxscore.time "_time" "Start Time: " _
                     [("_time", RStr "Start Time: 7:10 p.m. Local")]
                     "7:10 p.m. Local" eq_refl) eq_refl).
    unfold label_accessors. cbn [In]. now left.
  - refine (proj2 (label_is_removed NCAAF.Boxscore.stadium "_stadium"
                     "Stadium: " _ [("_stadium", RStr EmptyString)]
                     EmptyString eq_refl) eq_refl).
    unfold label_accessors. cbn [In]. do 4 right. now left.
Defined.

Lemma attendance_returns_on_every_text_witness :
  MLB.Boxscore.attendance [("_attendance", RStr "Attendance: 36,513")]
  = Ok 36513%Z
  /\ MLB.Boxscore.attendance [("_attendance", RStr EmptyString)] = Ok 0%Z
  /\ MLB.Boxscore.attendance
       [("_attendance", RStr ("Attendance: " ++ String "031" "7"))]
     = Ok 0%Z.
Proof.
  split; [|split].
  - refine (proj1 (proj2 (attendance_returns_on_every_text
                            [("_attendance", RStr "Attendance: 36,513")]
                            "Attendance: 36,513" eq_refl))
              "36,513" 36513 eq_refl eq_refl _).
    vm_compute. reflexivity.
  - refine (proj1 (proj2 (proj2 (proj2 (attendance_returns_on_every_text
                                          [("_attendance", RStr EmptyString)]
                                          EmptyString eq_refl)))) eq_refl).
  - refine (proj2 (proj2 (proj2 (proj2 (attendance_returns_on_every_text
                                          [("_attendance",
                                            RStr ("Attendance: "
                                                  ++ String "031" "7"))]
                                          ("Attendance: " ++ String "031" "7")
                                          eq_refl))))
              "031"%char "7" eq_refl eq_refl eq_refl).
Defined.

Lemma inherited_numbers_default_on_text_only_witness :
  MLB.Boxscore.away_inherited_runners
    [("_away_inherited_runners", RStr EmptyString)] = Ok 0%Z
  /\ MLB.Boxscore.home_inherited_score [("_home_inherited_score", RNone)]
     = Raise TypeError
  /\ MLB.Boxscore.home_inherited_score
       [("_home_inherited_score", RStr (str_of_nat 2))] = Ok 2%Z
  /\ MLB.Boxscore.away_inherited_score
       [("_away_inherited_score", RStr (String "031" "7"))] = Ok 0%Z.
Proof.
  split; [|split; [|split]].
  - refine (proj1 (proj2 (proj2 (inherited_numbers_default_on_text_only
                                   MLB.Boxscore.away_inherited_runners
                                   "_away_inherited_runners" _
                                   [("_away_inherited_runners",
                                     RStr EmptyString)]))) eq_refl).
    unfold defaulted_accessors. cbn [In]. now left.
  - refine (proj1 (proj2 (proj2 (proj2 (inherited_numbers_default_on_text_only
                                          MLB.Boxscore.home_inherited_score
                                          "_home_inherited_score" _
                                          [("_home_inherited_score", RNone)]))))
              eq_refl).
    unfold defaulted_accessors. cbn [In]. do 3 right. now left.
  - refine (proj1 (proj2 (inherited_numbers_default_on_text_only
                            MLB.Boxscore.home_inherited_score
                            "_home_inherited_score" _
                            [("_home_inherited_score",
                              RStr (str_of_nat 2))])) 2 eq_refl).
    unfold defaulted_accessors. cbn [In]. do 3 right. now left.
  - refine (proj2 (proj2 (proj2 (proj2 (inherited_numbers_default_on_text_only
                                          MLB.Boxscore.away_inherited_score
                                          "_away_inherited_score" _
                                          [("_away_inherited_score",
                                            RStr (String "031" "7"))]))))
              "031"%char "7" eq_refl eq_refl).
    unfold defaulted_accessors. cbn [In]. right. now left.
Defined.

Lemma dataframe_with_one_score_raises_witness :
  exists e,
    NCAAF.Boxscore.dataframe (E := Web.online) Web.ncaaf_half_scored = Raise e.
Proof.
  refine (proj1 (proj2 (proj2 (dataframe_with_one_score_raises
                                 (E := Web.online) Web.ncaaf_half_scored)))
            "23" (or_introl (conj eq_refl eq_refl))).
Defined.

Lemma ncaaf_name_abbreviation_and_flag_witness :
  NCAAF.Boxscores._get_name (E := Web.online) [Web.alabama]
  = ("Alabama", "alabama", false)
  /\ snd (fst (NCAAF.Boxscores._get_name (E := Web.online) [Web.alabama]))
     <> EmptyString
  /\ snd (fst (NCAAF.Boxscores._get_name (E := Web.online)
                 [Web.savannah_state]))
     = "Savannah State".
Proof.
  pose proof (ncaaf_name_abbreviation_and_flag (E := Web.online)
                [Web.alabama]) as Hdi.
  pose proof (ncaaf_name_abbreviation_and_flag (E := Web.online)
                [Web.savannah_state]) as Hnon.
  destruct (NCAAF.Boxscores._get_name (E := Web.online) [Web.alabama])
    as [[name abbr] non_di] eqn:Hdi_name.
  destruct (NCAAF.Boxscores._get_name (E := Web.online) [Web.savannah_state])
    as [[name' abbr'] non_di'] eqn:Hnon_name.
  vm_compute in Hdi_name. vm_compute in Hnon_name.
  injection Hdi_name as <- <- <-. injection Hnon_name as <- <- <-.
  destruct Hdi as (_ & _ & Hcode & _).
  destruct Hnon as (_ & Hname & _ & _).
  split; [reflexivity|]. split.
  - cbn [fst snd]. exact (proj2 (proj2 (Hcode eq_refl))).
  - cbn [fst snd]. exact (Hname eq_refl).
Defined.

(** ** What the columns read *)

Section Reads.
Context `{E : Env}.

Ltac head_of t :=
  match t with
  | ?f _ => head_of f
  | _ => t
  end.

Ltac column_reads Hres Hget :=
  try (vm_compute in Hres; discriminate Hres);
  match type of Hget with
  | getattr _ ?a = _ =>
      let a' := eval vm_compute in a in change a with a' in Hget
  end;
  cbv beta;
  match goal with
  | |- fmap _ ?t = _ => let f := head_of t in unfold f
  end;
  rewrite Hget; reflexivity.

Lemma mlb_column_reads (name : string) (property : instance -> result cell)
    (self self' : instance) :
  In (name, property) MLB.Boxscore.fields_to_include ->
  is_result_column name = false ->
  getattr self (mlb_attribute_of name) = getattr self' (mlb_attribute_of name) ->
  property self = property self'.
Proof.
  intros Hin Hres Hget.
  unfold MLB.Boxscore.fields_to_include in Hin. cbn [In] in Hin.
  repeat (destruct Hin as [[= <- <-] | Hin]; [column_reads Hres Hget|]).
  contradiction.
Qed.

Lemma ncaaf_column_reads (name : string) (property : instance -> result cell)
    (self self' : instance) :
  In (name, property) NCAAF.Boxscore.fields_to_include ->
  is_result_column name = false ->
  getattr self (ncaaf_attribute_of name)
  = getattr self' (ncaaf_attribute_of name) ->
  property self = property self'.
Proof.
  intros Hin Hres Hget.
  unfold NCAAF.Boxscore.fields_to_include in Hin. cbn [In] in Hin.
  repeat (destruct Hin as [[= <- <-] | Hin]; [column_reads Hres Hget|]).
  contradiction.
Qed.

Lemma agree_In (attributes : list string) (self self' : instance) (a : string) :
  agree attributes self self' -> one_of a attributes = true ->
  getattr self a = getattr self' a.
Proof.
  unfold agree. rewrite Forall_forall. intros Hagree Hin.
  apply Hagree, one_of_In, Hin.
Qed.

Ltac result_reads Hres H1 H2 H3 H4 :=
  try (vm_compute in Hres; discriminate Hres);
  cbv beta;
  unfold MLB.Boxscore.winning_name, MLB.Boxscore.winning_abbr,
    MLB.Boxscore.losing_name, MLB.Boxscore.losing_abbr, MLB.Boxscore.winner,
    MLB.Boxscore.home_runs, MLB.Boxscore.away_runs,
    NCAAF.Boxscore.winning_name, NCAAF.Boxscore.winning_abbr,
    NCAAF.Boxscore.losing_name, NCAAF.Boxscore.losing_abbr,
    NCAAF.Boxscore.winner, NCAAF.Boxscore.home_points,
    NCAAF.Boxscore.away_points;
  rewrite ?H1, ?H2, ?H3, ?H4; reflexivity.

Lemma mlb_result_reads (name : string) (property : instance -> result cell)
    (self self' : instance) :
  In (name, property) MLB.Boxscore.fields_to_include ->
  is_result_column name = true ->
  agree mlb_result_attributes self self' ->
  property self = property self'.
Proof.
  intros Hin Hres Hagree.
  pose proof (agree_In _ _ _ "_home_runs" Hagree eq_refl) as H1.
  pose proof (agree_In _ _ _ "_away_runs" Hagree eq_refl) as H2.
  pose proof (agree_In _ _ _ "_home_name" Hagree eq_refl) as H3.
  pose proof (agree_In _ _ _ "_away_name" Hagree eq_refl) as H4.
  unfold MLB.Boxscore.fields_to_include in Hin. cbn [In] in Hin.
  repeat (destruct Hin as [[= <- <-] | Hin]; [result_reads Hres H1 H2 H3 H4|]).
  contradiction.
Qed.

Lemma ncaaf_result_reads (name : string) (property : instance -> result cell)
    (self self' : instance) :
  In (name, property) NCAAF.Boxscore.fields_to_include ->
  is_result_column name = true ->
  agree ncaaf_result_attributes self self' ->
  property self = property self'.
Proof.
  intros Hin Hres Hagree.
  pose proof (agree_In _ _ _ "_home_points" Hagree eq_refl) as H1.
  pose proof (agree_In _ _ _ "_away_points" Hagree eq_refl) as H2.
  pose proof (agree_In _ _ _ "_home_name" Hagree eq_refl) as H3.
  pose proof (agree_In _ _ _ "_away_name" Hagree eq_refl) as H4.
  unfold NCAAF.Boxscore.fields_to_include in Hin. cbn [In] in Hin.
  repeat (destruct Hin as [[= <- <-] | Hin]; [result_reads Hres H1 H2 H3 H4|]).
  contradiction.
Qed.

(** X21. Every column of the table is computed from the attributes of the
    instance alone, and from few of them: a result column ([winner] and
    the four names) from the two scores and the two name tags, every other
    column from one attribute.  In MLB that attribute is the one of the
    column's name; in NCAAF too, but for [away_fumbles_lost], computed
    from [_away_fumbles], and [home_interceptions], computed from
    [_home_pass_touchdowns]. *)
Theorem columns_are_computed_from_few_attributes (name : string)
    (property : instance -> result cell) (self self' : instance) :
  (In (name, property) MLB.Boxscore.fields_to_include ->
   (is_result_column name = false ->
    getattr self (mlb_attribute_of name)
    = getattr self' (mlb_attribute_of name) ->
    property self = property self')
   /\ (is_result_column name = true ->
       agree mlb_result_attributes self self' ->
       property self = property self'))
  /\ (In (name, property) NCAAF.Boxscore.fields_to_include ->
      (is_result_column name = false ->
       getattr self (ncaaf_attribute_of name)
       = getattr self' (ncaaf_attribute_of name) ->
       property self = property self')
      /\ (is_result_column name = true ->
          agree ncaaf_result_attributes self self' ->
          property self = property self')).
Proof.
  split; intros Hin; split; intros Hres Hsame.
  - exact (mlb_column_reads _ _ _ _ Hin Hres Hsame).
  - exact (mlb_result_reads _ _ _ _ Hin Hres Hsame).
  - exact (ncaaf_column_reads _ _ _ _ Hin Hres Hsame).
  - exact (ncaaf_result_reads _ _ _ _ Hin Hres Hsame).
Qed.

Lemma dict_display_agree (self self' : instance)
    (entries : list (string * (instance -> result cell))) :
  Forall (fun entry => snd entry self = snd entry self') entries ->
  dict_display self entries = dict_display self' entries.
Proof.
  induction 1 as [|[k e] rest Hhere _ IH]; [reflexivity|].
  cbn [dict_display]. cbn [snd] in Hhere. now rewrite Hhere, IH.
Qed.

Lemma setattr_not_read (self : instance) (k a : string) (v : raw)
    (read : list string) :
  one_of k read = false -> In a read ->
  getattr (setattr self k v) a = getattr self a.
Proof.
  intros Hk Ha. apply getattr_setattr_other. intros ->.
  apply one_of_In in Ha. congruence.
Qed.

Lemma not_result_column_read (attribute_of : string -> string)
    (entries : list (string * (instance -> result cell))) (name : string)
    (property : instance -> result cell) :
  In (name, property) entries ->
  is_result_column name = false ->
  In (attribute_of name)
    (map attribute_of
       (filter (fun c => negb (is_result_column c)) (map fst entries))).
Proof.
  intros Hin Hres. apply in_map, filter_In. split.
  - exact (in_map fst _ _ Hin).
  - now rewrite Hres.
Qed.

(** X22. [dataframe] reads nothing but the attributes of the columns, the
    scores, the name tags and [_uri]: giving any other attribute another
    value changes neither what it returns nor what it raises.  Of the
    attributes the constructor assigns, the five derived ones are never
    read, and in NCAAF neither are [_away_fumbles_lost] and
    [_home_interceptions]: what the page holds for them is not shown. *)
Theorem table_ignores_attributes_never_read (self : instance) (k : string)
    (v : raw) :
  (one_of k ncaaf_attributes_read = false ->
   NCAAF.Boxscore.dataframe (setattr self k v) = NCAAF.Boxscore.dataframe self)
  /\ (one_of k mlb_attributes_read = false ->
      MLB.Boxscore.dataframe (setattr self k v) = MLB.Boxscore.dataframe self)
  /\ ncaaf_attributes_never_read
     = ["_winner"; "_winning_name"; "_winning_abbr"; "_losing_name";
        "_losing_abbr"; "_away_fumbles_lost"; "_home_interceptions"]
  /\ mlb_attributes_never_read
     = ["_winner"; "_winning_name"; "_winning_abbr"; "_losing_name";
        "_losing_abbr"; "_losing_abbr"].
Proof.
  split; [|split; [|split; vm_compute; reflexivity]].
  - intros Hk.
    assert (Hread : forall a, In a ncaaf_attributes_read ->
                              getattr (setattr self k v) a = getattr self a)
      by (intros a; apply setattr_not_read, Hk).
    assert (Hfixed : forall a, one_of a ("_uri" :: ncaaf_result_attributes)
                               = true ->
                               getattr (setattr self k v) a = getattr self a).
    { intros a Ha. apply Hread. unfold ncaaf_attributes_read.
      apply one_of_In in Ha. destruct Ha as [<- | Ha]; [now left|].
      right. apply in_or_app. now left. }
    unfold NCAAF.Boxscore.dataframe.
    rewrite (Hfixed "_away_points" eq_refl), (Hfixed "_home_points" eq_refl),
      (Hfixed "_uri" eq_refl).
    rewrite (dict_display_agree (setattr self k v) self); [reflexivity|].
    apply Forall_forall. intros [name property] Hin. cbn [snd].
    destruct (is_result_column name) eqn:Hres.
    + apply (ncaaf_result_reads name _ _ _ Hin Hres).
      apply Forall_forall. intros a Ha. apply Hfixed, one_of_In. now right.
    + apply (ncaaf_column_reads name _ _ _ Hin Hres), Hread.
      right. apply in_or_app. right.
      exact (not_result_column_read ncaaf_attribute_of _ _ _ Hin Hres).
  - intros Hk.
    assert (Hread : forall a, In a mlb_attributes_read ->
                              getattr (setattr self k v) a = getattr self a)
      by (intros a; apply setattr_not_read, Hk).
    assert (Hfixed : forall a, one_of a ("_uri" :: mlb_result_attributes)
                               = true ->
                               getattr (setattr self k v) a = getattr self a).
    { intros a Ha. apply Hread. unfold mlb_attributes_read.
      apply one_of_In in Ha. destruct Ha as [<- | Ha]; [now left|].
      right. apply in_or_app. now left. }
    unfold MLB.Boxscore.dataframe.
    rewrite (Hfixed "_away_runs" eq_refl), (Hfixed "_home_runs" eq_refl),
      (Hfixed "_uri" eq_refl).
    rewrite (dict_display_agree (setattr self k v) self); [reflexivity|].
    apply Forall_forall. intros [name property] Hin. cbn [snd].
    destruct (is_result_column name) eqn:Hres.
    + apply (mlb_result_reads name _ _ _ Hin Hres).
      apply Forall_forall. intros a Ha. apply Hfixed, one_of_In. now right.
    + apply (mlb_column_reads name _ _ _ Hin Hres), Hread.
      right. apply in_or_app. right.
      exact (not_result_column_read mlb_attribute_of _ _ _ Hin Hres).
Qed.

End Reads.

Lemma columns_are_computed_from_few_attributes_witness :
  fmap (CInt (H := Web.online))
    (NCAAF.Boxscore.home_interceptions
       [("_home_pass_touchdowns", RStr "20-30-250-2-1");
        ("_home_interceptions", RStr "5")])
  = fmap CInt
      (NCAAF.Boxscore.home_interceptions
         [("_home_pass_touchdowns", RStr "20-30-250-2-1");
          ("_home_interceptions", RStr "0")])
  /\ fmap (CSide (H := Web.online)) (MLB.Boxscore.winner Web.mlb_played)
     = fmap CSide
         (MLB.Boxscore.winner
            (setattr Web.mlb_played "_venue" (RStr "Venue: Fenway Park"))).
Proof.
  split.
  - refine (proj1 (proj2 (columns_are_computed_from_few_attributes
                            (E := Web.online) "home_interceptions"
                            (fun self =>
                               fmap CInt
                                 (NCAAF.Boxscore.home_interceptions self))
                            [("_home_pass_touchdowns", RStr "20-30-250-2-1");
                             ("_home_interceptions", RStr "5")]
                            [("_home_pass_touchdowns", RStr "20-30-250-2-1");
                             ("_home_interceptions", RStr "0")]) _)
              eq_refl eq_refl).
    unfold NCAAF.Boxscore.fields_to_include. cbn [In].
    repeat (first [left; reflexivity | right]).
  - refine (proj2 (proj1 (columns_are_computed_from_few_attributes
                            (E := Web.online) "winner"
                            (fun self => fmap CSide (MLB.Boxscore.winner self))
                            Web.mlb_played
                            (setattr Web.mlb_played "_venue"
                               (RStr "Venue: Fenway Park"))) _)
              eq_refl _).
    + unfold MLB.Boxscore.fields_to_include. cbn [In].
      repeat (first [left; reflexivity | right]).
    + unfold agree, mlb_result_attributes.
      repeat (apply Forall_cons; [reflexivity|]). apply Forall_nil.
Defined.

Lemma table_ignores_attributes_never_read_witness :
  NCAAF.Boxscore.dataframe (E := Web.online)
    (setattr Web.ncaaf_played "_home_interceptions" (RStr "9"))
  = NCAAF.Boxscore.dataframe Web.ncaaf_played
  /\ MLB.Boxscore.dataframe (E := Web.online)
       (setattr Web.mlb_played "_winner" (RStr "Home"))
     = MLB.Boxscore.dataframe Web.mlb_played.
Proof.
  split.
  - refine (proj1 (table_ignores_attributes_never_read (E := Web.online)
                     Web.ncaaf_played "_home_interceptions" (RStr "9")) _).
    vm_compute. reflexivity.
  - refine (proj1 (proj2 (table_ignores_attributes_never_read
                            (E := Web.online) Web.mlb_played "_winner"
                            (RStr "Home"))) _).
    vm_compute. reflexivity.
Defined.
